(** * vt100.c: the terminal interpreter and the UART byte FIFO

    A shallow embedding of [vt100_update], [terminal_escape_sequences], the
    cursor helpers and the [fifo_*] functions of [src/vt100.c], with the
    properties of the interpreter stated over it; and of
    [texture_background] and the keyboard handlers, which read and drive
    the interpreter's terminal.

    Conventions.
    - [unsigned] is 32 bits, [size_t] 64 bits, [uint8_t] 8 bits; a value of
      one of these types is a [Z] and every operation that can leave the
      range writes its wrap-around out ([u32], [usize], [u8]).  A conversion
      to [int] is [to_int].
    - The arrays [m] and [attributes] of [vt100_t] are lists (of
      [VT100_MAX_SIZE] elements in a well-typed terminal); a store is stdpp's
      list insert.
    - A failed [assert] is the result [None].
    - [x / 0] and [x % 0] are undefined in C; every statement below is about
      terminals of positive width and height. *)

From Stdlib Require Import ZArith Lia Bool.
From stdpp Require Import base list.

Local Open Scope Z_scope.

(** ** Machine integers *)

Definition u8 (z : Z) : Z := z mod 2 ^ 8.
Definition u32 (z : Z) : Z := z mod 2 ^ 32.
Definition usize (z : Z) : Z := z mod 2 ^ 64.

(** Conversion of a 32-bit pattern to [int] (two's complement). *)
Definition to_int (z : Z) : Z :=
  let r := z mod 2 ^ 32 in if r <? 2 ^ 31 then r else r - 2 ^ 32.

(** The macros [MAX] and [MIN]. *)
Definition MAX (x y : Z) : Z := if x >? y then x else y.
Definition MIN (x y : Z) : Z := if x <? y then x else y.

Definition VT100_MAX_SIZE : Z := 8192.
Definition BACKSPACE : Z := 8.
Definition ESCAPE : Z := 27.
Definition DELETE : Z := 127.

(** [isdigit] in the C locale. *)
Definition isdigit (c : Z) : bool := (48 <=? c) && (c <=? 57).

(** ** Data model *)

(** [color_t], in declaration order. *)
Inductive color_t := BLACK | RED | GREEN | YELLOW | BLUE | MAGENTA | CYAN | WHITE.

Definition color_index (c : color_t) : Z :=
  match c with
  | BLACK => 0 | RED => 1 | GREEN => 2 | YELLOW => 3
  | BLUE => 4 | MAGENTA => 5 | CYAN => 6 | WHITE => 7
  end.

Inductive terminal_state_t :=
  | TERMINAL_NORMAL_MODE
  | TERMINAL_CSI
  | TERMINAL_COMMAND
  | TERMINAL_NUMBER_1
  | TERMINAL_NUMBER_2
  | TERMINAL_DECTCEM
  | TERMINAL_STATE_END.

Definition is_normal (s : terminal_state_t) : bool :=
  match s with TERMINAL_NORMAL_MODE => true | _ => false end.

(** [vt100_attribute_t]: five one-bit flags and two three-bit colour
    indices. *)
Record vt100_attribute_t := mk_attribute {
  bold : bool;
  under_score : bool;
  blink : bool;
  reverse_video : bool;
  conceal : bool;
  foreground_color : Z;
  background_color : Z
}.

Definition attribute_zero : vt100_attribute_t :=
  mk_attribute false false false false false 0 0.

Definition vt100_default_attribute : vt100_attribute_t :=
  mk_attribute false false false false false (color_index WHITE) (color_index BLACK).

Record vt100_t := mk_vt100 {
  cursor : Z;
  cursor_saved : Z;
  n1 : Z;
  n2 : Z;
  height : Z;
  width : Z;
  size : Z;
  state : terminal_state_t;
  blinks : bool;
  cursor_on : bool;
  attribute : vt100_attribute_t;
  attributes : list vt100_attribute_t;
  m : list Z;
  command_index : Z
}.

(** Field stores. *)
Definition set_cursor (t : vt100_t) (v : Z) : vt100_t :=
  mk_vt100 v (cursor_saved t) (n1 t) (n2 t) (height t) (width t) (size t)
    (state t) (blinks t) (cursor_on t) (attribute t) (attributes t) (m t)
    (command_index t).

Definition set_cursor_saved (t : vt100_t) (v : Z) : vt100_t :=
  mk_vt100 (cursor t) v (n1 t) (n2 t) (height t) (width t) (size t)
    (state t) (blinks t) (cursor_on t) (attribute t) (attributes t) (m t)
    (command_index t).

Definition set_n1 (t : vt100_t) (v : Z) : vt100_t :=
  mk_vt100 (cursor t) (cursor_saved t) v (n2 t) (height t) (width t) (size t)
    (state t) (blinks t) (cursor_on t) (attribute t) (attributes t) (m t)
    (command_index t).

Definition set_n2 (t : vt100_t) (v : Z) : vt100_t :=
  mk_vt100 (cursor t) (cursor_saved t) (n1 t) v (height t) (width t) (size t)
    (state t) (blinks t) (cursor_on t) (attribute t) (attributes t) (m t)
    (command_index t).

Definition set_state (t : vt100_t) (v : terminal_state_t) : vt100_t :=
  mk_vt100 (cursor t) (cursor_saved t) (n1 t) (n2 t) (height t) (width t)
    (size t) v (blinks t) (cursor_on t) (attribute t) (attributes t) (m t)
    (command_index t).

Definition set_cursor_on (t : vt100_t) (v : bool) : vt100_t :=
  mk_vt100 (cursor t) (cursor_saved t) (n1 t) (n2 t) (height t) (width t)
    (size t) (state t) (blinks t) v (attribute t) (attributes t) (m t)
    (command_index t).

Definition set_attribute (t : vt100_t) (v : vt100_attribute_t) : vt100_t :=
  mk_vt100 (cursor t) (cursor_saved t) (n1 t) (n2 t) (height t) (width t)
    (size t) (state t) (blinks t) (cursor_on t) v (attributes t) (m t)
    (command_index t).

Definition set_attributes (t : vt100_t) (v : list vt100_attribute_t) : vt100_t :=
  mk_vt100 (cursor t) (cursor_saved t) (n1 t) (n2 t) (height t) (width t)
    (size t) (state t) (blinks t) (cursor_on t) (attribute t) v (m t)
    (command_index t).

Definition set_m (t : vt100_t) (v : list Z) : vt100_t :=
  mk_vt100 (cursor t) (cursor_saved t) (n1 t) (n2 t) (height t) (width t)
    (size t) (state t) (blinks t) (cursor_on t) (attribute t) (attributes t) v
    (command_index t).

Definition set_command_index (t : vt100_t) (v : Z) : vt100_t :=
  mk_vt100 (cursor t) (cursor_saved t) (n1 t) (n2 t) (height t) (width t)
    (size t) (state t) (blinks t) (cursor_on t) (attribute t) (attributes t)
    (m t) v.

(** [memset(a, v, n)] and the loop of [terminal_attribute_block_set]: the
    first [n] elements of the array become [v]. *)
Fixpoint block_set {A} (l : list A) (v : A) (n : nat) {struct n} : list A :=
  match n, l with
  | O, _ => l
  | S k, [] => []
  | S k, _ :: r => v :: block_set r v k
  end.

Definition memset (l : list Z) (v : Z) (n : Z) : list Z :=
  block_set l v (Z.to_nat n).

Definition terminal_attribute_block_set (t : vt100_t) (n : Z)
    (a : vt100_attribute_t) : vt100_t :=
  set_attributes t (block_set (attributes t) a (Z.to_nat n)).

(** ** Cursor helpers *)

Definition terminal_default_command_sequence (t : vt100_t) : vt100_t :=
  set_command_index (set_n2 (set_n1 t 1) 1) 0.

(** [x] and [y] are [unsigned]. *)
Definition terminal_at_xy (t : vt100_t) (x y : Z) (limit_not_wrap : bool) : vt100_t :=
  let '(x, y) :=
    if limit_not_wrap then
      let x := MAX x 0 in
      let y := MAX y 0 in
      (MIN x (u32 (width t - 1)), MIN y (u32 (height t - 1)))
    else (x mod width t, y mod height t) in
  set_cursor t (u32 (u32 (y * width t) + x)).

Definition terminal_x_current (t : vt100_t) : Z := to_int (cursor t mod width t).
Definition terminal_y_current (t : vt100_t) : Z := to_int (cursor t / width t).

(** [x] and [y] are [int]; the two maxima are converted to [unsigned] at the
    call of [terminal_at_xy]. *)
Definition terminal_at_xy_relative (t : vt100_t) (x y : Z) (limit_not_wrap : bool) : vt100_t :=
  let x_current := terminal_x_current t in
  let y_current := terminal_y_current t in
  terminal_at_xy t (u32 (MAX (to_int (x_current + x)) 0))
    (u32 (MAX (to_int (y_current + y)) 0)) limit_not_wrap.

Definition terminal_parse_attribute (a : vt100_attribute_t) (v : Z) : vt100_attribute_t :=
  match v with
  | 0 => mk_attribute false false false false false (color_index WHITE) (color_index BLACK)
  | 1 => mk_attribute true (under_score a) (blink a) (reverse_video a) (conceal a)
           (foreground_color a) (background_color a)
  | 4 => mk_attribute (bold a) true (blink a) (reverse_video a) (conceal a)
           (foreground_color a) (background_color a)
  | 5 => mk_attribute (bold a) (under_score a) true (reverse_video a) (conceal a)
           (foreground_color a) (background_color a)
  | 7 => mk_attribute (bold a) (under_score a) (blink a) true (conceal a)
           (foreground_color a) (background_color a)
  | 8 => mk_attribute (bold a) (under_score a) (blink a) (reverse_video a) true
           (foreground_color a) (background_color a)
  | _ =>
    let a := if (30 <=? v) && (v <=? 37)
             then mk_attribute (bold a) (under_score a) (blink a) (reverse_video a)
                    (conceal a) (v - 30) (background_color a)
             else a in
    if (40 <=? v) && (v <=? 47)
    then mk_attribute (bold a) (under_score a) (blink a) (reverse_video a)
           (conceal a) (foreground_color a) (v - 40)
    else a
  end.

(** ** The escape-sequence state machine *)

(** The three ways out of [terminal_escape_sequences]: the labels [success]
    and [fail], and the plain [return 0] reached by [break]. *)
Definition goto_success (t : vt100_t) : option (vt100_t * Z) :=
  Some (set_state t TERMINAL_NORMAL_MODE, 0).
Definition goto_fail (t : vt100_t) : option (vt100_t * Z) :=
  Some (set_state t TERMINAL_NORMAL_MODE, -1).
Definition return_0 (t : vt100_t) : option (vt100_t * Z) := Some (t, 0).

(** [t->nK = (t->nK * (t->command_index ? 10 : 0)) + (c - '0')] *)
Definition accumulate (t : vt100_t) (n c : Z) : Z :=
  u32 (n * (if command_index t =? 0 then 0 else 10) + (c - 48)).

(** [t->attributes[t->cursor] = t->attribute] *)
Definition store_attribute (t : vt100_t) : vt100_t :=
  set_attributes t (<[Z.to_nat (cursor t) := attribute t]> (attributes t)).

(** The cases of [switch(t->n1)] under ['J'], last to first, each falling
    through to the next as the source does. *)
Definition erase_case_0 (t : vt100_t) : option (vt100_t * Z) :=
  let t := set_m t (memset (m t) 32 (cursor t)) in
  let t := terminal_attribute_block_set t (cursor t) vt100_default_attribute in
  goto_success t.

Definition erase_case_1 (t : vt100_t) : option (vt100_t * Z) :=
  if negb (command_index t =? 0) then
    let t := set_m t (memset (m t) 32 (size t)) in
    let t := terminal_attribute_block_set t (size t) vt100_default_attribute in
    goto_success t
  else erase_case_0 t.

Definition erase_case_2 (t : vt100_t) : option (vt100_t * Z) :=
  erase_case_1 (set_cursor t 0).

Definition erase_display (t : vt100_t) : option (vt100_t * Z) :=
  if (n1 t =? 3) || (n1 t =? 2) then erase_case_2 t
  else if n1 t =? 1 then erase_case_1 t
  else if n1 t =? 0 then erase_case_0 t
  else goto_fail t.

Definition escape_csi (t : vt100_t) (c : Z) : option (vt100_t * Z) :=
  if c =? 91 (* '[' *) then return_0 (set_state t TERMINAL_COMMAND)
  else goto_fail t.

Definition escape_command (t : vt100_t) (c : Z) : option (vt100_t * Z) :=
  if c =? 115 (* 's' *) then goto_success (set_cursor_saved t (cursor t))
  else if c =? 110 (* 'n' *) then goto_success (set_cursor t (cursor_saved t))
  else if c =? 63 (* '?' *) then
    return_0 (set_state (terminal_default_command_sequence t) TERMINAL_DECTCEM)
  else if c =? 59 (* ';' *) then
    return_0 (set_state (terminal_default_command_sequence t) TERMINAL_NUMBER_2)
  else if isdigit c then
    let t := terminal_default_command_sequence t in
    let t := set_command_index t (u8 (command_index t + 1)) in
    let t := set_n1 t (u32 (c - 48)) in
    return_0 (set_state t TERMINAL_NUMBER_1)
  else goto_fail t.

Definition escape_number_1 (t : vt100_t) (c : Z) : option (vt100_t * Z) :=
  if isdigit c then
    if command_index t >? 3 then goto_fail t
    else
      let t := set_n1 t (accumulate t (n1 t) c) in
      return_0 (set_command_index t (u8 (command_index t + 1)))
  else if c =? 65 (* 'A' *) then
    goto_success (terminal_at_xy_relative t 0 (to_int (u32 (- n1 t))) true)
  else if c =? 66 (* 'B' *) then
    goto_success (terminal_at_xy_relative t 0 (to_int (n1 t)) true)
  else if c =? 67 (* 'C' *) then
    goto_success (terminal_at_xy_relative t (to_int (n1 t)) 0 true)
  else if c =? 68 (* 'D' *) then
    goto_success (terminal_at_xy_relative t (to_int (u32 (- n1 t))) 0 true)
  else if c =? 69 (* 'E' *) then
    goto_success (terminal_at_xy t 0 (n1 t) false)
  else if c =? 70 (* 'F' *) then
    goto_success (terminal_at_xy t 0 (u32 (- n1 t)) false)
  else if c =? 71 (* 'G' *) then
    goto_success (terminal_at_xy t (n1 t) (u32 (terminal_y_current t)) true)
  else if c =? 109 (* 'm' *) then
    let t := set_attribute t (terminal_parse_attribute (attribute t) (n1 t)) in
    goto_success (store_attribute t)
  else if c =? 105 (* 'i' *) then
    if (n1 t =? 5) || (n1 t =? 4) then goto_success t else goto_fail t
  else if c =? 110 (* 'n' *) then
    if n1 t =? 6 then goto_success t else goto_fail t
  else if c =? 74 (* 'J' *) then erase_display t
  else if c =? 59 (* ';' *) then
    return_0 (set_state (set_command_index t 0) TERMINAL_NUMBER_2)
  else goto_fail t.

Definition escape_number_2 (t : vt100_t) (c : Z) : option (vt100_t * Z) :=
  if isdigit c then
    if command_index t >? 3 then goto_fail t
    else
      let t := set_n2 t (accumulate t (n2 t) c) in
      return_0 (set_command_index t (u8 (command_index t + 1)))
  else if c =? 109 (* 'm' *) then
    let t := set_attribute t (terminal_parse_attribute (attribute t) (n1 t)) in
    let t := set_attribute t (terminal_parse_attribute (attribute t) (n2 t)) in
    goto_success (store_attribute t)
  else if (c =? 72 (* 'H' *)) || (c =? 102 (* 'f' *)) then
    goto_success (terminal_at_xy t (n2 t) (n1 t) true)
  else goto_fail t.

Definition escape_dectcem (t : vt100_t) (c : Z) : option (vt100_t * Z) :=
  if isdigit c then
    if command_index t >? 1 then goto_fail t
    else
      let t := set_n1 t (accumulate t (n1 t) c) in
      return_0 (set_command_index t (u8 (command_index t + 1)))
  else if negb (n1 t =? 25) then goto_fail t
  else if c =? 108 (* 'l' *) then goto_success (set_cursor_on t false)
  else if c =? 104 (* 'h' *) then goto_success (set_cursor_on t true)
  else goto_fail t.

(** The result pairs the updated terminal with the [int] returned; [None]
    is the failed [assert(t->state != TERMINAL_NORMAL_MODE)]. *)
Definition terminal_escape_sequences (t : vt100_t) (c : Z) : option (vt100_t * Z) :=
  match state t with
  | TERMINAL_NORMAL_MODE => None
  | TERMINAL_CSI => escape_csi t c
  | TERMINAL_COMMAND => escape_command t c
  | TERMINAL_NUMBER_1 => escape_number_1 t c
  | TERMINAL_NUMBER_2 => escape_number_2 t c
  | TERMINAL_DECTCEM => escape_dectcem t c
  | TERMINAL_STATE_END => return_0 (set_state t TERMINAL_NORMAL_MODE)
  end.

(** ** [vt100_update] *)

(** The [switch(c)] of normal mode. [None] is the failed
    [assert(t->cursor < t->size)]. *)
Definition normal_mode_byte (t : vt100_t) (c : Z) : option vt100_t :=
  if c =? ESCAPE then Some (set_state t TERMINAL_CSI)
  else if c =? 9 (* '\t' *) then
    let t := set_cursor t (usize (cursor t + 8)) in
    Some (set_cursor t (Z.land (cursor t) (usize (Z.lnot 7))))
  else if (c =? 13 (* '\r' *)) || (c =? 10 (* '\n' *)) then
    let t := set_cursor t (usize (cursor t + width t)) in
    Some (set_cursor t (usize ((cursor t / width t) * width t)))
  else if (c =? DELETE) || (c =? BACKSPACE) then
    let t := terminal_at_xy_relative t (to_int (-1)) 0 true in
    Some (set_m t (<[Z.to_nat (cursor t) := 32]> (m t)))
  else
    if cursor t <? size t then
      let t := set_m t (<[Z.to_nat (cursor t) := c]> (m t)) in
      let t := store_attribute t in
      Some (set_cursor t (usize (cursor t + 1)))
    else None.

(** The clear-on-overflow and the final [t->cursor %= t->size]. *)
Definition normal_mode_wrap (t : vt100_t) : vt100_t :=
  let t :=
    if cursor t >=? size t then
      let t := terminal_attribute_block_set t (size t) vt100_default_attribute in
      set_m t (memset (m t) 32 (size t))
    else t in
  set_cursor t (cursor t mod size t).

Definition vt100_update (t : vt100_t) (c : Z) : option vt100_t :=
  if negb (size t <=? VT100_MAX_SIZE) then None
  else if negb (u32 (width t * height t) <=? VT100_MAX_SIZE) then None
  else if negb (is_normal (state t)) then
    match terminal_escape_sequences t c with
    | Some (t, r) =>
        if negb (r =? 0) then Some (set_state t TERMINAL_NORMAL_MODE) else Some t
    | None => None
    end
  else
    match normal_mode_byte t c with
    | Some t => Some (normal_mode_wrap t)
    | None => None
    end.

(** Feeding a sequence of bytes, first to last. *)
Fixpoint vt100_feed (t : vt100_t) (bs : list Z) : option vt100_t :=
  match bs with
  | [] => Some t
  | c :: r =>
      match vt100_update t c with
      | Some t' => vt100_feed t' r
      | None => None
      end
  end.

(** The terminal as [main] leaves it before the first byte: the static
    initialiser of [vga_terminal], the [memset] of [initialize_rendering] and
    [vt100_initialize], for a screen of [w] by [h] cells. *)
Definition vt100_initial (w h : Z) : vt100_t :=
  mk_vt100 0 0 1 1 h w (w * h) TERMINAL_NORMAL_MODE false true
    vt100_default_attribute
    (block_set (replicate (Z.to_nat VT100_MAX_SIZE) attribute_zero)
       vt100_default_attribute (Z.to_nat (w * h)))
    (memset (replicate (Z.to_nat VT100_MAX_SIZE) 0) 32 (w * h))
    0.

Definition vga_terminal : vt100_t := vt100_initial 80 40.

(** ** Specification vocabulary *)

(** *** The screen invariant *)

(** The geometry of the screen: it never changes. *)
Definition geometry_ok (t : vt100_t) : Prop :=
  0 < width t /\ 0 < height t /\ size t = width t * height t /\
  size t <= VT100_MAX_SIZE.

(** Invariant 1 of the data model, with the geometry it depends on. *)
Definition screen_ok (t : vt100_t) : Prop :=
  geometry_ok t /\ 0 <= cursor t < size t /\ 0 <= cursor_saved t < size t.

(** Two terminals with the same screen geometry. *)
Definition same_geometry (t t' : vt100_t) : Prop :=
  width t' = width t /\ height t' = height t /\ size t' = size t.

(** A terminal with the geometry and the flags of another one. *)
Definition same_frame (t t' : vt100_t) : Prop :=
  same_geometry t t' /\ blinks t' = blinks t.

(** *** Escape sequences that fail *)

(** What the user sees of a terminal: glyphs, attributes, both cursors, the
    current attribute and the cursor visibility. *)
Definition same_screen (t t' : vt100_t) : Prop :=
  m t' = m t /\ attributes t' = attributes t /\ cursor t' = cursor t /\
  cursor_saved t' = cursor_saved t /\ attribute t' = attribute t /\
  cursor_on t' = cursor_on t.

(** [escape_fails t bs]: the bytes [bs], fed to the escape machine from the
    (non-normal) state of [t], are one escape sequence that ends in [fail]
    at its last byte: every byte before the last returns 0 and leaves the
    sequence open, the last one returns -1. *)
Fixpoint escape_fails (t : vt100_t) (bs : list Z) : bool :=
  match bs with
  | [] => false
  | c :: r =>
      match terminal_escape_sequences t c with
      | Some (t', rc) =>
          if rc =? 0 then negb (is_normal (state t')) && escape_fails t' r
          else match r with [] => true | _ :: _ => false end
      | None => false
      end
  end.

(** [ESC] followed by [bs] is an escape sequence that fails at its end. *)
Definition fails_after_escape (t : vt100_t) (bs : list Z) : bool :=
  match vt100_update t ESCAPE with
  | Some t1 => escape_fails t1 bs
  | None => false
  end.

(** *** Cursor coordinates *)

(** Column and row of the cursor. *)
Definition column (t : vt100_t) : Z := cursor t mod width t.
Definition row (t : vt100_t) : Z := cursor t / width t.

(** *** Erased cells *)

(** The arrays have the length the struct gives them. *)
Definition arrays_ok (t : vt100_t) : Prop :=
  length (m t) = Z.to_nat VT100_MAX_SIZE /\
  length (attributes t) = Z.to_nat VT100_MAX_SIZE.

(** [t'] is [t] with the cells [0 .. n-1] holding a space with the default
    attribute, and every other cell as in [t]. *)
Definition erased (n : Z) (t t' : vt100_t) : Prop :=
  forall i : nat,
    (Z.of_nat i < n ->
       m t' !! i = Some 32 /\ attributes t' !! i = Some vt100_default_attribute) /\
    (n <= Z.of_nat i ->
       m t' !! i = m t !! i /\ attributes t' !! i = attributes t !! i).

(** Every cell of the screen is a space with the default attribute. *)
Definition blank (t : vt100_t) : Prop :=
  forall i : nat, Z.of_nat i < size t ->
    m t !! i = Some 32 /\ attributes t !! i = Some vt100_default_attribute.

(** *** The bytes fed so far *)

(** [bs] ends with the bytes [suffix]. *)
Definition ends_with (bs suffix : list Z) : Prop :=
  exists pre, bs = pre ++ suffix.

(** What the parser state records of the bytes [bs] fed so far. *)
Definition history (bs : list Z) (t : vt100_t) : Prop :=
  match state t with
  | TERMINAL_NORMAL_MODE | TERMINAL_NUMBER_1 | TERMINAL_NUMBER_2 => True
  | TERMINAL_CSI => ends_with bs [ESCAPE]
  | TERMINAL_COMMAND => ends_with bs [ESCAPE; 91]
  | TERMINAL_DECTCEM =>
      (command_index t = 0 /\ n1 t = 1 /\ ends_with bs [ESCAPE; 91; 63]) \/
      (command_index t = 1 /\
       exists d, isdigit d = true /\ n1 t = d - 48 /\
                 ends_with bs [ESCAPE; 91; 63; d]) \/
      (command_index t = 2 /\
       exists d1 d2, isdigit d1 = true /\ isdigit d2 = true /\
                     n1 t = (d1 - 48) * 10 + (d2 - 48) /\
                     ends_with bs [ESCAPE; 91; 63; d1; d2])
  | TERMINAL_STATE_END => False
  end.

(** ** The byte FIFO *)

Module Fifo.

(** [fifo_t]; [head], [tail] and [size] are [size_t]. *)
Record fifo_t := mk_fifo {
  head : Z;
  tail : Z;
  size : Z;
  buffer : list Z
}.

(** [None] is the failed [assert(size >= 2)]; [allocate_or_die] returns
    zeroed memory. *)
Definition fifo_new (size : Z) : option fifo_t :=
  if size >=? 2
  then Some (mk_fifo 0 0 size (replicate (Z.to_nat size) 0))
  else None.

Definition fifo_is_full (fifo : fifo_t) : bool :=
  ((head fifo =? usize (size fifo - 1)) && (tail fifo =? 0))
  || (head fifo =? usize (tail fifo - 1)).

Definition fifo_is_empty (fifo : fifo_t) : bool := head fifo =? tail fifo.

Definition fifo_count (fifo : fifo_t) : Z :=
  if fifo_is_empty fifo then 0
  else if fifo_is_full fifo then size fifo
  else if head fifo <? tail fifo
       then usize (head fifo + usize (size fifo - tail fifo))
       else usize (head fifo - tail fifo).

(** The queue after the call and the value returned. *)
Definition fifo_push (fifo : fifo_t) (data : Z) : fifo_t * Z :=
  if fifo_is_full fifo then (fifo, 0)
  else
    let buffer' := <[Z.to_nat (head fifo) := data]> (buffer fifo) in
    let head' := usize (head fifo + 1) in
    let head' := if head' =? size fifo then 0 else head' in
    (mk_fifo head' (tail fifo) (size fifo) buffer', 1).

(** The queue after the call, the byte in [*data] after it (its old
    content [data] when nothing is popped) and the value returned. *)
Definition fifo_pop (fifo : fifo_t) (data : Z) : fifo_t * Z * Z :=
  if fifo_is_empty fifo then (fifo, data, 0)
  else
    let data' := buffer fifo !!! Z.to_nat (tail fifo) in
    let tail' := usize (tail fifo + 1) in
    let tail' := if tail' =? size fifo then 0 else tail' in
    (mk_fifo (head fifo) tail' (size fifo) (buffer fifo), data', 1).

(** Pushing the bytes of a list in order: the final queue and the value
    each push returned. *)
Fixpoint fifo_push_all (fifo : fifo_t) (ds : list Z) : fifo_t * list Z :=
  match ds with
  | [] => (fifo, [])
  | d :: r =>
      let '(fifo1, ret) := fifo_push fifo d in
      let '(fifo2, rets) := fifo_push_all fifo1 r in
      (fifo2, ret :: rets)
  end.

End Fifo.

(** * Further vocabulary *)

(** *** Normal-mode input *)

(** The bytes that [vt100_update] treats specially in normal mode; every
    other byte is stored as a glyph. *)
Definition control_byte (c : Z) : bool :=
  (c =? ESCAPE) || (c =? 9) || (c =? 13) || (c =? 10) || (c =? DELETE)
  || (c =? BACKSPACE).

(** The glyphs and attributes of [t'] are those of [t]. *)
Definition same_cells (t t' : vt100_t) : Prop :=
  m t' = m t /\ attributes t' = attributes t.

(** *** Bounds on the numeric parameters *)

(** A parameter [n] accumulated from [k] digits; with no digit yet it holds
    its default 1. *)
Definition digits_bound (k n : Z) : Prop :=
  (k = 0 /\ n = 1) \/ (k = 1 /\ 0 <= n <= 9) \/ (k = 2 /\ 0 <= n <= 99) \/
  (k = 3 /\ 0 <= n <= 999) \/ (k = 4 /\ 0 <= n <= 9999).

(** What holds of the parser fields in each parser state. *)
Definition params_ok (t : vt100_t) : Prop :=
  match state t with
  | TERMINAL_NORMAL_MODE | TERMINAL_CSI | TERMINAL_COMMAND => True
  | TERMINAL_NUMBER_1 =>
      digits_bound (command_index t) (n1 t) /\ 1 <= command_index t /\
      n2 t = 1
  | TERMINAL_NUMBER_2 =>
      digits_bound (command_index t) (n2 t) /\ 0 <= n1 t <= 9999
  | TERMINAL_DECTCEM =>
      digits_bound (command_index t) (n1 t) /\ command_index t <= 2
  | TERMINAL_STATE_END => False
  end.

(** *** Attributes *)

(** The colour fields hold a [color_t] (they are three bits wide). *)
Definition attribute_ok (a : vt100_attribute_t) : Prop :=
  0 <= foreground_color a <= 7 /\ 0 <= background_color a <= 7.

(** Every flag set in [a] is set in [a']. *)
Definition flags_kept (a a' : vt100_attribute_t) : Prop :=
  (bold a = true -> bold a' = true) /\
  (under_score a = true -> under_score a' = true) /\
  (blink a = true -> blink a' = true) /\
  (reverse_video a = true -> reverse_video a' = true) /\
  (conceal a = true -> conceal a' = true).

(** [a] with another foreground, and with another background. *)
Definition with_foreground (a : vt100_attribute_t) (k : Z) : vt100_attribute_t :=
  mk_attribute (bold a) (under_score a) (blink a) (reverse_video a)
    (conceal a) k (background_color a).

Definition with_background (a : vt100_attribute_t) (k : Z) : vt100_attribute_t :=
  mk_attribute (bold a) (under_score a) (blink a) (reverse_video a)
    (conceal a) (foreground_color a) k.

(** *** Valid colours *)

(** The current attribute and the attribute of every array cell hold
    colours of [color_t], the only ones [set_color] accepts. *)
Definition attributes_ok (t : vt100_t) : Prop :=
  attribute_ok (attribute t) /\ Forall attribute_ok (attributes t).

(** *** Cells off the screen *)

(** [l'] has the length of [l] and its elements from index [n] on. *)
Definition beyond {A} (n : Z) (l l' : list A) : Prop :=
  length l' = length l /\
  forall i : nat, n <= Z.of_nat i -> l' !! i = l !! i.

(** The array cells of [t'] that are not part of the screen of [t] are
    those of [t]. *)
Definition off_screen_kept (t t' : vt100_t) : Prop :=
  beyond (size t) (m t) (m t') /\
  beyond (size t) (attributes t) (attributes t').

(** *** Length of an escape sequence *)

(** The most bytes the parser can still take before it is back in normal
    mode. *)
Definition remaining (t : vt100_t) : Z :=
  match state t with
  | TERMINAL_NORMAL_MODE => 0
  | TERMINAL_CSI => 11
  | TERMINAL_COMMAND => 10
  | TERMINAL_NUMBER_1 => 10 - command_index t
  | TERMINAL_NUMBER_2 => 5 - command_index t
  | TERMINAL_DECTCEM => 3 - command_index t
  | TERMINAL_STATE_END => 1
  end.

(** ** The byte FIFO: the queue it holds *)

Module FifoSpec.
Import Fifo.

(** The representation invariant of [fifo_t]. *)
Definition fifo_ok (fifo : fifo_t) : Prop :=
  2 <= size fifo < 2 ^ 64 /\
  0 <= head fifo < size fifo /\ 0 <= tail fifo < size fifo /\
  length (buffer fifo) = Z.to_nat (size fifo).

(** The bytes of the array [b] from index [t] up to index [h], going round
    the end of the array when [h] is before [t]. *)
Definition ring (b : list Z) (h t : nat) : list Z :=
  if (t <=? h)%nat then take (h - t) (drop t b)
  else drop t b ++ take h b.

(** The queued bytes, oldest first. *)
Definition contents (fifo : fifo_t) : list Z :=
  ring (buffer fifo) (Z.to_nat (head fifo)) (Z.to_nat (tail fifo)).

(** [n] calls of [fifo_pop]: the final queue and the bytes of the calls
    that returned 1, in order. *)
Fixpoint fifo_pop_n (fifo : fifo_t) (n : nat) : fifo_t * list Z :=
  match n with
  | O => (fifo, [])
  | S k =>
      let '(fifo1, data, ret) := fifo_pop fifo 0 in
      let '(fifo2, ds) := fifo_pop_n fifo1 k in
      (fifo2, if ret =? 1 then data :: ds else ds)
  end.

End FifoSpec.

(** ** The background texture *)

Module Texture.

(** The geometry of the terminal, under names that the fields of the
    texture do not hide. *)
Definition vt_width (vt : vt100_t) : Z := width vt.
Definition vt_height (vt : vt100_t) : Z := height vt.

(** [vt100_background_texture_t]; [image] is the array it points to. *)
Record vt100_background_texture_t := mk_texture {
  width : Z;
  height : Z;
  name : Z;
  image : list Z
}.

(** [idx] of [texture_background]: the screen cell shown by the pixel in
    row [i], column [j] of the texture, in [unsigned] arithmetic. *)
Definition texture_index (v : vt100_background_texture_t) (vt : vt100_t)
    (i j : Z) : Z :=
  let h := height v in
  let w := width v in
  let ii := u32 (u32 (u32 (h - i) - 1) * vt_height vt) / h in
  let jj := u32 (vt_width vt * j) / w in
  u32 (jj + u32 (ii * vt_width vt)).

(** The index in [image] of [column[0]] for that pixel:
    [&img[i*4]] then [&row[j*h*4]]. *)
Definition texture_offset (v : vt100_background_texture_t) (i j : Z) : Z :=
  u32 (i * 4) + u32 (u32 (j * height v) * 4).

(** [vt->attributes[idx].background_color] *)
Definition background_at (vt : vt100_t) (idx : Z) : Z :=
  match attributes vt !! Z.to_nat idx with
  | Some a => background_color a
  | None => 0
  end.

(** The four stores [column[0] .. column[3]], each converted to
    [uint8_t]. *)
Definition texture_pixel (img : list Z) (off bg : Z) : list Z :=
  let img := <[Z.to_nat off := u8 (255 * Z.land bg 1)]> img in
  let img := <[Z.to_nat (off + 1) := u8 (255 * Z.land bg 2)]> img in
  let img := <[Z.to_nat (off + 2) := u8 (255 * Z.land bg 4)]> img in
  <[Z.to_nat (off + 3) := u8 (255 * 1)]> img.

(** The values [0 .. n-1] of a loop counter. *)
Definition upto (n : Z) : list Z := map Z.of_nat (seq 0 (Z.to_nat n)).

(** [texture_background] reads the texture and the terminal of its
    [terminal_t] argument and writes the image of the texture. *)
Definition texture_background (vt : vt100_t) (v : vt100_background_texture_t)
    : vt100_background_texture_t :=
  let img :=
    fold_left
      (fun img i =>
         fold_left
           (fun img j =>
              texture_pixel img (texture_offset v i j)
                (background_at vt (texture_index v vt i j)))
           (upto (width v)) img)
      (upto (height v)) (image v) in
  mk_texture (width v) (height v) (name v) img.

End Texture.

(** ** The keyboard handlers *)

Module Simulator.












End Simulator.

(** * Properties *)

(** ** Arrays *)

Section BlockSet.
Context {A : Type}.
Implicit Types (l : list A) (v : A) (n i : nat).

Lemma length_block_set l v n : length (block_set l v n) = length l.
Proof.
  revert l; induction n as [|n IH]; intros [|x l]; simpl; auto.
Qed.

Lemma block_set_0 l v : block_set l v 0 = l.
Proof. reflexivity. Qed.

Lemma lookup_block_set_lt l v n i :
  (i < n)%nat -> (i < length l)%nat -> block_set l v n !! i = Some v.
Proof.
  revert l i; induction n as [|n IH]; intros [|x l] [|i] Hn Hl;
    simpl in *; try lia; auto.
  apply IH; lia.
Qed.

Lemma lookup_block_set_ge l v n i :
  (n <= i)%nat -> block_set l v n !! i = l !! i.
Proof.
  revert l i; induction n as [|n IH]; intros [|x l] [|i] Hn;
    simpl in *; try lia; auto.
  apply IH; lia.
Qed.

(** Clearing a prefix twice is clearing it once. *)
Lemma block_set_idemp l v n : block_set (block_set l v n) v n = block_set l v n.
Proof.
  revert l; induction n as [|n IH]; intros [|x l]; simpl; auto.
  now rewrite IH.
Qed.
End BlockSet.

(** ** Machine integers: small values are not wrapped *)

Lemma u32_small z : 0 <= z < 2 ^ 32 -> u32 z = z.
Proof. intros H; unfold u32; now apply Z.mod_small. Qed.

Lemma usize_small z : 0 <= z < 2 ^ 64 -> usize z = z.
Proof. intros H; unfold usize; now apply Z.mod_small. Qed.

Lemma u8_small z : 0 <= z < 2 ^ 8 -> u8 z = z.
Proof. intros H; unfold u8; now apply Z.mod_small. Qed.

Lemma to_int_small z : 0 <= z < 2 ^ 31 -> to_int z = z.
Proof.
  intros H; unfold to_int. rewrite Z.mod_small by lia.
  destruct (Z.ltb_spec z (2 ^ 31)); lia.
Qed.

Lemma MAX_spec x y : MAX x y = Z.max x y.
Proof. unfold MAX. destruct (Z.gtb_spec x y); lia. Qed.

Lemma MIN_spec x y : MIN x y = Z.min x y.
Proof. unfold MIN. destruct (Z.ltb_spec x y); lia. Qed.

Lemma geometry_bounds t :
  geometry_ok t -> 0 < width t <= 8192 /\ 0 < height t <= 8192 /\ 0 < size t.
Proof. unfold geometry_ok, VT100_MAX_SIZE; intros (Hw & Hh & Hs & Hm); nia. Qed.

(** What [terminal_at_xy] computes when it clamps. *)
Lemma terminal_at_xy_limit t x y :
  geometry_ok t ->
  terminal_at_xy t x y true =
  set_cursor t (Z.min (Z.max y 0) (height t - 1) * width t
                + Z.min (Z.max x 0) (width t - 1)).
Proof.
  intros Hg. pose proof (geometry_bounds t Hg) as (Hw & Hh & Hs).
  destruct Hg as (_ & _ & Hsz & Hmax). unfold VT100_MAX_SIZE in Hmax.
  unfold terminal_at_xy. rewrite !MAX_spec, !MIN_spec.
  rewrite (u32_small (width t - 1)), (u32_small (height t - 1)) by lia.
  set (x' := Z.min (Z.max x 0) (width t - 1)).
  set (y' := Z.min (Z.max y 0) (height t - 1)).
  assert (0 <= x' <= width t - 1) by (unfold x'; lia).
  assert (0 <= y' <= height t - 1) by (unfold y'; lia).
  assert (0 <= y' * width t + x' < size t) by nia.
  rewrite (u32_small (y' * width t)) by nia.
  rewrite u32_small by lia. reflexivity.
Qed.

(** What [terminal_at_xy] computes when it wraps. *)
Lemma terminal_at_xy_wrap t x y :
  geometry_ok t ->
  terminal_at_xy t x y false =
  set_cursor t ((y mod height t) * width t + x mod width t).
Proof.
  intros Hg. pose proof (geometry_bounds t Hg) as (Hw & Hh & Hs).
  destruct Hg as (_ & _ & Hsz & Hmax). unfold VT100_MAX_SIZE in Hmax.
  unfold terminal_at_xy.
  pose proof (Z.mod_pos_bound x (width t) ltac:(lia)).
  pose proof (Z.mod_pos_bound y (height t) ltac:(lia)).
  assert (0 <= (y mod height t) * width t + x mod width t < size t) by nia.
  rewrite (u32_small (_ * _)) by nia.
  rewrite u32_small by lia. reflexivity.
Qed.

Lemma terminal_at_xy_ok t x y b :
  screen_ok t -> screen_ok (terminal_at_xy t x y b).
Proof.
  intros (Hg & Hc & Hs). pose proof (geometry_bounds t Hg) as (Hw & Hh & Hz).
  destruct b; [rewrite terminal_at_xy_limit | rewrite terminal_at_xy_wrap]; auto;
    (split; [exact Hg|]); (split; [|exact Hs]); simpl;
    destruct Hg as (_ & _ & Hsz & _).
  - nia.
  - pose proof (Z.mod_pos_bound x (width t) ltac:(lia)).
    pose proof (Z.mod_pos_bound y (height t) ltac:(lia)). nia.
Qed.

Lemma terminal_at_xy_relative_ok t x y b :
  screen_ok t -> screen_ok (terminal_at_xy_relative t x y b).
Proof. intros H. unfold terminal_at_xy_relative. now apply terminal_at_xy_ok. Qed.

(** ** The screen invariant *)

(** Stores that leave the cursors and the geometry alone keep the
    invariant. *)
Lemma screen_ok_set_state t s : screen_ok t -> screen_ok (set_state t s).
Proof. exact (fun H => H). Qed.
Lemma screen_ok_set_n1 t v : screen_ok t -> screen_ok (set_n1 t v).
Proof. exact (fun H => H). Qed.
Lemma screen_ok_set_n2 t v : screen_ok t -> screen_ok (set_n2 t v).
Proof. exact (fun H => H). Qed.
Lemma screen_ok_set_command_index t v : screen_ok t -> screen_ok (set_command_index t v).
Proof. exact (fun H => H). Qed.
Lemma screen_ok_set_cursor_on t v : screen_ok t -> screen_ok (set_cursor_on t v).
Proof. exact (fun H => H). Qed.
Lemma screen_ok_set_attribute t v : screen_ok t -> screen_ok (set_attribute t v).
Proof. exact (fun H => H). Qed.
Lemma screen_ok_set_attributes t v : screen_ok t -> screen_ok (set_attributes t v).
Proof. exact (fun H => H). Qed.
Lemma screen_ok_set_m t v : screen_ok t -> screen_ok (set_m t v).
Proof. exact (fun H => H). Qed.

Lemma screen_ok_set_cursor t v :
  screen_ok t -> 0 <= v < size t -> screen_ok (set_cursor t v).
Proof. intros (Hg & Hc & Hs) Hv. repeat split; simpl; try apply Hg; lia. Qed.

Lemma screen_ok_set_cursor_saved t v :
  screen_ok t -> 0 <= v < size t -> screen_ok (set_cursor_saved t v).
Proof. intros (Hg & Hc & Hs) Hv. repeat split; simpl; try apply Hg; lia. Qed.

Lemma screen_ok_cursor t : screen_ok t -> 0 <= cursor t < size t.
Proof. now intros (_ & H & _). Qed.
Lemma screen_ok_cursor_saved t : screen_ok t -> 0 <= cursor_saved t < size t.
Proof. now intros (_ & _ & H). Qed.
Lemma screen_ok_zero t : screen_ok t -> 0 <= 0 < size t.
Proof. intros (Hg & _). pose proof (geometry_bounds t Hg). lia. Qed.

Create HintDb vt100 discriminated.
#[local] Hint Resolve screen_ok_set_state screen_ok_set_n1 screen_ok_set_n2
  screen_ok_set_command_index screen_ok_set_cursor_on screen_ok_set_attribute
  screen_ok_set_attributes screen_ok_set_m screen_ok_set_cursor
  screen_ok_set_cursor_saved screen_ok_cursor screen_ok_cursor_saved
  screen_ok_zero terminal_at_xy_ok terminal_at_xy_relative_ok : vt100.

(** Unfold one step of the escape machine down to the field stores. *)
Ltac unfold_escape :=
  unfold terminal_escape_sequences, escape_csi, escape_command,
    escape_number_1, escape_number_2, escape_dectcem, erase_display,
    erase_case_2, erase_case_1, erase_case_0, goto_success, goto_fail,
    return_0, terminal_default_command_sequence, store_attribute,
    terminal_attribute_block_set in *.

(** Split on every test of a conditional in the goal. *)
Ltac split_ifs :=
  repeat match goal with
         | |- context [if ?b then _ else _] => destruct b eqn:?
         end.

Lemma same_frame_refl t : same_frame t t.
Proof. repeat split. Qed.

Lemma same_frame_at_xy t x y b : same_frame t (terminal_at_xy t x y b).
Proof. unfold terminal_at_xy. destruct b; repeat split. Qed.

Lemma same_frame_at_xy_relative t x y b :
  same_frame t (terminal_at_xy_relative t x y b).
Proof. unfold terminal_at_xy_relative. apply same_frame_at_xy. Qed.

(** One byte of an escape sequence keeps the invariant, the geometry and
    [blinks], and the function returns (its [assert] holds) in every state
    but the normal one. *)
Lemma terminal_escape_sequences_ok t c :
  screen_ok t -> state t <> TERMINAL_NORMAL_MODE ->
  exists t' r, terminal_escape_sequences t c = Some (t', r) /\
               (r = 0 \/ r = -1) /\ screen_ok t' /\ same_frame t t'.
Proof.
  intros Hok Hst.
  assert (Hx : forall x y b, same_frame t (terminal_at_xy t x y b))
    by (intros; apply same_frame_at_xy).
  assert (Hr : forall x y b, same_frame t (terminal_at_xy_relative t x y b))
    by (intros; apply same_frame_at_xy_relative).
  unfold_escape. destruct (state t); [congruence|..]; cbv zeta; split_ifs;
    eexists _, _; (split; [reflexivity|]); (split; [auto|]);
    (split; [auto 10 with vt100 | first [apply same_frame_refl | apply Hx | apply Hr | repeat split]]).
Qed.

(** A byte in normal mode: the [assert] of the default case holds, and the
    geometry, [blinks], [cursor_on] and the saved cursor are kept.  The
    cursor may be out of range until [normal_mode_wrap]. *)
Lemma normal_mode_byte_ok t c :
  screen_ok t ->
  exists t', normal_mode_byte t c = Some t' /\ same_frame t t' /\
             cursor_saved t' = cursor_saved t /\ cursor_on t' = cursor_on t /\
             0 <= cursor t'.
Proof.
  intros Hok. pose proof (screen_ok_cursor t Hok) as Hc.
  destruct Hok as (Hg & _ & _).
  pose proof (geometry_bounds t Hg) as (Hw & Hh & Hs).
  unfold normal_mode_byte.
  destruct (c =? ESCAPE); [eexists; repeat split; simpl; lia|].
  destruct (c =? 9).
  { eexists; repeat split; simpl. apply Z.land_nonneg. left.
    apply Z.mod_pos_bound. lia. }
  destruct ((c =? 13) || (c =? 10)).
  { eexists; repeat split; simpl. apply Z.mod_pos_bound. lia. }
  destruct ((c =? DELETE) || (c =? BACKSPACE)).
  { eexists; split; [reflexivity|]. cbv zeta. unfold terminal_at_xy_relative.
    rewrite terminal_at_xy_limit by assumption. repeat split; simpl. nia. }
  destruct (Z.ltb_spec (cursor t) (size t)); [|lia].
  eexists; repeat split; simpl. apply Z.mod_pos_bound. lia.
Qed.

Lemma normal_mode_wrap_ok t :
  geometry_ok t -> 0 <= cursor_saved t < size t ->
  screen_ok (normal_mode_wrap t) /\ same_frame t (normal_mode_wrap t) /\
  cursor_saved (normal_mode_wrap t) = cursor_saved t /\
  cursor_on (normal_mode_wrap t) = cursor_on t.
Proof.
  intros Hg Hs. pose proof (geometry_bounds t Hg) as (Hw & Hh & Hz).
  pose proof (Z.mod_pos_bound (cursor t) (size t) Hz).
  unfold normal_mode_wrap, terminal_attribute_block_set.
  destruct (cursor t >=? size t); simpl; repeat split; simpl;
    try apply Hg; lia.
Qed.

(** [vt100_update] returns on every byte, for every terminal that satisfies
    the invariant, and the result satisfies it again. *)
Lemma vt100_update_ok t c :
  screen_ok t ->
  exists t', vt100_update t c = Some t' /\ screen_ok t' /\ same_frame t t'.
Proof.
  intros Hok. pose proof Hok as (Hg & Hc & Hs).
  pose proof (geometry_bounds t Hg) as (Hw & Hh & Hz).
  destruct Hg as (Hw0 & Hh0 & Hsz & Hmax).
  unfold vt100_update.
  destruct (Z.leb_spec (size t) VT100_MAX_SIZE); [simpl|lia].
  rewrite u32_small by (unfold VT100_MAX_SIZE in *; lia).
  destruct (Z.leb_spec (width t * height t) VT100_MAX_SIZE); [simpl|lia].
  destruct (state t) eqn:Hst; simpl.
  1: { destruct (normal_mode_byte_ok t c Hok) as (t' & -> & Hf & Hsv & Hon & Hc').
       destruct Hf as ((Hw' & Hh' & Hs') & Hb).
       destruct (normal_mode_wrap_ok t') as (Hok' & ((? & ? & ?) & ?) & ? & ?).
       - unfold geometry_ok. rewrite Hw', Hh', Hs'. auto.
       - rewrite Hsv, Hs'. exact Hs.
       - eexists; split; [reflexivity|]. split; [exact Hok'|].
         repeat split; congruence. }
  all: destruct (terminal_escape_sequences_ok t c Hok) as (t' & r & -> & Hr & Hok' & Hf);
    [congruence|];
    destruct Hr as [-> | ->]; simpl; eexists; (split; [reflexivity|]);
    split; auto with vt100.
Qed.

Lemma vt100_feed_ok bs : forall t,
  screen_ok t ->
  exists t', vt100_feed t bs = Some t' /\ screen_ok t' /\ same_frame t t'.
Proof.
  induction bs as [|c bs IH]; intros t Hok; simpl.
  - exists t. auto using same_frame_refl.
  - destruct (vt100_update_ok t c Hok) as (t1 & -> & Hok1 & (Hg1 & Hb1)).
    destruct (IH t1 Hok1) as (t' & Hfeed & Hok' & (Hg' & Hb')).
    exists t'. split; [exact Hfeed|]. split; [exact Hok'|].
    destruct Hg1 as (? & ? & ?), Hg' as (? & ? & ?).
    repeat split; congruence.
Qed.

Lemma vt100_feed_app t bs bs' :
  vt100_feed t (bs ++ bs') =
  match vt100_feed t bs with Some t' => vt100_feed t' bs' | None => None end.
Proof.
  revert t; induction bs as [|c bs IH]; intros t; simpl; [reflexivity|].
  destruct (vt100_update t c); auto.
Qed.

(** C1. From a validly initialised screen (cursor and saved cursor 0, size =
    width * height with both positive and size <= 8192, any glyphs,
    attributes and parser state), every sequence of bytes is processed in
    full by [vt100_update], and after it (so after every byte of a longer
    sequence) the screen still has its size and both [cursor] and
    [cursor_saved] lie in [0, size). *)
Theorem C1_cursors_in_range (t0 : vt100_t) (bs : list Z) :
  0 < width t0 -> 0 < height t0 ->
  size t0 = width t0 * height t0 -> size t0 <= VT100_MAX_SIZE ->
  cursor t0 = 0 -> cursor_saved t0 = 0 ->
  exists t, vt100_feed t0 bs = Some t /\
            size t = size t0 /\
            0 <= cursor t < size t /\ 0 <= cursor_saved t < size t.
Proof.
  intros Hw Hh Hsz Hmax Hc Hs.
  assert (Hok : screen_ok t0).
  { repeat split; auto; rewrite ?Hc, ?Hs; try nia. }
  destruct (vt100_feed_ok bs t0 Hok) as (t & Hfeed & (Hg & Hc' & Hs') & ((_ & _ & Hsize) & _)).
  exists t. auto.
Qed.

Lemma C1_cursors_in_range_witness :
  exists t, vt100_feed vga_terminal [72; 9; 10; 27; 91; 53; 59; 57; 72; 8] = Some t /\
            size t = size vga_terminal /\
            0 <= cursor t < size t /\ 0 <= cursor_saved t < size t.
Proof.
  apply (C1_cursors_in_range vga_terminal); vm_compute; congruence.
Defined.

(** ** Escape sequences that fail *)

Lemma same_screen_refl t : same_screen t t.
Proof. repeat split. Qed.

Lemma same_screen_trans t1 t2 t3 :
  same_screen t1 t2 -> same_screen t2 t3 -> same_screen t1 t3.
Proof. unfold same_screen; intuition congruence. Qed.

(** [vt100_update] outside normal mode, on a screen that passes its
    [assert]s. *)
Lemma vt100_update_escape t c :
  geometry_ok t -> state t <> TERMINAL_NORMAL_MODE ->
  vt100_update t c =
  match terminal_escape_sequences t c with
  | Some (t', r) =>
      if negb (r =? 0) then Some (set_state t' TERMINAL_NORMAL_MODE) else Some t'
  | None => None
  end.
Proof.
  intros Hg Hst. pose proof (geometry_bounds t Hg) as (Hw & Hh & Hz).
  destruct Hg as (_ & _ & Hsz & Hmax). unfold vt100_update.
  destruct (Z.leb_spec (size t) VT100_MAX_SIZE); [simpl|lia].
  rewrite u32_small by (unfold VT100_MAX_SIZE in *; lia).
  destruct (Z.leb_spec (width t * height t) VT100_MAX_SIZE); [simpl|lia].
  destruct (state t); [congruence|..]; reflexivity.
Qed.

(** [ESC] in normal mode only opens a sequence. *)
Lemma vt100_update_ESCAPE t :
  screen_ok t -> state t = TERMINAL_NORMAL_MODE ->
  vt100_update t ESCAPE = Some (set_state t TERMINAL_CSI).
Proof.
  intros (Hg & Hc & _) Hst. pose proof (geometry_bounds t Hg) as (Hw & Hh & Hz).
  destruct Hg as (_ & _ & Hsz & Hmax). unfold vt100_update.
  destruct (Z.leb_spec (size t) VT100_MAX_SIZE); [simpl|lia].
  rewrite u32_small by (unfold VT100_MAX_SIZE in *; lia).
  destruct (Z.leb_spec (width t * height t) VT100_MAX_SIZE); [simpl|lia].
  rewrite Hst; simpl. unfold normal_mode_wrap; simpl.
  destruct (Z.geb_spec (cursor t) (size t)); [lia|].
  unfold set_cursor, set_state; simpl. rewrite Z.mod_small by lia.
  reflexivity.
Qed.

(** One byte of an escape sequence: a byte that fails changes the parser
    state alone, and a byte that leaves the sequence open changes nothing of
    the screen. *)
Lemma escape_step_frame t c :
  match terminal_escape_sequences t c with
  | Some (t', rc) =>
      (rc = -1 -> t' = set_state t TERMINAL_NORMAL_MODE) /\
      (rc = 0 -> state t' <> TERMINAL_NORMAL_MODE -> same_screen t t')
  | None => True
  end.
Proof.
  unfold_escape. destruct (state t); [exact I|..]; cbv zeta; split_ifs;
    (split; [intros Hrc | intros _ Hst]);
    solve [ discriminate | reflexivity | apply same_screen_refl
          | exfalso; apply Hst; reflexivity | repeat split ].
Qed.

Lemma escape_fails_feed bs : forall t,
  screen_ok t -> state t <> TERMINAL_NORMAL_MODE ->
  escape_fails t bs = true ->
  exists t', vt100_feed t bs = Some t' /\ same_screen t t' /\
             state t' = TERMINAL_NORMAL_MODE.
Proof.
  induction bs as [|c bs IH]; intros t Hok Hst Hf; simpl in *; [discriminate|].
  rewrite vt100_update_escape by (auto; apply Hok).
  pose proof (escape_step_frame t c) as Hframe.
  destruct (terminal_escape_sequences_ok t c Hok Hst) as (t1 & r & Hs & Hr & Hok1 & _).
  rewrite Hs in *. destruct Hframe as (Hfail & Hopen).
  destruct Hr as [-> | ->]; simpl in *.
  - apply andb_true_iff in Hf as (Hn & Hf).
    assert (Hst1 : state t1 <> TERMINAL_NORMAL_MODE)
      by (intros E; rewrite E in Hn; discriminate).
    destruct (IH t1 Hok1 Hst1 Hf) as (t' & Hfeed & Hsame & Hnorm).
    exists t'. split; [exact Hfeed|]. split; [|exact Hnorm].
    eapply same_screen_trans; eauto.
  - destruct bs; [|discriminate]. rewrite (Hfail eq_refl). simpl.
    eexists; split; [reflexivity|]. split; [|reflexivity]. repeat split.
Qed.

(** [ESC] followed by a byte other than ['['] is a sequence that fails. *)
Lemma escape_other_fails t X :
  screen_ok t -> state t = TERMINAL_NORMAL_MODE -> X <> 91 ->
  fails_after_escape t [X] = true.
Proof.
  intros Hok Hst HX.
  unfold fails_after_escape. rewrite vt100_update_ESCAPE by assumption.
  unfold escape_fails, terminal_escape_sequences, escape_csi; simpl.
  destruct (Z.eqb_spec X 91); [contradiction|]. reflexivity.
Qed.

(** C2. Let the terminal satisfy the screen invariant and be in normal mode.
    If [ESC] followed by the bytes [bs] is an escape sequence that ends in a
    fail (as [ESC] followed by one byte [X] other than ['['] is), then after
    [ESC :: bs] the glyph array, the attribute array, the cursor, the saved
    cursor, the current attribute and [cursor_on] have the values they had
    before the [ESC], and the parser is in normal mode. *)
Theorem C2_failed_sequence_leaves_screen (t : vt100_t) (bs : list Z) :
  screen_ok t -> state t = TERMINAL_NORMAL_MODE ->
  fails_after_escape t bs = true \/ (exists X, X <> 91 /\ bs = [X]) ->
  exists t', vt100_feed t (ESCAPE :: bs) = Some t' /\ same_screen t t' /\
             state t' = TERMINAL_NORMAL_MODE.
Proof.
  intros Hok Hst Hbs.
  assert (Hf : fails_after_escape t bs = true).
  { destruct Hbs as [Hf | (X & HX & ->)]; [exact Hf|].
    now apply escape_other_fails. }
  unfold fails_after_escape in Hf. simpl.
  rewrite vt100_update_ESCAPE in * by assumption.
  destruct (escape_fails_feed bs (set_state t TERMINAL_CSI)) as (t' & Hfeed & Hsame & Hn).
  - now apply screen_ok_set_state.
  - discriminate.
  - exact Hf.
  - exists t'. auto.
Qed.

Lemma C2_failed_sequence_leaves_screen_witness :
  exists t', vt100_feed vga_terminal (ESCAPE :: [91; 53; 59; 51; 88]) = Some t' /\
             same_screen vga_terminal t' /\ state t' = TERMINAL_NORMAL_MODE.
Proof.
  apply (C2_failed_sequence_leaves_screen vga_terminal [91; 53; 59; 51; 88]).
  - repeat split; vm_compute; congruence.
  - reflexivity.
  - left. vm_compute. reflexivity.
Defined.

(** ** Cursor to the beginning of a line: ['E'] and ['F'] *)

(** ['E'] in state [TERMINAL_NUMBER_1] calls [terminal_at_xy], not
    [terminal_at_xy_relative]: the new row is [n1] modulo the height, whatever
    the row was. *)
Lemma escape_E_absolute t :
  geometry_ok t -> state t = TERMINAL_NUMBER_1 ->
  terminal_escape_sequences t 69 =
  Some (set_state (set_cursor t ((n1 t mod height t) * width t))
          TERMINAL_NORMAL_MODE, 0).
Proof.
  intros Hg Hst. unfold terminal_escape_sequences. rewrite Hst.
  unfold escape_number_1; simpl. unfold goto_success.
  rewrite terminal_at_xy_wrap by assumption.
  pose proof (geometry_bounds t Hg) as (Hw & _).
  rewrite Z.mod_0_l by lia. rewrite Z.add_0_r. reflexivity.
Qed.

(** ['F'] passes the unsigned negation of [n1] to [terminal_at_xy]: the new
    row is [2^32 - n1] modulo the height (row 0 for [n1 = 0]). *)
Lemma escape_F_absolute t :
  geometry_ok t -> state t = TERMINAL_NUMBER_1 ->
  terminal_escape_sequences t 70 =
  Some (set_state (set_cursor t ((u32 (- n1 t) mod height t) * width t))
          TERMINAL_NORMAL_MODE, 0).
Proof.
  intros Hg Hst. unfold terminal_escape_sequences. rewrite Hst.
  unfold escape_number_1; simpl. unfold goto_success.
  rewrite terminal_at_xy_wrap by assumption.
  pose proof (geometry_bounds t Hg) as (Hw & _).
  rewrite Z.mod_0_l by lia. rewrite Z.add_0_r. reflexivity.
Qed.

(** C3. On the 80x40 terminal, after a line feed the cursor is in row 1;
    [ESC [ 1] then leaves the parser in [TERMINAL_NUMBER_1] with [n1 = 1], and
    the byte ['E'] succeeds and moves the cursor to column 0 of row 1, the row
    [n1 mod height], and not of row 2, the current row plus [n1]. *)
Theorem C3_E_ignores_current_row :
  exists t t',
    vt100_feed vga_terminal [10; 27; 91; 49] = Some t /\
    state t = TERMINAL_NUMBER_1 /\ n1 t = 1 /\ row t = 1 /\
    terminal_escape_sequences t 69 = Some (t', 0) /\
    vt100_update t 69 = Some t' /\
    state t' = TERMINAL_NORMAL_MODE /\ column t' = 0 /\
    row t' = 1 /\ row t' = n1 t mod height t /\
    row t' <> (row t + n1 t) mod height t.
Proof.
  eexists _, _. split; [vm_compute; reflexivity|].
  repeat split; try (vm_compute; congruence).
Qed.

(** C4. On the 80x40 terminal, after two line feeds the cursor is in row 2;
    [ESC [ 1] then leaves the parser in [TERMINAL_NUMBER_1] with [n1 = 1], and
    the byte ['F'] succeeds and moves the cursor to column 0 of row 15, the
    row [(2^32 - n1) mod height], and not of row 1, the current row minus
    [n1]. *)
Theorem C4_F_ignores_current_row :
  exists t t',
    vt100_feed vga_terminal [10; 10; 27; 91; 49] = Some t /\
    state t = TERMINAL_NUMBER_1 /\ n1 t = 1 /\ row t = 2 /\
    terminal_escape_sequences t 70 = Some (t', 0) /\
    vt100_update t 70 = Some t' /\
    state t' = TERMINAL_NORMAL_MODE /\ column t' = 0 /\
    row t' = 15 /\ row t' = u32 (- n1 t) mod height t /\
    row t' <> (row t - n1 t) mod height t.
Proof.
  eexists _, _. split; [vm_compute; reflexivity|].
  repeat split; try (vm_compute; congruence).
Qed.

(** ** Erase in display: ['J'] *)

Lemma erased_block_set n t t' :
  arrays_ok t -> 0 <= n <= VT100_MAX_SIZE ->
  m t' = memset (m t) 32 n ->
  attributes t' = block_set (attributes t) vt100_default_attribute (Z.to_nat n) ->
  erased n t t'.
Proof.
  intros (Hm & Ha) Hn Hm' Ha'. unfold erased. rewrite Hm', Ha'.
  unfold memset. intros i; split; intros Hi.
  - split; apply lookup_block_set_lt; lia.
  - split; apply lookup_block_set_ge; lia.
Qed.

(** The same after a store below [n] in each array: the store is erased
    with the rest. *)
Lemma erased_store_block_set n t t' (k : nat) c a :
  arrays_ok t -> 0 <= n <= VT100_MAX_SIZE -> (k < Z.to_nat n)%nat ->
  m t' = memset (<[k := c]> (m t)) 32 n ->
  attributes t' =
    block_set (<[k := a]> (attributes t)) vt100_default_attribute (Z.to_nat n) ->
  erased n t t'.
Proof.
  intros (Hm & Ha) Hn Hk Hm' Ha'. unfold erased. rewrite Hm', Ha'.
  unfold memset. intros i; split; intros Hi.
  - split; apply lookup_block_set_lt; rewrite ?length_insert; lia.
  - split; (rewrite lookup_block_set_ge by lia);
      apply list_lookup_insert_ne; lia.
Qed.

(** C5. In state [TERMINAL_NUMBER_1] the byte ['J'] is accepted by
    [vt100_update] and leaves the parser in normal mode.  With [n1] 2 or 3
    and a digit supplied ([command_index] not 0) it succeeds, the cursor is
    0 and every cell of the screen is a space with the default attribute;
    with [n1 = 1] and a digit supplied it succeeds, the cursor is unchanged
    and every cell of the screen is cleared; with [n1 = 0] it succeeds, the
    cursor is unchanged and the cells [0 .. cursor-1] are cleared; with any
    other [n1] it fails and nothing but the parser state changes. *)
Theorem C5_erase_display (t : vt100_t) :
  screen_ok t -> arrays_ok t -> state t = TERMINAL_NUMBER_1 ->
  exists t' r,
    terminal_escape_sequences t 74 = Some (t', r) /\
    vt100_update t 74 = Some t' /\ state t' = TERMINAL_NORMAL_MODE /\
    ((n1 t = 2 \/ n1 t = 3) -> command_index t <> 0 ->
       r = 0 /\ cursor t' = 0 /\ erased (size t) t t') /\
    (n1 t = 1 -> command_index t <> 0 ->
       r = 0 /\ cursor t' = cursor t /\ erased (size t) t t') /\
    (n1 t = 0 ->
       r = 0 /\ cursor t' = cursor t /\ erased (cursor t) t t') /\
    (n1 t <> 0 -> n1 t <> 1 -> n1 t <> 2 -> n1 t <> 3 ->
       r = -1 /\ t' = set_state t TERMINAL_NORMAL_MODE).
Proof.
  intros Hok Harr Hst. pose proof Hok as (Hg & Hc & _).
  pose proof (geometry_bounds t Hg) as (_ & _ & Hz).
  assert (Hmax : size t <= VT100_MAX_SIZE) by apply Hg.
  rewrite vt100_update_escape by (auto; congruence).
  unfold terminal_escape_sequences. rewrite Hst.
  unfold escape_number_1; simpl. unfold erase_display.
  assert (Hclr : forall n t', 0 <= n <= VT100_MAX_SIZE ->
            m t' = memset (m t) 32 n ->
            attributes t' = block_set (attributes t) vt100_default_attribute (Z.to_nat n) ->
            erased n t t')
    by (intros; now apply erased_block_set).
  destruct (Z.eqb_spec (n1 t) 3) as [E3|N3];
    [|destruct (Z.eqb_spec (n1 t) 2) as [E2|N2];
      [|destruct (Z.eqb_spec (n1 t) 1) as [E1|N1];
        [|destruct (Z.eqb_spec (n1 t) 0) as [E0|N0]]]];
    simpl; unfold erase_case_2, erase_case_1, erase_case_0; simpl;
    try (destruct (Z.eqb_spec (command_index t) 0) as [E|N]; simpl);
    eexists _, _; (split; [reflexivity|]); simpl;
    (split; [reflexivity|]); (split; [reflexivity|]);
    (split; [|split; [|split]]); intros;
    try lia; try contradiction;
    (split; [reflexivity|]);
    first [ reflexivity
          | split; [reflexivity|]; apply Hclr; simpl; auto; lia ].
Qed.

Lemma C5_erase_display_witness :
  let t := set_state (set_n1 (set_command_index
             (set_cursor vga_terminal 5) 1) 2) TERMINAL_NUMBER_1 in
  exists t' r,
    terminal_escape_sequences t 74 = Some (t', r) /\
    vt100_update t 74 = Some t' /\ state t' = TERMINAL_NORMAL_MODE /\
    ((n1 t = 2 \/ n1 t = 3) -> command_index t <> 0 ->
       r = 0 /\ cursor t' = 0 /\ erased (size t) t t') /\
    (n1 t = 1 -> command_index t <> 0 ->
       r = 0 /\ cursor t' = cursor t /\ erased (size t) t t') /\
    (n1 t = 0 ->
       r = 0 /\ cursor t' = cursor t /\ erased (cursor t) t t') /\
    (n1 t <> 0 -> n1 t <> 1 -> n1 t <> 2 -> n1 t <> 3 ->
       r = -1 /\ t' = set_state t TERMINAL_NORMAL_MODE).
Proof.
  intros t. apply (C5_erase_display t).
  - repeat split; vm_compute; congruence.
  - split; vm_compute; reflexivity.
  - reflexivity.
Defined.

(** A term without variables. *)
Ltac closed_term x :=
  match x with
  | context [?y] => is_var y; fail 2
  | _ => idtac
  end.

(** Evaluate the wrap-around of constants. *)
Ltac eval_ints :=
  repeat match goal with
         | |- context [u32 ?x] =>
             closed_term x;
             let v := eval vm_compute in (u32 x) in change (u32 x) with v
         | |- context [u8 ?x] =>
             closed_term x;
             let v := eval vm_compute in (u8 x) in change (u8 x) with v
         end.

(** Reduce the field stores on a terminal given by its fields. *)
Ltac flatten :=
  cbv beta iota zeta delta
    [set_cursor set_cursor_saved set_n1 set_n2 set_state set_cursor_on
     set_attribute set_attributes set_m set_command_index
     terminal_default_command_sequence store_attribute
     terminal_attribute_block_set goto_success goto_fail return_0
     cursor cursor_saved n1 n2 height width size state blinks cursor_on
     attribute attributes m command_index].

(** One step of [vt100_feed] inside an escape sequence, by evaluation. *)
Ltac escape_step :=
  rewrite vt100_update_escape by (first [assumption | discriminate]);
  unfold terminal_escape_sequences; cbn;
  unfold erase_display, erase_case_2, erase_case_1, erase_case_0, accumulate;
  cbn; eval_ints; cbn; flatten.

(** [ESC [ 2 J] clears the screen and homes the cursor. *)
Lemma feed_erase_all t :
  screen_ok t -> arrays_ok t -> state t = TERMINAL_NORMAL_MODE ->
  exists t', vt100_feed t [ESCAPE; 91; 50; 74] = Some t' /\
             cursor t' = 0 /\ blank t' /\ state t' = TERMINAL_NORMAL_MODE /\
             screen_ok t' /\ arrays_ok t'.
Proof.
  intros Hok Harr Hst. pose proof Hok as (Hg & Hc & Hs).
  pose proof (geometry_bounds t Hg) as (_ & _ & Hz).
  assert (Hmax : size t <= VT100_MAX_SIZE) by apply Hg.
  destruct t as [cur sav a b h w sz st bl con at_ ats gl ci].
  cbn in Hst, Hc, Hs, Hz, Hmax. subst st.
  unfold vt100_feed. rewrite vt100_update_ESCAPE by (assumption || reflexivity).
  flatten.
  do 3 escape_step.
  eexists; split; [reflexivity|].
  split; [reflexivity|]. 
  split.
  - intros i Hi. cbn in Hi.
    eapply (erased_block_set sz (mk_vt100 cur sav a b h w sz TERMINAL_NORMAL_MODE bl con at_ ats gl ci)); eauto; lia.
  - split; [reflexivity|]. split.
    + repeat split; cbn; try apply Hg; lia.
    + destruct Harr as (Hm & Ha). split.
      * change (length (memset gl 32 sz) = Z.to_nat VT100_MAX_SIZE).
        unfold memset. rewrite length_block_set. exact Hm.
      * change (length (block_set ats vt100_default_attribute
                          (Z.to_nat sz)) = Z.to_nat VT100_MAX_SIZE).
        rewrite length_block_set. exact Ha.
Qed.

(** [ESC [ 2 J] twice: the screen is blank and the cursor 0 both times. *)
Lemma feed_erase_all_twice t :
  screen_ok t -> arrays_ok t -> state t = TERMINAL_NORMAL_MODE ->
  exists t1 t2,
    vt100_feed t [ESCAPE; 91; 50; 74] = Some t1 /\
    vt100_feed t1 [ESCAPE; 91; 50; 74] = Some t2 /\
    cursor t1 = 0 /\ blank t1 /\ cursor t2 = 0 /\ blank t2.
Proof.
  intros Hok Harr Hst.
  destruct (feed_erase_all t Hok Harr Hst) as (t1 & H1 & Hc1 & Hb1 & Hst1 & Hok1 & Harr1).
  destruct (feed_erase_all t1 Hok1 Harr1 Hst1) as (t2 & H2 & Hc2 & Hb2 & _).
  exists t1, t2. auto 10.
Qed.

(** ** Cursor position: ['H'] and ['f'] *)

Lemma cell_column_row w x y :
  0 <= x < w -> (y * w + x) mod w = x /\ (y * w + x) / w = y.
Proof.
  intros Hx. split.
  - rewrite Z.add_comm, Z.mod_add by lia. apply Z.mod_small; lia.
  - rewrite Z.add_comm, Z.div_add by lia. rewrite Z.div_small by lia. lia.
Qed.

(** ['H'] and ['f'] in state [TERMINAL_NUMBER_2]: the clamped position. *)
Lemma escape_position t c :
  geometry_ok t -> state t = TERMINAL_NUMBER_2 -> c = 72 \/ c = 102 ->
  terminal_escape_sequences t c =
  Some (set_state
          (set_cursor t (Z.min (Z.max (n1 t) 0) (height t - 1) * width t
                         + Z.min (Z.max (n2 t) 0) (width t - 1)))
          TERMINAL_NORMAL_MODE, 0).
Proof.
  intros Hg Hst Hc. unfold terminal_escape_sequences. rewrite Hst.
  unfold escape_number_2, goto_success.
  rewrite <- (terminal_at_xy_limit t (n2 t) (n1 t)) by assumption.
  destruct Hc as [-> | ->]; reflexivity.
Qed.

(** Outside [TERMINAL_NUMBER_2] the two bytes are not accepted: [ESC [ H]
    and [ESC [ 5 H] fail. *)
Lemma escape_position_elsewhere t c :
  state t = TERMINAL_COMMAND \/ state t = TERMINAL_NUMBER_1 ->
  c = 72 \/ c = 102 ->
  terminal_escape_sequences t c = Some (set_state t TERMINAL_NORMAL_MODE, -1).
Proof.
  intros Hst Hc. unfold terminal_escape_sequences.
  destruct Hst as [-> | ->], Hc as [-> | ->]; reflexivity.
Qed.

(** Evaluate a whole feed on a terminal given by its fields, after the
    [ESC] that opens the sequence. *)
Ltac feed_after_escape :=
  unfold vt100_feed;
  rewrite vt100_update_ESCAPE by (assumption || reflexivity);
  flatten; vm_compute.

(** C6. In state [TERMINAL_NUMBER_2] the bytes ['H'] and ['f'] succeed and
    set the cursor to column [n2] and row [n1], each clamped into the screen
    ([n2] to [width - 1], [n1] to [height - 1]).  On every 80x40 screen in
    normal mode, [ESC [ 9 9 9 ; 9 9 9 H] leaves the cursor at column 79 of
    row 39, and [ESC [ ; H] leaves it at column 1 of row 1. *)
Theorem C6_cursor_position (t : vt100_t) (c : Z) (t0 : vt100_t) :
  geometry_ok t -> state t = TERMINAL_NUMBER_2 -> c = 72 \/ c = 102 ->
  0 <= n1 t -> 0 <= n2 t ->
  screen_ok t0 -> width t0 = 80 -> height t0 = 40 ->
  state t0 = TERMINAL_NORMAL_MODE ->
  (exists t', terminal_escape_sequences t c = Some (t', 0) /\
              vt100_update t c = Some t' /\
              state t' = TERMINAL_NORMAL_MODE /\
              column t' = Z.min (n2 t) (width t - 1) /\
              row t' = Z.min (n1 t) (height t - 1)) /\
  (exists t', vt100_feed t0 [ESCAPE; 91; 57; 57; 57; 59; 57; 57; 57; 72] = Some t' /\
              column t' = 79 /\ row t' = 39) /\
  (exists t', vt100_feed t0 [ESCAPE; 91; 59; 72] = Some t' /\
              column t' = 1 /\ row t' = 1).
Proof.
  intros Hg Hst Hc Hn1 Hn2 Hok0 Hw0 Hh0 Hst0. split.
  - pose proof (geometry_bounds t Hg) as (Hw & Hh & _).
    rewrite vt100_update_escape by (auto; congruence).
    rewrite (escape_position t c Hg Hst Hc). cbn.
    eexists; split; [reflexivity|]. split; [reflexivity|].
    split; [reflexivity|]. unfold column, row; cbn.
    rewrite !Z.max_l by lia.
    destruct (cell_column_row (width t) (Z.min (n2 t) (width t - 1))
                (Z.min (n1 t) (height t - 1))) as (Hx & Hy); [lia|].
    split; assumption.
  - assert (Hsz : size t0 = 3200).
    { destruct Hok0 as ((_ & _ & Hs & _) & _). rewrite Hs, Hw0, Hh0. reflexivity. }
    destruct t0 as [cur sav a b h w sz st bl con at_ ats gl ci].
    cbn in Hw0, Hh0, Hst0, Hsz. subst w h st sz.
    split; feed_after_escape; eexists; (split; [reflexivity|]);
      split; reflexivity.
Qed.

Lemma C6_cursor_position_witness :
  let t := set_state (set_n2 (set_n1 vga_terminal 999) 999) TERMINAL_NUMBER_2 in
  (exists t', terminal_escape_sequences t 72 = Some (t', 0) /\
              vt100_update t 72 = Some t' /\
              state t' = TERMINAL_NORMAL_MODE /\
              column t' = Z.min (n2 t) (width t - 1) /\
              row t' = Z.min (n1 t) (height t - 1)) /\
  (exists t', vt100_feed vga_terminal
                [ESCAPE; 91; 57; 57; 57; 59; 57; 57; 57; 72] = Some t' /\
              column t' = 79 /\ row t' = 39) /\
  (exists t', vt100_feed vga_terminal [ESCAPE; 91; 59; 72] = Some t' /\
              column t' = 1 /\ row t' = 1).
Proof.
  intros t. apply (C6_cursor_position t 72 vga_terminal).
  - repeat split; vm_compute; congruence.
  - reflexivity.
  - left; reflexivity.
  - vm_compute; congruence.
  - vm_compute; congruence.
  - repeat split; vm_compute; congruence.
  - reflexivity.
  - reflexivity.
  - reflexivity.
Defined.

(** ** Numeric parameters: at most four digits *)

Lemma isdigit_range d : isdigit d = true -> 48 <= d <= 57.
Proof. unfold isdigit. rewrite andb_true_iff, !Z.leb_le. tauto. Qed.

(** A digit in state [TERMINAL_NUMBER_1] or [TERMINAL_NUMBER_2] when
    [command_index] is already greater than 3: the sequence fails and only
    the parser state changes. *)
Lemma escape_digit_overflow t d :
  state t = TERMINAL_NUMBER_1 \/ state t = TERMINAL_NUMBER_2 ->
  command_index t > 3 -> isdigit d = true ->
  terminal_escape_sequences t d = Some (set_state t TERMINAL_NORMAL_MODE, -1).
Proof.
  intros Hst Hci Hd. unfold terminal_escape_sequences.
  destruct Hst as [-> | ->]; unfold escape_number_1, escape_number_2;
    rewrite Hd; destruct (Z.gtb_spec (command_index t) 3); try lia; reflexivity.
Qed.

(** The steps of a numeric parameter, each as one call of [vt100_update]. *)
Section ParameterSteps.
Variable t : vt100_t.
Hypothesis Hok : screen_ok t.

Lemma step_csi :
  state t = TERMINAL_CSI ->
  exists t', vt100_update t 91 = Some t' /\ state t' = TERMINAL_COMMAND /\
             same_screen t t' /\ screen_ok t'.
Proof.
  intros Hst. rewrite vt100_update_escape by (try apply Hok; congruence).
  unfold terminal_escape_sequences. rewrite Hst. cbn.
  eexists; split; [reflexivity|]. repeat split; apply Hok.
Qed.

Lemma step_command_digit d :
  state t = TERMINAL_COMMAND -> isdigit d = true ->
  exists t', vt100_update t d = Some t' /\ state t' = TERMINAL_NUMBER_1 /\
             command_index t' = 1 /\ same_screen t t' /\ screen_ok t'.
Proof.
  intros Hst Hd. pose proof (isdigit_range d Hd) as Hr.
  rewrite vt100_update_escape by (try apply Hok; congruence).
  unfold terminal_escape_sequences. rewrite Hst. unfold escape_command.
  destruct (Z.eqb_spec d 115); [lia|]. destruct (Z.eqb_spec d 110); [lia|].
  destruct (Z.eqb_spec d 63); [lia|]. destruct (Z.eqb_spec d 59); [lia|].
  rewrite Hd. cbn.
  eexists; split; [reflexivity|]. repeat split; apply Hok.
Qed.

Lemma step_command_semicolon :
  state t = TERMINAL_COMMAND ->
  exists t', vt100_update t 59 = Some t' /\ state t' = TERMINAL_NUMBER_2 /\
             command_index t' = 0 /\ same_screen t t' /\ screen_ok t'.
Proof.
  intros Hst. rewrite vt100_update_escape by (try apply Hok; congruence).
  unfold terminal_escape_sequences. rewrite Hst. cbn.
  eexists; split; [reflexivity|]. repeat split; apply Hok.
Qed.

Lemma step_number_digit d s :
  s = TERMINAL_NUMBER_1 \/ s = TERMINAL_NUMBER_2 ->
  state t = s -> isdigit d = true -> 0 <= command_index t <= 3 ->
  exists t', vt100_update t d = Some t' /\ state t' = s /\
             command_index t' = command_index t + 1 /\
             same_screen t t' /\ screen_ok t'.
Proof.
  intros Hs Hst Hd Hci.
  rewrite vt100_update_escape by (try apply Hok; destruct Hs; congruence).
  unfold terminal_escape_sequences. rewrite Hst.
  destruct Hs as [-> | ->]; unfold escape_number_1, escape_number_2;
    rewrite Hd; destruct (Z.gtb_spec (command_index t) 3); try lia; cbn;
    (eexists; split; [reflexivity|]); cbn;
    (split; [exact Hst|]);
    (split; [apply u8_small; lia|]); repeat split; apply Hok.
Qed.

Lemma step_digit_overflow d :
  state t = TERMINAL_NUMBER_1 \/ state t = TERMINAL_NUMBER_2 ->
  command_index t > 3 -> isdigit d = true ->
  vt100_update t d = Some (set_state t TERMINAL_NORMAL_MODE).
Proof.
  intros Hst Hci Hd.
  rewrite vt100_update_escape by (try apply Hok; destruct Hst; congruence).
  now rewrite escape_digit_overflow.
Qed.

(** A glyph written in normal mode, away from the end of the screen. *)
Lemma normal_mode_glyph_A :
  state t = TERMINAL_NORMAL_MODE -> cursor t + 1 < size t ->
  exists t', vt100_update t 65 = Some t' /\
             m t' = <[Z.to_nat (cursor t) := 65]> (m t) /\
             attributes t' = <[Z.to_nat (cursor t) := attribute t]> (attributes t) /\
             cursor t' = cursor t + 1.
Proof.
  intros Hst Hc. pose proof Hok as (Hg & Hcur & _).
  pose proof (geometry_bounds t Hg) as (Hw & Hh & Hz).
  destruct Hg as (_ & _ & Hsz & Hmax). unfold VT100_MAX_SIZE in Hmax.
  unfold vt100_update.
  destruct (Z.leb_spec (size t) VT100_MAX_SIZE); [|unfold VT100_MAX_SIZE in *; lia].
  rewrite u32_small by lia.
  destruct (Z.leb_spec (width t * height t) VT100_MAX_SIZE);
    [|unfold VT100_MAX_SIZE in *; lia].
  rewrite Hst. cbn. unfold normal_mode_byte. cbn.
  destruct (Z.ltb_spec (cursor t) (size t)); [|lia].
  eexists; split; [reflexivity|]. unfold normal_mode_wrap. cbn.
  rewrite usize_small by lia.
  destruct (Z.geb_spec (cursor t + 1) (size t)); [lia|]. cbn.
  repeat split. apply Z.mod_small. lia.
Qed.

(** The same on the last cell of the screen: the store is followed by the
    clear of the whole screen, and the cursor returns to cell 0. *)
Lemma normal_mode_glyph_A_last :
  arrays_ok t -> state t = TERMINAL_NORMAL_MODE -> cursor t + 1 = size t ->
  exists t', vt100_update t 65 = Some t' /\
             erased (size t) t t' /\ cursor t' = 0.
Proof.
  intros Harr Hst Hc. pose proof Hok as (Hg & Hcur & _).
  pose proof (geometry_bounds t Hg) as (Hw & Hh & Hz).
  destruct Hg as (_ & _ & Hsz & Hmax). unfold VT100_MAX_SIZE in Hmax.
  unfold vt100_update.
  destruct (Z.leb_spec (size t) VT100_MAX_SIZE); [|unfold VT100_MAX_SIZE in *; lia].
  rewrite u32_small by lia.
  destruct (Z.leb_spec (width t * height t) VT100_MAX_SIZE);
    [|unfold VT100_MAX_SIZE in *; lia].
  rewrite Hst. cbn. unfold normal_mode_byte. cbn.
  destruct (Z.ltb_spec (cursor t) (size t)); [|lia].
  eexists; split; [reflexivity|]. unfold normal_mode_wrap. cbn.
  rewrite usize_small by lia.
  destruct (Z.geb_spec (cursor t + 1) (size t)); [|lia]. cbn.
  split; [|rewrite Hc; apply Z.mod_same; lia].
  apply (erased_store_block_set (size t) t _ (Z.to_nat (cursor t)) 65 (attribute t));
    [exact Harr | unfold VT100_MAX_SIZE; lia | lia | reflexivity | reflexivity].
Qed.
End ParameterSteps.

(** [ESC [] then five digits: the fifth digit fails the sequence. *)
Lemma feed_five_digits t0 d1 d2 d3 d4 d5 :
  screen_ok t0 -> state t0 = TERMINAL_NORMAL_MODE ->
  isdigit d1 = true -> isdigit d2 = true -> isdigit d3 = true ->
  isdigit d4 = true -> isdigit d5 = true ->
  exists t', vt100_feed t0 [ESCAPE; 91; d1; d2; d3; d4; d5] = Some t' /\
             same_screen t0 t' /\ state t' = TERMINAL_NORMAL_MODE.
Proof.
  intros Hok Hst H1 H2 H3 H4 H5. cbn [vt100_feed].
  rewrite vt100_update_ESCAPE by assumption.
  destruct (step_csi (set_state t0 TERMINAL_CSI)) as (ta & -> & Hsa & Hfa & Hoka);
    [now apply screen_ok_set_state | reflexivity |].
  destruct (step_command_digit ta Hoka d1 Hsa H1) as (tb & -> & Hsb & Hcb & Hfb & Hokb).
  destruct (step_number_digit tb Hokb d2 TERMINAL_NUMBER_1) as (tc & -> & Hsc & Hcc & Hfc & Hokc);
    auto; [lia|].
  destruct (step_number_digit tc Hokc d3 TERMINAL_NUMBER_1) as (td & -> & Hsd & Hcd & Hfd & Hokd);
    auto; [lia|].
  destruct (step_number_digit td Hokd d4 TERMINAL_NUMBER_1) as (te & -> & Hse & Hce & Hfe & Hoke);
    auto; [lia|].
  rewrite (step_digit_overflow te Hoke d5) by (auto; lia).
  eexists; split; [reflexivity|]. split; [|reflexivity].
  assert (H01 : same_screen t0 (set_state t0 TERMINAL_CSI)) by (repeat split).
  assert (Hlast : same_screen te (set_state te TERMINAL_NORMAL_MODE)) by (repeat split).
  eapply same_screen_trans; [exact H01|].
  eapply same_screen_trans; [exact Hfa|].
  eapply same_screen_trans; [exact Hfb|].
  eapply same_screen_trans; [exact Hfc|].
  eapply same_screen_trans; [exact Hfd|].
  eapply same_screen_trans; [exact Hfe|]. exact Hlast.
Qed.

(** [ESC [ ;] then five digits: the same for the second parameter. *)
Lemma feed_five_digits_n2 t0 d1 d2 d3 d4 d5 :
  screen_ok t0 -> state t0 = TERMINAL_NORMAL_MODE ->
  isdigit d1 = true -> isdigit d2 = true -> isdigit d3 = true ->
  isdigit d4 = true -> isdigit d5 = true ->
  exists t', vt100_feed t0 [ESCAPE; 91; 59; d1; d2; d3; d4; d5] = Some t' /\
             same_screen t0 t' /\ state t' = TERMINAL_NORMAL_MODE.
Proof.
  intros Hok Hst H1 H2 H3 H4 H5. cbn [vt100_feed].
  rewrite vt100_update_ESCAPE by assumption.
  destruct (step_csi (set_state t0 TERMINAL_CSI)) as (ta & -> & Hsa & Hfa & Hoka);
    [now apply screen_ok_set_state | reflexivity |].
  destruct (step_command_semicolon ta Hoka Hsa) as (tz & -> & Hsz & Hcz & Hfz & Hokz).
  destruct (step_number_digit tz Hokz d1 TERMINAL_NUMBER_2) as (tb & -> & Hsb & Hcb & Hfb & Hokb);
    auto; [lia|].
  destruct (step_number_digit tb Hokb d2 TERMINAL_NUMBER_2) as (tc & -> & Hsc & Hcc & Hfc & Hokc);
    auto; [lia|].
  destruct (step_number_digit tc Hokc d3 TERMINAL_NUMBER_2) as (td & -> & Hsd & Hcd & Hfd & Hokd);
    auto; [lia|].
  destruct (step_number_digit td Hokd d4 TERMINAL_NUMBER_2) as (te & -> & Hse & Hce & Hfe & Hoke);
    auto; [lia|].
  rewrite (step_digit_overflow te Hoke d5) by (auto; lia).
  eexists; split; [reflexivity|]. split; [|reflexivity].
  assert (H01 : same_screen t0 (set_state t0 TERMINAL_CSI)) by (repeat split).
  assert (Hlast : same_screen te (set_state te TERMINAL_NORMAL_MODE)) by (repeat split).
  eapply same_screen_trans; [exact H01|].
  eapply same_screen_trans; [exact Hfa|].
  eapply same_screen_trans; [exact Hfz|].
  eapply same_screen_trans; [exact Hfb|].
  eapply same_screen_trans; [exact Hfc|].
  eapply same_screen_trans; [exact Hfd|].
  eapply same_screen_trans; [exact Hfe|]. exact Hlast.
Qed.

(** C7 (counterexample to the unamended statement). On the 80x40 terminal in its initial
    state the bytes [ESC [ 1 2 3 4 5 A] change the screen and the cursor.
    The sequence ends at the ['5']; the ['A'] is then a glyph. *)
Lemma C7_counterexample :
  exists t',
    vt100_feed vga_terminal [ESCAPE; 91; 49; 50; 51; 52; 53; 65] = Some t' /\
    cursor vga_terminal = 0 /\ cursor t' = 1 /\
    m vga_terminal !! 0%nat = Some 32 /\ m t' !! 0%nat = Some 65 /\
    ~ same_screen vga_terminal t'.
Proof.
  eexists. split; [vm_compute; reflexivity|].
  do 4 (split; [vm_compute; reflexivity|]).
  intros (_ & _ & Hc & _). vm_compute in Hc. discriminate.
Qed.

(** C7 (amended). A digit that arrives in [TERMINAL_NUMBER_1] or
    [TERMINAL_NUMBER_2] when [command_index] is already greater than 3 fails
    the sequence: only the parser state changes.  So on every screen in
    normal mode [ESC [] followed by five digits, and [ESC [ ;] followed by
    five digits, leave the screen and both cursors unchanged and the parser
    in normal mode.  The bytes after the failing digit are ordinary input:
    after [ESC [ 1 2 3 4 5] the screen is unchanged, and the ['A'] that
    follows is processed by [vt100_update] in normal mode: it is written at
    the cursor and the cursor advances; when the cursor is on the last cell
    of the screen the write is followed by the clear of the whole screen
    (every cell of the screen, that of the ['A'] included, is a space with
    the default attribute) and the cursor returns to cell 0. *)
Theorem C7_fifth_digit_fails (t : vt100_t) (d : Z) (t0 : vt100_t)
    (d1 d2 d3 d4 d5 : Z) :
  geometry_ok t ->
  state t = TERMINAL_NUMBER_1 \/ state t = TERMINAL_NUMBER_2 ->
  command_index t > 3 -> isdigit d = true ->
  screen_ok t0 -> state t0 = TERMINAL_NORMAL_MODE ->
  isdigit d1 = true -> isdigit d2 = true -> isdigit d3 = true ->
  isdigit d4 = true -> isdigit d5 = true ->
  (terminal_escape_sequences t d = Some (set_state t TERMINAL_NORMAL_MODE, -1) /\
   vt100_update t d = Some (set_state t TERMINAL_NORMAL_MODE)) /\
  (exists t', vt100_feed t0 [ESCAPE; 91; d1; d2; d3; d4; d5] = Some t' /\
              same_screen t0 t' /\ state t' = TERMINAL_NORMAL_MODE) /\
  (exists t', vt100_feed t0 [ESCAPE; 91; 59; d1; d2; d3; d4; d5] = Some t' /\
              same_screen t0 t' /\ state t' = TERMINAL_NORMAL_MODE) /\
  (exists t5 t6,
      vt100_feed t0 [ESCAPE; 91; 49; 50; 51; 52; 53] = Some t5 /\
      same_screen t0 t5 /\ state t5 = TERMINAL_NORMAL_MODE /\
      vt100_feed t0 [ESCAPE; 91; 49; 50; 51; 52; 53; 65] = Some t6 /\
      vt100_update t5 65 = Some t6 /\
      (cursor t0 + 1 < size t0 ->
         m t6 = <[Z.to_nat (cursor t0) := 65]> (m t0) /\
         cursor t6 = cursor t0 + 1) /\
      (cursor t0 + 1 = size t0 -> arrays_ok t0 ->
         erased (size t0) t0 t6 /\ cursor t6 = 0)).
Proof.
  intros Hg Hst Hci Hd Hok0 Hst0 H1 H2 H3 H4 H5.
  split; [|split; [|split]].
  - split; [now apply escape_digit_overflow|].
    rewrite vt100_update_escape by (auto; destruct Hst; congruence).
    now rewrite escape_digit_overflow.
  - now apply feed_five_digits.
  - now apply feed_five_digits_n2.
  - destruct (feed_five_digits t0 49 50 51 52 53 Hok0 Hst0)
      as (t5 & Hfeed & Hsame & Hn); try reflexivity.
    destruct (vt100_feed_ok [ESCAPE; 91; 49; 50; 51; 52; 53] t0 Hok0)
      as (t5' & Hfeed' & Hok5 & ((_ & _ & Hsize) & _)).
    rewrite Hfeed in Hfeed'. injection Hfeed' as <-.
    destruct (vt100_update_ok t5 65 Hok5) as (t6 & Hup & _).
    exists t5, t6. split; [exact Hfeed|]. split; [exact Hsame|].
    split; [exact Hn|]. split; [|split; [exact Hup|split]].
    + change [ESCAPE; 91; 49; 50; 51; 52; 53; 65]
        with ([ESCAPE; 91; 49; 50; 51; 52; 53] ++ [65]).
      rewrite vt100_feed_app, Hfeed. cbn [vt100_feed]. now rewrite Hup.
    + intros Hc. destruct Hsame as (Hm & _ & Hcur & _).
      destruct (normal_mode_glyph_A t5 Hok5 Hn) as (t6' & Hup' & Hm6 & _ & Hc6);
        [rewrite Hcur, Hsize; exact Hc|].
      rewrite Hup in Hup'. injection Hup' as <-.
      rewrite Hm6, Hc6, Hm, Hcur. auto.
    + intros Hc (Hlm & Hla). destruct Hsame as (Hm & Ha & Hcur & _).
      assert (Harr5 : arrays_ok t5) by (split; congruence).
      destruct (normal_mode_glyph_A_last t5 Hok5 Harr5 Hn) as (t6' & Hup' & Her & Hc6);
        [rewrite Hcur, Hsize; exact Hc|].
      rewrite Hup in Hup'. injection Hup' as <-.
      split; [|exact Hc6].
      unfold erased in *. rewrite Hsize, Hm, Ha in Her. exact Her.
Qed.

Lemma C7_fifth_digit_fails_witness :
  let t := set_state (set_command_index vga_terminal 4) TERMINAL_NUMBER_1 in
  (terminal_escape_sequences t 53 = Some (set_state t TERMINAL_NORMAL_MODE, -1) /\
   vt100_update t 53 = Some (set_state t TERMINAL_NORMAL_MODE)) /\
  (exists t', vt100_feed vga_terminal [ESCAPE; 91; 49; 50; 51; 52; 53] = Some t' /\
              same_screen vga_terminal t' /\ state t' = TERMINAL_NORMAL_MODE) /\
  (exists t', vt100_feed vga_terminal [ESCAPE; 91; 59; 49; 50; 51; 52; 53] = Some t' /\
              same_screen vga_terminal t' /\ state t' = TERMINAL_NORMAL_MODE) /\
  (exists t5 t6,
      vt100_feed vga_terminal [ESCAPE; 91; 49; 50; 51; 52; 53] = Some t5 /\
      same_screen vga_terminal t5 /\ state t5 = TERMINAL_NORMAL_MODE /\
      vt100_feed vga_terminal [ESCAPE; 91; 49; 50; 51; 52; 53; 65] = Some t6 /\
      vt100_update t5 65 = Some t6 /\
      (cursor vga_terminal + 1 < size vga_terminal ->
         m t6 = <[Z.to_nat (cursor vga_terminal) := 65]> (m vga_terminal) /\
         cursor t6 = cursor vga_terminal + 1) /\
      (cursor vga_terminal + 1 = size vga_terminal -> arrays_ok vga_terminal ->
         erased (size vga_terminal) vga_terminal t6 /\ cursor t6 = 0)).
Proof.
  intros t. apply (C7_fifth_digit_fails t 53 vga_terminal 49 50 51 52 53).
  - repeat split; vm_compute; congruence.
  - left; reflexivity.
  - vm_compute; reflexivity.
  - reflexivity.
  - repeat split; vm_compute; congruence.
  - reflexivity.
  - reflexivity.
  - reflexivity.
  - reflexivity.
  - reflexivity.
  - reflexivity.
Defined.

(** ** Save and restore the cursor *)

(** C8. On every screen in normal mode with the parser idle, [ESC [ s]
    followed by [ESC [ n] leaves the cursor where it was immediately before
    the ['s'] (which is where it was before the first [ESC]), and the parser
    in normal mode. *)
Theorem C8_save_restore (t : vt100_t) :
  screen_ok t -> state t = TERMINAL_NORMAL_MODE ->
  exists t1 t',
    vt100_feed t [ESCAPE; 91] = Some t1 /\
    vt100_feed t1 [115; ESCAPE; 91; 110] = Some t' /\
    vt100_feed t [ESCAPE; 91; 115; ESCAPE; 91; 110] = Some t' /\
    cursor t' = cursor t1 /\ cursor t1 = cursor t /\
    state t' = TERMINAL_NORMAL_MODE.
Proof.
  intros Hok Hst. pose proof Hok as (Hg & Hc & Hs).
  destruct t as [cur sav a b h w sz st bl con at_ ats gl ci].
  cbn in Hst, Hc, Hs. subst st.
  set (t1 := mk_vt100 cur sav a b h w sz TERMINAL_COMMAND bl con at_ ats gl ci).
  set (t2 := mk_vt100 cur cur a b h w sz TERMINAL_NORMAL_MODE bl con at_ ats gl ci).
  assert (Hok2 : screen_ok t2) by (repeat split; try apply Hg; cbn; lia).
  assert (Hg1 : geometry_ok t1) by exact Hg.
  assert (Hg2 : geometry_ok t2) by exact Hg.
  assert (E1 : vt100_feed
            (mk_vt100 cur sav a b h w sz TERMINAL_NORMAL_MODE bl con at_ ats gl ci)
            [ESCAPE; 91] = Some t1).
  { unfold vt100_feed. rewrite vt100_update_ESCAPE by (assumption || reflexivity).
    flatten. escape_step. reflexivity. }
  assert (E2 : vt100_feed t1 [115; ESCAPE; 91; 110] = Some t2).
  { unfold vt100_feed, t1. escape_step. fold t2.
    rewrite vt100_update_ESCAPE by (assumption || reflexivity).
    unfold t2. flatten. do 2 escape_step. reflexivity. }
  exists t1, t2. split; [exact E1|]. split; [exact E2|].
  split; [|repeat split].
  change [ESCAPE; 91; 115; ESCAPE; 91; 110]
    with ([ESCAPE; 91] ++ [115; ESCAPE; 91; 110]).
  rewrite vt100_feed_app, E1. exact E2.
Qed.

Lemma C8_save_restore_witness :
  exists t1 t',
    vt100_feed (set_cursor vga_terminal 123) [ESCAPE; 91] = Some t1 /\
    vt100_feed t1 [115; ESCAPE; 91; 110] = Some t' /\
    vt100_feed (set_cursor vga_terminal 123)
      [ESCAPE; 91; 115; ESCAPE; 91; 110] = Some t' /\
    cursor t' = cursor t1 /\ cursor t1 = cursor (set_cursor vga_terminal 123) /\
    state t' = TERMINAL_NORMAL_MODE.
Proof.
  apply (C8_save_restore (set_cursor vga_terminal 123)).
  - repeat split; vm_compute; congruence.
  - reflexivity.
Defined.

(** ** The display flags *)

Lemma ends_with_snoc bs suffix c :
  ends_with bs suffix -> ends_with (bs ++ [c]) (suffix ++ [c]).
Proof. intros (pre & ->). exists pre. now rewrite app_assoc. Qed.

Lemma ends_with_last bs c : ends_with (bs ++ [c]) [c].
Proof. now exists bs. Qed.

(** In [TERMINAL_DECTCEM] the parameter is 25 only after [ESC [ ? 2 5]. *)
Lemma history_dectcem_25 bs t :
  history bs t -> state t = TERMINAL_DECTCEM -> n1 t = 25 ->
  ends_with bs [ESCAPE; 91; 63; 50; 53].
Proof.
  unfold history. intros H Hst Hn. rewrite Hst in H.
  destruct H as [(_ & H1 & _) | [(_ & d & Hd & H1 & _) | (_ & d1 & d2 & Hd1 & Hd2 & H1 & He)]].
  - lia.
  - apply isdigit_range in Hd. lia.
  - apply isdigit_range in Hd1, Hd2.
    assert (d1 = 50) by lia. assert (d2 = 53) by lia. now subst.
Qed.

(** One byte in normal mode: the parser is left in normal mode, or in
    [TERMINAL_CSI] by an [ESC]. *)
Lemma normal_mode_byte_state t c t' :
  normal_mode_byte t c = Some t' ->
  (c = ESCAPE /\ state t' = TERMINAL_CSI) \/ state t' = state t.
Proof.
  unfold normal_mode_byte. destruct (Z.eqb_spec c ESCAPE).
  { intros [= <-]. now left. }
  unfold terminal_at_xy_relative, terminal_at_xy.
  split_ifs; intros [= <-]; right; reflexivity.
Qed.

(** [history] is kept by every byte. *)
Lemma history_step bs t c t' :
  screen_ok t -> history bs t -> vt100_update t c = Some t' ->
  history (bs ++ [c]) t'.
Proof.
  intros Hok Hh Hup. destruct (state t) eqn:Hst.
  - (* normal mode *)
    unfold vt100_update in Hup.
    destruct (negb (size t <=? VT100_MAX_SIZE)); [discriminate|].
    destruct (negb (u32 (width t * height t) <=? VT100_MAX_SIZE)); [discriminate|].
    rewrite Hst in Hup. cbn in Hup.
    destruct (normal_mode_byte t c) as [t1|] eqn:Hb; [|discriminate].
    injection Hup as <-.
    assert (Hw : state (normal_mode_wrap t1) = state t1).
    { unfold normal_mode_wrap, terminal_attribute_block_set.
      destruct (cursor t1 >=? size t1); reflexivity. }
    unfold history. rewrite Hw.
    destruct (normal_mode_byte_state t c t1 Hb) as [(-> & ->) | ->].
    + apply ends_with_last.
    + now rewrite Hst.
  - (* TERMINAL_CSI *)
    rewrite vt100_update_escape in Hup by (try apply Hok; congruence).
    unfold history in Hh. rewrite Hst in Hh.
    unfold terminal_escape_sequences, escape_csi in Hup. rewrite Hst in Hup.
    destruct (Z.eqb_spec c 91) as [-> |]; injection Hup as <-.
    + apply (ends_with_snoc _ _ 91 Hh).
    + exact I.
  - (* TERMINAL_COMMAND *)
    rewrite vt100_update_escape in Hup by (try apply Hok; congruence).
    unfold history in Hh. rewrite Hst in Hh.
    unfold terminal_escape_sequences, escape_command in Hup. rewrite Hst in Hup.
    destruct (c =? 115); [injection Hup as <-; exact I|].
    destruct (c =? 110); [injection Hup as <-; exact I|].
    destruct (Z.eqb_spec c 63) as [-> |].
    { injection Hup as <-. left. repeat split.
      apply (ends_with_snoc _ _ 63 Hh). }
    destruct (c =? 59); [injection Hup as <-; exact I|].
    destruct (isdigit c); injection Hup as <-; exact I.
  - (* TERMINAL_NUMBER_1 *)
    rewrite vt100_update_escape in Hup by (try apply Hok; congruence).
    destruct (terminal_escape_sequences t c) as [[t1 r]|] eqn:He; [|discriminate].
    assert (Hs : state t1 = TERMINAL_NORMAL_MODE \/ state t1 = TERMINAL_NUMBER_1
                 \/ state t1 = TERMINAL_NUMBER_2).
    { revert He. unfold_escape. rewrite Hst.
      unfold terminal_at_xy_relative, terminal_at_xy. cbv zeta.
      split_ifs; intros [= <- <-]; cbn; auto. }
    unfold history.
    destruct (negb (r =? 0)); injection Hup as <-; cbn; [exact I|].
    destruct Hs as [-> | [-> | ->]]; exact I.
  - (* TERMINAL_NUMBER_2 *)
    rewrite vt100_update_escape in Hup by (try apply Hok; congruence).
    destruct (terminal_escape_sequences t c) as [[t1 r]|] eqn:He; [|discriminate].
    assert (Hs : state t1 = TERMINAL_NORMAL_MODE \/ state t1 = TERMINAL_NUMBER_2).
    { revert He. unfold_escape. rewrite Hst.
      unfold terminal_at_xy. cbv zeta.
      split_ifs; intros [= <- <-]; cbn; auto. }
    unfold history.
    destruct (negb (r =? 0)); injection Hup as <-; cbn; [exact I|].
    destruct Hs as [-> | ->]; exact I.
  - (* TERMINAL_DECTCEM *)
    rewrite vt100_update_escape in Hup by (try apply Hok; congruence).
    unfold history in Hh. rewrite Hst in Hh.
    unfold terminal_escape_sequences, escape_dectcem in Hup. rewrite Hst in Hup.
    destruct (isdigit c) eqn:Hd.
    + pose proof (isdigit_range c Hd) as Hr.
      destruct (Z.gtb_spec (command_index t) 1) as [Hgt|Hle];
        [injection Hup as <-; exact I|].
      injection Hup as <-. unfold history; cbn. unfold accumulate.
      destruct Hh as [(Hci & Hn & He) | [(Hci & d & Hdd & Hn & He) | (Hci & _)]];
        [| |lia]; rewrite Hci; cbn; rewrite Hst.
      * right; left. split; [reflexivity|]. exists c.
        split; [exact Hd|]. split; [|apply (ends_with_snoc _ _ c He)].
        rewrite Z.mul_0_r. apply u32_small. lia.
      * right; right. split; [reflexivity|]. exists d, c.
        apply isdigit_range in Hdd as Hrd.
        split; [exact Hdd|]. split; [exact Hd|].
        split; [|apply (ends_with_snoc _ _ c He)].
        rewrite Hn. apply u32_small. lia.
    + destruct (negb (n1 t =? 25)); [injection Hup as <-; exact I|].
      destruct (c =? 108); [injection Hup as <-; exact I|].
      destruct (c =? 104); injection Hup as <-; exact I.
  - (* TERMINAL_STATE_END *)
    unfold history in Hh. rewrite Hst in Hh. contradiction.
Qed.

Lemma history_feed bs : forall bs0 t t',
  screen_ok t -> history bs0 t -> vt100_feed t bs = Some t' ->
  history (bs0 ++ bs) t'.
Proof.
  induction bs as [|c bs IH]; intros bs0 t t' Hok Hh Hf; cbn in Hf.
  - injection Hf as <-. now rewrite app_nil_r.
  - destruct (vt100_update t c) as [t1|] eqn:Hup; [|discriminate].
    destruct (vt100_update_ok t c Hok) as (t1' & Hup' & Hok1 & _).
    rewrite Hup in Hup'. injection Hup' as <-.
    change (c :: bs) with ([c] ++ bs). rewrite app_assoc.
    apply (IH _ t1); auto. now apply (history_step bs0 t c).
Qed.

(** One byte of an escape sequence never changes [blinks], and changes
    [cursor_on] only by a successful ['h'] or ['l'] in [TERMINAL_DECTCEM]
    with parameter 25. *)
Lemma escape_flags t c :
  match terminal_escape_sequences t c with
  | Some (t', r) =>
      blinks t' = blinks t /\
      (cursor_on t' = cursor_on t \/
       (state t = TERMINAL_DECTCEM /\ n1 t = 25 /\ r = 0 /\
        ((c = 104 /\ cursor_on t' = true) \/ (c = 108 /\ cursor_on t' = false))))
  | None => True
  end.
Proof.
  destruct (state t) eqn:Hst.
  1-5,7: unfold_escape; rewrite Hst;
    unfold terminal_at_xy_relative, terminal_at_xy; cbv zeta;
    try exact I; split_ifs; (split; [reflexivity | left; reflexivity]).
  unfold terminal_escape_sequences, escape_dectcem. rewrite Hst.
  destruct (isdigit c).
  { destruct (command_index t >? 1); split; auto. }
  destruct (Z.eqb_spec (n1 t) 25) as [Hn|Hn]; cbn; [|split; auto].
  destruct (Z.eqb_spec c 108) as [-> |].
  { split; [reflexivity|]. right. repeat split; auto. }
  destruct (Z.eqb_spec c 104) as [-> |].
  { split; [reflexivity|]. right. repeat split; auto. }
  split; auto.
Qed.

(** The same for [vt100_update], in every mode. *)
Lemma vt100_update_flags t c t' :
  screen_ok t -> vt100_update t c = Some t' ->
  blinks t' = blinks t /\
  (cursor_on t' = cursor_on t \/
   (state t = TERMINAL_DECTCEM /\ n1 t = 25 /\
    terminal_escape_sequences t c = Some (t', 0) /\
    ((c = 104 /\ cursor_on t' = true) \/ (c = 108 /\ cursor_on t' = false)))).
Proof.
  intros Hok Hup.
  destruct (vt100_update_ok t c Hok) as (t1 & Hup1 & _ & (_ & Hb)).
  rewrite Hup in Hup1. injection Hup1 as <-. split; [exact Hb|].
  destruct (state t) eqn:Hst.
  - (* normal mode *)
    left. unfold vt100_update in Hup.
    destruct (negb (size t <=? VT100_MAX_SIZE)); [discriminate|].
    destruct (negb (u32 (width t * height t) <=? VT100_MAX_SIZE)); [discriminate|].
    rewrite Hst in Hup. cbn in Hup.
    destruct (normal_mode_byte_ok t c Hok) as (t1 & Hb1 & ((Hw & Hh & Hs) & _) & Hsv & Hon & _).
    rewrite Hb1 in Hup. injection Hup as <-.
    destruct (normal_mode_wrap_ok t1) as (_ & _ & _ & Hon').
    + destruct Hok as ((? & ? & ? & ?) & _). unfold geometry_ok.
      rewrite Hw, Hh, Hs. auto.
    + rewrite Hsv, Hs. apply Hok.
    + congruence.
  - rewrite vt100_update_escape in Hup by (try apply Hok; congruence).
    pose proof (escape_flags t c) as Hf.
    destruct (terminal_escape_sequences t c) as [[t1 r]|]; [|discriminate].
    destruct Hf as (_ & [Hf | (Hd & _)]); [|congruence].
    left. destruct (negb (r =? 0)); injection Hup as <-; exact Hf.
  - rewrite vt100_update_escape in Hup by (try apply Hok; congruence).
    pose proof (escape_flags t c) as Hf.
    destruct (terminal_escape_sequences t c) as [[t1 r]|]; [|discriminate].
    destruct Hf as (_ & [Hf | (Hd & _)]); [|congruence].
    left. destruct (negb (r =? 0)); injection Hup as <-; exact Hf.
  - rewrite vt100_update_escape in Hup by (try apply Hok; congruence).
    pose proof (escape_flags t c) as Hf.
    destruct (terminal_escape_sequences t c) as [[t1 r]|]; [|discriminate].
    destruct Hf as (_ & [Hf | (Hd & _)]); [|congruence].
    left. destruct (negb (r =? 0)); injection Hup as <-; exact Hf.
  - rewrite vt100_update_escape in Hup by (try apply Hok; congruence).
    pose proof (escape_flags t c) as Hf.
    destruct (terminal_escape_sequences t c) as [[t1 r]|]; [|discriminate].
    destruct Hf as (_ & [Hf | (Hd & _)]); [|congruence].
    left. destruct (negb (r =? 0)); injection Hup as <-; exact Hf.
  - rewrite vt100_update_escape in Hup by (try apply Hok; congruence).
    pose proof (escape_flags t c) as Hf.
    destruct (terminal_escape_sequences t c) as [[t1 r]|]; [|discriminate].
    destruct Hf as (_ & [Hf | (_ & Hn & -> & Hc)]).
    + left. destruct (negb (r =? 0)); injection Hup as <-; exact Hf.
    + right. cbn in Hup. injection Hup as <-. auto.
  - rewrite vt100_update_escape in Hup by (try apply Hok; congruence).
    pose proof (escape_flags t c) as Hf.
    destruct (terminal_escape_sequences t c) as [[t1 r]|]; [|discriminate].
    destruct Hf as (_ & [Hf | (Hd & _)]); [|congruence].
    left. destruct (negb (r =? 0)); injection Hup as <-; exact Hf.
Qed.

(** [ESC [ ? 2 5] followed by ['l'] hides the cursor, followed by ['h']
    shows it. *)
Lemma feed_dectcem t :
  screen_ok t -> state t = TERMINAL_NORMAL_MODE ->
  exists tl th,
    vt100_feed t [ESCAPE; 91; 63; 50; 53; 108] = Some tl /\ cursor_on tl = false /\
    vt100_feed t [ESCAPE; 91; 63; 50; 53; 104] = Some th /\ cursor_on th = true.
Proof.
  intros Hok Hst. pose proof Hok as (Hg & _).
  destruct t as [cur sav a b h w sz st bl con at_ ats gl ci].
  cbn in Hst. subst st.
  assert (El : exists tl,
    vt100_feed (mk_vt100 cur sav a b h w sz TERMINAL_NORMAL_MODE bl con at_ ats gl ci)
      [ESCAPE; 91; 63; 50; 53; 108] = Some tl /\ cursor_on tl = false).
  { unfold vt100_feed. rewrite vt100_update_ESCAPE by (assumption || reflexivity).
    flatten. do 5 escape_step. eexists; split; reflexivity. }
  assert (Eh : exists th,
    vt100_feed (mk_vt100 cur sav a b h w sz TERMINAL_NORMAL_MODE bl con at_ ats gl ci)
      [ESCAPE; 91; 63; 50; 53; 104] = Some th /\ cursor_on th = true).
  { unfold vt100_feed. rewrite vt100_update_ESCAPE by (assumption || reflexivity).
    flatten. do 5 escape_step. eexists; split; reflexivity. }
  destruct El as (tl & El & Hl), Eh as (th & Eh & Hh).
  exists tl, th. auto.
Qed.

(** C10. Feed any bytes [bs] to a terminal that starts in normal mode with
    its cursors in range, and then one more byte [c].  That byte is
    processed, it leaves [blinks] as it was (so [blinks] never changes), and
    if it changes [cursor_on] then [c] is ['h'] or ['l'], the bytes before
    it end with [ESC [ ? 2 5], the parser was in [TERMINAL_DECTCEM] and the
    sequence succeeds; ['h'] then sets [cursor_on] to true and ['l'] to
    false, as [ESC [ ? 2 5 h] and [ESC [ ? 2 5 l] do from every such
    terminal. *)
Theorem C10_display_flags (t0 : vt100_t) (bs : list Z) (c : Z) :
  screen_ok t0 -> state t0 = TERMINAL_NORMAL_MODE ->
  (exists t t',
      vt100_feed t0 bs = Some t /\ vt100_update t c = Some t' /\
      blinks t = blinks t0 /\ blinks t' = blinks t /\
      (cursor_on t' <> cursor_on t ->
         ends_with bs [ESCAPE; 91; 63; 50; 53] /\
         state t = TERMINAL_DECTCEM /\
         terminal_escape_sequences t c = Some (t', 0) /\
         ((c = 104 /\ cursor_on t' = true) \/
          (c = 108 /\ cursor_on t' = false)))) /\
  (exists tl th,
      vt100_feed t0 [ESCAPE; 91; 63; 50; 53; 108] = Some tl /\
      cursor_on tl = false /\
      vt100_feed t0 [ESCAPE; 91; 63; 50; 53; 104] = Some th /\
      cursor_on th = true).
Proof.
  intros Hok Hst. split; [|now apply feed_dectcem].
  destruct (vt100_feed_ok bs t0 Hok) as (t & Hfeed & Hokt & (_ & Hb)).
  destruct (vt100_update_ok t c Hokt) as (t' & Hup & _).
  exists t, t'. split; [exact Hfeed|]. split; [exact Hup|].
  split; [exact Hb|].
  destruct (vt100_update_flags t c t' Hokt Hup) as (Hb' & Hon).
  split; [exact Hb'|]. intros Hne.
  destruct Hon as [Hon | (Hd & Hn & He & Hc)]; [contradiction|].
  assert (Hh : history ([] ++ bs) t).
  { apply (history_feed bs [] t0); auto. unfold history. now rewrite Hst. }
  split; [|auto]. now apply (history_dectcem_25 bs t).
Qed.

Lemma C10_display_flags_witness :
  (exists t t',
      vt100_feed vga_terminal [72; ESCAPE; 91; 63; 50; 53] = Some t /\
      vt100_update t 108 = Some t' /\
      blinks t = blinks vga_terminal /\ blinks t' = blinks t /\
      (cursor_on t' <> cursor_on t ->
         ends_with [72; ESCAPE; 91; 63; 50; 53] [ESCAPE; 91; 63; 50; 53] /\
         state t = TERMINAL_DECTCEM /\
         terminal_escape_sequences t 108 = Some (t', 0) /\
         ((108 = 104 /\ cursor_on t' = true) \/
          (108 = 108 /\ cursor_on t' = false)))) /\
  (exists tl th,
      vt100_feed vga_terminal [ESCAPE; 91; 63; 50; 53; 108] = Some tl /\
      cursor_on tl = false /\
      vt100_feed vga_terminal [ESCAPE; 91; 63; 50; 53; 104] = Some th /\
      cursor_on th = true).
Proof.
  apply (C10_display_flags vga_terminal [72; ESCAPE; 91; 63; 50; 53] 108).
  - repeat split; vm_compute; congruence.
  - reflexivity.
Defined.

(** ** The byte FIFO: capacity *)

Module FifoFacts.
Import Fifo.

Lemma usize_minus_1 : usize (0 - 1) = 2 ^ 64 - 1.
Proof. reflexivity. Qed.

(** With [tail = 0] the queue is full exactly when [head = size - 1]. *)
Lemma fifo_is_full_tail_0 fifo :
  2 <= size fifo < 2 ^ 64 -> tail fifo = 0 -> 0 <= head fifo < size fifo ->
  fifo_is_full fifo = (head fifo =? size fifo - 1).
Proof.
  intros HN Ht Hh. unfold fifo_is_full. rewrite Ht, usize_minus_1.
  rewrite usize_small by lia.
  destruct (Z.eqb_spec (head fifo) (2 ^ 64 - 1)); [lia|].
  cbn. now rewrite orb_false_r, andb_true_r.
Qed.

(** Pushes into a queue whose tail is 0, while a slot beyond the next one
    is left: each returns 1 and advances [head]. *)
Lemma fifo_push_all_room ds : forall fifo,
  2 <= size fifo < 2 ^ 64 -> tail fifo = 0 -> 0 <= head fifo ->
  head fifo + Z.of_nat (length ds) <= size fifo - 1 ->
  snd (fifo_push_all fifo ds) = replicate (length ds) 1 /\
  head (fst (fifo_push_all fifo ds)) = head fifo + Z.of_nat (length ds) /\
  tail (fst (fifo_push_all fifo ds)) = 0 /\
  size (fst (fifo_push_all fifo ds)) = size fifo.
Proof.
  induction ds as [|d ds IH]; intros fifo HN Ht Hh Hroom.
  - cbn. repeat split; auto. lia.
  - cbn [length] in Hroom. cbn [fifo_push_all]. unfold fifo_push.
    rewrite fifo_is_full_tail_0 by lia.
    destruct (Z.eqb_spec (head fifo) (size fifo - 1)); [lia|].
    rewrite usize_small by lia.
    destruct (Z.eqb_spec (head fifo + 1) (size fifo)); [lia|].
    cbv zeta.
    set (fifo1 := mk_fifo _ _ _ _).
    destruct (IH fifo1) as (Hr & Hhd & Htl & Hsz); cbn; try lia.
    destruct (fifo_push_all fifo1 ds) as [fifo2 rets]. cbn in *.
    rewrite Hr, Hhd, Htl, Hsz. repeat split; lia.
Qed.

(** C9 (counterexample to the unamended statement), for [N = 2]: of the first two
    pushes into the new queue the second returns 0. *)
Lemma C9_counterexample :
  exists fifo0, fifo_new 2 = Some fifo0 /\
                snd (fifo_push_all fifo0 [7; 8]) = [1; 0] /\
                snd (fifo_push_all fifo0 [7; 8]) <> replicate 2 1.
Proof. eexists. split; [reflexivity|]. split; [reflexivity|]. discriminate. Qed.

(** C9 (amended). A queue created with [N >= 2] slots holds [N - 1]
    bytes: it starts empty, each of the first [N - 1] pushes returns 1,
    the queue is then full, and the next push returns 0 and leaves it
    unchanged.  A push on any full queue returns 0 and leaves the queue
    unchanged; a pop on any empty queue returns 0 and leaves the queue
    and the output byte unchanged. *)
Theorem C9_fifo_capacity (N : Z) (ds : list Z) (d : Z) (full empty : fifo_t) :
  2 <= N < 2 ^ 64 -> Z.of_nat (length ds) = N - 1 ->
  fifo_is_full full = true -> fifo_is_empty empty = true ->
  (exists fifo0,
      fifo_new N = Some fifo0 /\ fifo_is_empty fifo0 = true /\
      snd (fifo_push_all fifo0 ds) = replicate (length ds) 1 /\
      let fifoN := fst (fifo_push_all fifo0 ds) in
      fifo_is_full fifoN = true /\ fifo_push fifoN d = (fifoN, 0)) /\
  fifo_push full d = (full, 0) /\
  fifo_pop empty d = (empty, d, 0).
Proof.
  intros HN Hlen Hfull Hempty. split; [|split].
  - unfold fifo_new. destruct (Z.geb_spec N 2); [|lia].
    eexists; split; [reflexivity|]. split; [reflexivity|].
    set (fifo0 := mk_fifo _ _ _ _).
    destruct (fifo_push_all_room ds fifo0) as (Hr & Hhd & Htl & Hsz);
      cbn; try lia.
    split; [exact Hr|]. cbv zeta.
    assert (Hf : fifo_is_full (fst (fifo_push_all fifo0 ds)) = true).
    { rewrite fifo_is_full_tail_0; rewrite ?Hsz, ?Hhd; cbn; lia. }
    split; [exact Hf|]. unfold fifo_push. now rewrite Hf.
  - unfold fifo_push. now rewrite Hfull.
  - unfold fifo_pop. now rewrite Hempty.
Qed.

Lemma C9_fifo_capacity_witness :
  (exists fifo0,
      fifo_new 8 = Some fifo0 /\ fifo_is_empty fifo0 = true /\
      snd (fifo_push_all fifo0 [1; 2; 3; 4; 5; 6; 7]) = replicate 7 1 /\
      let fifoN := fst (fifo_push_all fifo0 [1; 2; 3; 4; 5; 6; 7]) in
      fifo_is_full fifoN = true /\ fifo_push fifoN 9 = (fifoN, 0)) /\
  fifo_push (mk_fifo 2 3 8 (replicate 8 0)) 9 = (mk_fifo 2 3 8 (replicate 8 0), 0) /\
  fifo_pop (mk_fifo 5 5 8 (replicate 8 0)) 9 = (mk_fifo 5 5 8 (replicate 8 0), 9, 0).
Proof.
  apply (C9_fifo_capacity 8 [1; 2; 3; 4; 5; 6; 7] 9
           (mk_fifo 2 3 8 (replicate 8 0)) (mk_fifo 5 5 8 (replicate 8 0))).
  - lia.
  - reflexivity.
  - reflexivity.
  - reflexivity.
Defined.

End FifoFacts.

(** * Further properties *)

(** ** Normal mode *)

(** [vt100_update] in normal mode, on a screen that passes its [assert]s. *)
Lemma vt100_update_normal t c :
  geometry_ok t -> state t = TERMINAL_NORMAL_MODE ->
  vt100_update t c =
  match normal_mode_byte t c with
  | Some t1 => Some (normal_mode_wrap t1)
  | None => None
  end.
Proof.
  intros Hg Hst. pose proof (geometry_bounds t Hg) as (Hw & Hh & Hz).
  destruct Hg as (_ & _ & Hsz & Hmax). unfold vt100_update.
  destruct (Z.leb_spec (size t) VT100_MAX_SIZE); [cbn [negb]|lia].
  rewrite u32_small by (unfold VT100_MAX_SIZE in *; lia).
  destruct (Z.leb_spec (width t * height t) VT100_MAX_SIZE); [cbn [negb]|lia].
  rewrite Hst. reflexivity.
Qed.

(** [normal_mode_wrap] when the cursor is still on the screen: nothing
    changes. *)
Lemma normal_mode_wrap_inside t :
  0 <= cursor t < size t ->
  same_cells t (normal_mode_wrap t) /\
  cursor (normal_mode_wrap t) = cursor t /\
  state (normal_mode_wrap t) = state t.
Proof.
  intros Hc. unfold normal_mode_wrap.
  destruct (Z.geb_spec (cursor t) (size t)); [lia|].
  repeat split. cbn. apply Z.mod_small. lia.
Qed.

(** [normal_mode_wrap] when the cursor has left the screen: every cell of
    the screen becomes a space with the default attribute, the cells of
    the arrays beyond the screen are kept, and the cursor is reduced modulo
    the size. *)
Lemma normal_mode_wrap_outside t :
  geometry_ok t -> arrays_ok t -> size t <= cursor t ->
  erased (size t) t (normal_mode_wrap t) /\
  cursor (normal_mode_wrap t) = cursor t mod size t /\
  state (normal_mode_wrap t) = state t.
Proof.
  intros Hg Harr Hc. pose proof (geometry_bounds t Hg) as (_ & _ & Hz).
  assert (Hmax : size t <= VT100_MAX_SIZE) by apply Hg.
  unfold normal_mode_wrap, terminal_attribute_block_set.
  destruct (Z.geb_spec (cursor t) (size t)); [|lia].
  split; [|split; reflexivity].
  apply erased_block_set; [exact Harr | lia | reflexivity | reflexivity].
Qed.

(** X1. A byte that is not a control byte, received in normal mode, is
    stored with the current attribute in the cell under the cursor.  If
    that is not the last cell of the screen, the cursor moves to the next
    cell; if it is the last cell, the whole screen is cleared (every cell
    of the screen, the one of the new glyph included, then holds a space
    with the default attribute, and the array cells beyond the screen are
    kept) and the cursor returns to cell 0. *)
Theorem X1_glyph_write (t : vt100_t) (c : Z) :
  screen_ok t -> state t = TERMINAL_NORMAL_MODE -> control_byte c = false ->
  exists t',
    vt100_update t c = Some t' /\ state t' = TERMINAL_NORMAL_MODE /\
    (cursor t + 1 < size t ->
       m t' = <[Z.to_nat (cursor t) := c]> (m t) /\
       attributes t' = <[Z.to_nat (cursor t) := attribute t]> (attributes t) /\
       cursor t' = cursor t + 1) /\
    (cursor t + 1 = size t -> arrays_ok t ->
       erased (size t) t t' /\ cursor t' = 0).
Proof.
  intros Hok Hst Hc. pose proof Hok as (Hg & Hcur & _).
  pose proof (geometry_bounds t Hg) as (Hw & Hh & Hz).
  assert (Hmax : size t <= 8192) by apply Hg.
  rewrite vt100_update_normal by assumption.
  unfold control_byte in Hc. rewrite !orb_false_iff in Hc.
  destruct Hc as (((((H1 & H2) & H3) & H4) & H5) & H6).
  unfold normal_mode_byte. rewrite H1, H2, H3, H4, H5, H6. cbn [orb].
  destruct (Z.ltb_spec (cursor t) (size t)); [|lia].
  cbv zeta. eexists; split; [reflexivity|].
  set (t1 := set_cursor _ _).
  assert (Hc1 : cursor t1 = cursor t + 1)
    by (unfold t1; cbn; apply usize_small; lia).
  assert (Hs1 : size t1 = size t) by reflexivity.
  split; [|split]; [| intros Hlt | intros Heq Harr].
  - unfold normal_mode_wrap, terminal_attribute_block_set.
    destruct (cursor t1 >=? size t1); cbn; exact Hst.
  - destruct (normal_mode_wrap_inside t1) as ((Hm & Ha) & Hcw & _); [lia|].
    rewrite Hm, Ha, Hcw. auto.
  - assert (Hge : (cursor t1 >=? size t1) = true) by (apply Z.geb_le; lia).
    assert (Hwrap : normal_mode_wrap t1 =
              set_cursor
                (set_m (terminal_attribute_block_set t1 (size t1)
                          vt100_default_attribute)
                   (memset (m t1) 32 (size t1)))
                (cursor t1 mod size t1)).
    { unfold normal_mode_wrap. rewrite Hge. reflexivity. }
    rewrite Hwrap. split.
    + apply (erased_store_block_set (size t) t _ (Z.to_nat (cursor t)) c
               (attribute t));
        [exact Harr | unfold VT100_MAX_SIZE; lia | lia
        | reflexivity | reflexivity].
    + cbn [cursor set_cursor]. rewrite Hc1, Hs1, Heq. apply Z.mod_same. lia.
Qed.

Lemma X1_glyph_write_witness :
  let t := set_cursor vga_terminal 3199 in
  exists t',
    vt100_update t 90 = Some t' /\ state t' = TERMINAL_NORMAL_MODE /\
    (cursor t + 1 < size t ->
       m t' = <[Z.to_nat (cursor t) := 90]> (m t) /\
       attributes t' = <[Z.to_nat (cursor t) := attribute t]> (attributes t) /\
       cursor t' = cursor t + 1) /\
    (cursor t + 1 = size t -> arrays_ok t ->
       erased (size t) t t' /\ cursor t' = 0).
Proof.
  intros t. apply (X1_glyph_write t 90).
  - repeat split; vm_compute; congruence.
  - reflexivity.
  - reflexivity.
Defined.

Lemma to_int_range z : - 2 ^ 31 <= z < 2 ^ 31 -> to_int z = z.
Proof.
  intros H. unfold to_int. destruct (Z_lt_le_dec z 0).
  - replace (z mod 2 ^ 32) with (z + 2 ^ 32).
    + destruct (Z.ltb_spec (z + 2 ^ 32) (2 ^ 31)); lia.
    + apply (Z.mod_unique_pos _ _ (-1)); lia.
  - rewrite Z.mod_small by lia. destruct (Z.ltb_spec z (2 ^ 31)); lia.
Qed.

(** Row and column of a cursor that is on the screen. *)
Lemma row_column_bounds t :
  screen_ok t ->
  0 <= column t < width t /\ 0 <= row t < height t /\
  cursor t = row t * width t + column t.
Proof.
  intros (Hg & Hc & _). pose proof (geometry_bounds t Hg) as (Hw & Hh & Hz).
  destruct Hg as (_ & _ & Hsz & _). unfold column, row.
  pose proof (Z.mod_pos_bound (cursor t) (width t) ltac:(lia)).
  pose proof (Z.div_mod (cursor t) (width t) ltac:(lia)).
  assert (0 <= cursor t / width t) by (apply Z.div_pos; lia).
  assert (cursor t / width t < height t)
    by (apply Z.div_lt_upper_bound; lia).
  lia.
Qed.

(** X2. A line feed or a carriage return, received in normal mode, moves
    the cursor to column 0 of the next row and leaves the cells alone; on
    the last row it clears the whole screen (every cell of the screen then
    holds a space with the default attribute, and the array cells beyond
    the screen are kept) and moves the cursor to cell 0.  The two bytes
    behave alike: a carriage return also goes down a row. *)
Theorem X2_line_feed (t : vt100_t) (c : Z) :
  screen_ok t -> state t = TERMINAL_NORMAL_MODE -> c = 10 \/ c = 13 ->
  exists t',
    vt100_update t c = Some t' /\ state t' = TERMINAL_NORMAL_MODE /\
    (row t + 1 < height t ->
       same_cells t t' /\ cursor t' = (row t + 1) * width t /\
       column t' = 0 /\ row t' = row t + 1) /\
    (row t + 1 = height t -> arrays_ok t ->
       erased (size t) t t' /\ cursor t' = 0).
Proof.
  intros Hok Hst Hc. pose proof Hok as (Hg & Hcur & _).
  pose proof (geometry_bounds t Hg) as (Hw & Hh & Hz).
  pose proof (row_column_bounds t Hok) as (Hcol & Hrow & Hrc).
  assert (Hsz : size t = width t * height t) by apply Hg.
  assert (Hmax : size t <= 8192) by apply Hg.
  rewrite vt100_update_normal by assumption.
  assert (Hb : normal_mode_byte t c =
               Some (set_cursor t ((row t + 1) * width t))).
  { unfold normal_mode_byte.
    replace (c =? ESCAPE) with false by (destruct Hc; subst; reflexivity).
    replace (c =? 9) with false by (destruct Hc; subst; reflexivity).
    replace ((c =? 13) || (c =? 10)) with true by (destruct Hc; subst; reflexivity).
    cbn. rewrite (usize_small (cursor t + width t)) by lia.
    replace ((cursor t + width t) / width t) with (row t + 1).
    - rewrite usize_small by nia. reflexivity.
    - unfold row. replace (cursor t + width t) with (cursor t + 1 * width t) by lia.
      rewrite Z.div_add by lia. reflexivity. }
  rewrite Hb. eexists; split; [reflexivity|].
  set (t1 := set_cursor t _).
  split; [|split]; [| intros Hlt | intros Heq Harr].
  - unfold normal_mode_wrap, terminal_attribute_block_set.
    destruct (cursor t1 >=? size t1); cbn; exact Hst.
  - destruct (normal_mode_wrap_inside t1) as (Hcells & Hcw & _).
    { unfold t1; cbn. nia. }
    split; [exact Hcells|]. split; [exact Hcw|].
    assert (Hwd : width (normal_mode_wrap t1) = width t).
    { unfold normal_mode_wrap, terminal_attribute_block_set.
      destruct (_ >=? _); reflexivity. }
    unfold column at 1, row at 1. rewrite Hcw, Hwd. unfold t1; cbn.
    destruct (cell_column_row (width t) 0 (row t + 1)) as (Hx & Hy); [lia|].
    rewrite Z.add_0_r in Hx, Hy. split; assumption.
  - destruct (normal_mode_wrap_outside t1) as (Hcl & Hcw & _);
      [exact Hg | exact Harr | unfold t1; cbn; nia |].
    split; [exact Hcl|]. rewrite Hcw. unfold t1; cbn.
    rewrite Heq, Hsz, Z.mul_comm. apply Z.mod_same. nia.
Qed.

Lemma X2_line_feed_witness :
  let t := set_cursor vga_terminal 3190 in
  exists t',
    vt100_update t 13 = Some t' /\ state t' = TERMINAL_NORMAL_MODE /\
    (row t + 1 < height t ->
       same_cells t t' /\ cursor t' = (row t + 1) * width t /\
       column t' = 0 /\ row t' = row t + 1) /\
    (row t + 1 = height t -> arrays_ok t ->
       erased (size t) t t' /\ cursor t' = 0).
Proof.
  intros t. apply (X2_line_feed t 13).
  - repeat split; vm_compute; congruence.
  - reflexivity.
  - right; reflexivity.
Defined.

(** Clearing the low three bits of a [size_t]. *)
Lemma land_not_7 x :
  0 <= x < 2 ^ 64 -> Z.land x (usize (Z.lnot 7)) = 8 * (x / 8).
Proof.
  intros Hx. unfold usize.
  rewrite <- (Z.land_ones (Z.lnot 7) 64) by lia.
  rewrite (Z.land_comm (Z.lnot 7)), Z.land_assoc.
  rewrite (Z.land_ones x 64) by lia. rewrite (Z.mod_small x) by lia.
  rewrite <- Z.ldiff_land. change 7 with (Z.ones 3).
  rewrite Z.ldiff_ones_r by lia.
  rewrite Z.shiftl_mul_pow2, Z.shiftr_div_pow2 by lia.
  change (2 ^ 3) with 8. lia.
Qed.

(** X3. A tab, received in normal mode, moves the cursor to the next
    multiple of 8 of the cell index (not of the column) and leaves the cells
    alone; when that index is past the last cell the whole screen is cleared
    (every cell of the screen then holds a space with the default
    attribute, and the array cells beyond the screen are kept) and the
    index is reduced modulo the size. *)
Theorem X3_tab (t : vt100_t) :
  screen_ok t -> state t = TERMINAL_NORMAL_MODE ->
  exists t',
    vt100_update t 9 = Some t' /\ state t' = TERMINAL_NORMAL_MODE /\
    (8 * (cursor t / 8 + 1) < size t ->
       same_cells t t' /\ cursor t' = 8 * (cursor t / 8 + 1)) /\
    (size t <= 8 * (cursor t / 8 + 1) -> arrays_ok t ->
       erased (size t) t t' /\
       cursor t' = (8 * (cursor t / 8 + 1)) mod size t).
Proof.
  intros Hok Hst. pose proof Hok as (Hg & Hcur & _).
  pose proof (geometry_bounds t Hg) as (Hw & Hh & Hz).
  assert (Hmax : size t <= 8192) by apply Hg.
  rewrite vt100_update_normal by assumption.
  assert (Hb : normal_mode_byte t 9 =
               Some (set_cursor t (8 * (cursor t / 8 + 1)))).
  { unfold normal_mode_byte. cbn.
    rewrite (usize_small (cursor t + 8)) by lia.
    rewrite land_not_7 by lia.
    replace (cursor t + 8) with (cursor t + 1 * 8) by lia.
    rewrite Z.div_add by lia. reflexivity. }
  rewrite Hb. eexists; split; [reflexivity|].
  set (t1 := set_cursor t _).
  assert (0 <= cursor t / 8) by (apply Z.div_pos; lia).
  split; [|split]; [| intros Hlt | intros Hge Harr].
  - unfold normal_mode_wrap, terminal_attribute_block_set.
    destruct (cursor t1 >=? size t1); cbn; exact Hst.
  - destruct (normal_mode_wrap_inside t1) as (Hcells & Hcw & _).
    { unfold t1; cbn. lia. }
    split; [exact Hcells | exact Hcw].
  - destruct (normal_mode_wrap_outside t1) as (Hcl & Hcw & _);
      [exact Hg | exact Harr | unfold t1; cbn; lia |].
    split; [exact Hcl | exact Hcw].
Qed.

Lemma X3_tab_witness :
  let t := set_cursor vga_terminal 3197 in
  exists t',
    vt100_update t 9 = Some t' /\ state t' = TERMINAL_NORMAL_MODE /\
    (8 * (cursor t / 8 + 1) < size t ->
       same_cells t t' /\ cursor t' = 8 * (cursor t / 8 + 1)) /\
    (size t <= 8 * (cursor t / 8 + 1) -> arrays_ok t ->
       erased (size t) t t' /\
       cursor t' = (8 * (cursor t / 8 + 1)) mod size t).
Proof.
  intros t. apply (X3_tab t).
  - repeat split; vm_compute; congruence.
  - reflexivity.
Defined.

(** X4. A backspace or a delete, received in normal mode, moves the cursor
    one column to the left on its row, staying in column 0 when it is
    there, and stores a space in the cell it arrives at; no attribute
    changes. *)
Theorem X4_backspace (t : vt100_t) (c : Z) :
  screen_ok t -> state t = TERMINAL_NORMAL_MODE ->
  c = BACKSPACE \/ c = DELETE ->
  exists t',
    vt100_update t c = Some t' /\ state t' = TERMINAL_NORMAL_MODE /\
    row t' = row t /\ column t' = Z.max (column t - 1) 0 /\
    m t' = <[Z.to_nat (cursor t') := 32]> (m t) /\
    attributes t' = attributes t.
Proof.
  intros Hok Hst Hc. pose proof Hok as (Hg & Hcur & _).
  pose proof (geometry_bounds t Hg) as (Hw & Hh & Hz).
  pose proof (row_column_bounds t Hok) as (Hcol & Hrow & Hrc).
  assert (Hmax : size t <= 8192) by apply Hg.
  assert (Hsz : size t = width t * height t) by apply Hg.
  rewrite vt100_update_normal by assumption.
  set (cur' := row t * width t + Z.max (column t - 1) 0).
  assert (Hxy : terminal_at_xy_relative t (to_int (-1)) 0 true = set_cursor t cur').
  { unfold terminal_at_xy_relative. rewrite terminal_at_xy_limit by assumption.
    unfold terminal_x_current, terminal_y_current. fold (column t) (row t).
    rewrite (to_int_range (column t)), (to_int_range (row t)),
      (to_int_range (-1)) by lia.
    rewrite Z.add_0_r, (to_int_range (row t)) by lia.
    rewrite (to_int_range (column t + -1)) by lia.
    rewrite !MAX_spec. rewrite !u32_small by lia.
    rewrite !(Z.max_l (row t) 0), (Z.min_l (row t)) by lia.
    unfold cur'. f_equal. lia. }
  assert (Hb : normal_mode_byte t c =
               Some (set_m (set_cursor t cur') (<[Z.to_nat cur' := 32]> (m t)))).
  { unfold normal_mode_byte.
    replace (c =? ESCAPE) with false
      by (destruct Hc; subst; reflexivity).
    replace (c =? 9) with false by (destruct Hc; subst; reflexivity).
    replace ((c =? 13) || (c =? 10)) with false
      by (destruct Hc; subst; reflexivity).
    replace ((c =? DELETE) || (c =? BACKSPACE)) with true
      by (destruct Hc; subst; reflexivity).
    cbv zeta. rewrite Hxy. reflexivity. }
  rewrite Hb. eexists; split; [reflexivity|].
  set (t1 := set_m _ _).
  destruct (normal_mode_wrap_inside t1) as ((Hm & Ha) & Hcw & Hs).
  { unfold t1, cur'; cbn. nia. }
  assert (Hwd : width (normal_mode_wrap t1) = width t).
  { unfold normal_mode_wrap, terminal_attribute_block_set.
    destruct (_ >=? _); reflexivity. }
  destruct (cell_column_row (width t) (Z.max (column t - 1) 0) (row t)) as (Hx & Hy);
    [lia|].
  split; [rewrite Hs; exact Hst|].
  unfold row at 1, column at 1. rewrite Hcw, Hwd, Hm, Ha.
  unfold t1; cbn. fold cur'. unfold cur' at 1 2. auto.
Qed.

Lemma X4_backspace_witness :
  let t := set_cursor vga_terminal 160 in
  exists t',
    vt100_update t DELETE = Some t' /\ state t' = TERMINAL_NORMAL_MODE /\
    row t' = row t /\ column t' = Z.max (column t - 1) 0 /\
    m t' = <[Z.to_nat (cursor t') := 32]> (m t) /\
    attributes t' = attributes t.
Proof.
  intros t. apply (X4_backspace t DELETE).
  - repeat split; vm_compute; congruence.
  - reflexivity.
  - right; reflexivity.
Defined.

(** ** Relative cursor moves *)

(** [terminal_at_xy_relative] with clamping, for offsets that fit an
    [int] with room to spare: both coordinates are clamped to the screen. *)
Lemma terminal_at_xy_relative_limit t dx dy :
  screen_ok t -> -10000 <= dx <= 10000 -> -10000 <= dy <= 10000 ->
  terminal_at_xy_relative t dx dy true =
  set_cursor t (Z.min (Z.max (row t + dy) 0) (height t - 1) * width t
                + Z.min (Z.max (column t + dx) 0) (width t - 1)).
Proof.
  intros Hok Hdx Hdy. pose proof Hok as (Hg & _).
  pose proof (geometry_bounds t Hg) as (Hw & Hh & Hz).
  pose proof (row_column_bounds t Hok) as (Hcol & Hrow & _).
  unfold terminal_at_xy_relative. rewrite terminal_at_xy_limit by assumption.
  unfold terminal_x_current, terminal_y_current. fold (column t) (row t).
  rewrite (to_int_range (column t)), (to_int_range (row t)) by lia.
  rewrite (to_int_range (column t + dx)), (to_int_range (row t + dy)) by lia.
  rewrite !MAX_spec. rewrite !u32_small by lia.
  rewrite !(Z.max_l (Z.max _ 0) 0) by lia. reflexivity.
Qed.

(** The unsigned negation of a parameter, passed as an [int]. *)
Lemma to_int_neg n : 0 <= n <= 9999 -> to_int (u32 (- n)) = - n.
Proof.
  intros Hn. unfold to_int, u32. rewrite Z.mod_mod by lia.
  destruct (Z.eq_dec n 0) as [-> | Hne]; [reflexivity|].
  replace (- n mod 2 ^ 32) with (2 ^ 32 - n)
    by (apply (Z.mod_unique_pos _ _ (-1)); lia).
  destruct (Z.ltb_spec (2 ^ 32 - n) (2 ^ 31)); lia.
Qed.

(** Row and column of a cursor given by its coordinates. *)
Lemma row_column_set t t' x y :
  width t' = width t -> cursor t' = y * width t + x -> 0 <= x < width t ->
  row t' = y /\ column t' = x.
Proof.
  intros Hw Hc Hx. unfold row, column. rewrite Hw, Hc.
  destruct (cell_column_row (width t) x y Hx). auto.
Qed.

(** X5. In [TERMINAL_NUMBER_1], with a parameter [n1] of at most four
    digits, the bytes ['A'], ['B'], ['C'], ['D'] and ['G'] succeed, leave
    every cell alone and move the cursor with clamping: up [n1] rows (not
    above row 0), down [n1] rows (not below the last row), right [n1]
    columns (not past the last column), left [n1] columns (not past column
    0), and to column [n1] of the same row (clamped to the last column).
    The other coordinate is unchanged in each case, so a move never wraps
    to another row. *)
Theorem X5_cursor_moves (t : vt100_t) (c : Z) :
  screen_ok t -> state t = TERMINAL_NUMBER_1 -> 0 <= n1 t <= 9999 ->
  c = 65 \/ c = 66 \/ c = 67 \/ c = 68 \/ c = 71 ->
  exists t',
    vt100_update t c = Some t' /\
    terminal_escape_sequences t c = Some (t', 0) /\
    state t' = TERMINAL_NORMAL_MODE /\ same_cells t t' /\
    (c = 65 -> row t' = Z.max (row t - n1 t) 0 /\ column t' = column t) /\
    (c = 66 -> row t' = Z.min (row t + n1 t) (height t - 1) /\
               column t' = column t) /\
    (c = 67 -> row t' = row t /\
               column t' = Z.min (column t + n1 t) (width t - 1)) /\
    (c = 68 -> row t' = row t /\ column t' = Z.max (column t - n1 t) 0) /\
    (c = 71 -> row t' = row t /\ column t' = Z.min (n1 t) (width t - 1)).
Proof.
  intros Hok Hst Hn Hc. pose proof Hok as (Hg & _).
  pose proof (geometry_bounds t Hg) as (Hw & Hh & Hz).
  pose proof (row_column_bounds t Hok) as (Hcol & Hrow & _).
  rewrite vt100_update_escape by (auto; congruence).
  unfold terminal_escape_sequences. rewrite Hst. unfold escape_number_1.
  destruct Hc as [-> | [-> | [-> | [-> | ->]]]]; cbn [isdigit Z.leb Z.compare Pos.compare Pos.compare_cont andb Z.eqb Pos.eqb];
    unfold goto_success.
  - (* 'A' *)
    rewrite to_int_neg by lia.
    rewrite terminal_at_xy_relative_limit by (auto; lia).
    eexists; split; [reflexivity|]. split; [reflexivity|].
    split; [reflexivity|]. split; [split; reflexivity|].
    split; [|split; [|split; [|split]]]; intros Hc; try discriminate Hc;
      apply (row_column_set t _ (column t) (Z.max (row t - n1 t) 0));
      cbn; [reflexivity | f_equal; [f_equal; lia | lia] | lia].
  - (* 'B' *)
    rewrite (to_int_range (n1 t)) by lia.
    rewrite terminal_at_xy_relative_limit by (auto; lia).
    eexists; split; [reflexivity|]. split; [reflexivity|].
    split; [reflexivity|]. split; [split; reflexivity|].
    split; [|split; [|split; [|split]]]; intros Hc; try discriminate Hc;
      apply (row_column_set t _ (column t) (Z.min (row t + n1 t) (height t - 1)));
      cbn; [reflexivity | f_equal; [f_equal; lia | lia] | lia].
  - (* 'C' *)
    rewrite (to_int_range (n1 t)) by lia.
    rewrite terminal_at_xy_relative_limit by (auto; lia).
    eexists; split; [reflexivity|]. split; [reflexivity|].
    split; [reflexivity|]. split; [split; reflexivity|].
    split; [|split; [|split; [|split]]]; intros Hc; try discriminate Hc;
      apply (row_column_set t _ (Z.min (column t + n1 t) (width t - 1)) (row t));
      cbn; [reflexivity | f_equal; [f_equal; lia | lia] | lia].
  - (* 'D' *)
    rewrite to_int_neg by lia.
    rewrite terminal_at_xy_relative_limit by (auto; lia).
    eexists; split; [reflexivity|]. split; [reflexivity|].
    split; [reflexivity|]. split; [split; reflexivity|].
    split; [|split; [|split; [|split]]]; intros Hc; try discriminate Hc;
      apply (row_column_set t _ (Z.max (column t - n1 t) 0) (row t));
      cbn; [reflexivity | f_equal; [f_equal; lia | lia] | lia].
  - (* 'G' *)
    unfold terminal_y_current. fold (row t).
    rewrite (to_int_range (row t)), (u32_small (row t)) by lia.
    rewrite terminal_at_xy_limit by assumption.
    eexists; split; [reflexivity|]. split; [reflexivity|].
    split; [reflexivity|]. split; [split; reflexivity|].
    split; [|split; [|split; [|split]]]; intros Hc; try discriminate Hc;
      apply (row_column_set t _ (Z.min (n1 t) (width t - 1)) (row t));
      cbn; [reflexivity | f_equal; [f_equal; lia | lia] | lia].
Qed.

Lemma X5_cursor_moves_witness :
  let t := set_state (set_n1 (set_cursor vga_terminal 165) 7) TERMINAL_NUMBER_1 in
  exists t',
    vt100_update t 68 = Some t' /\
    terminal_escape_sequences t 68 = Some (t', 0) /\
    state t' = TERMINAL_NORMAL_MODE /\ same_cells t t' /\
    (68 = 65 -> row t' = Z.max (row t - n1 t) 0 /\ column t' = column t) /\
    (68 = 66 -> row t' = Z.min (row t + n1 t) (height t - 1) /\
               column t' = column t) /\
    (68 = 67 -> row t' = row t /\
               column t' = Z.min (column t + n1 t) (width t - 1)) /\
    (68 = 68 -> row t' = row t /\ column t' = Z.max (column t - n1 t) 0) /\
    (68 = 71 -> row t' = row t /\ column t' = Z.min (n1 t) (width t - 1)).
Proof.
  intros t. apply (X5_cursor_moves t 68).
  - repeat split; vm_compute; congruence.
  - reflexivity.
  - vm_compute. split; congruence.
  - right; right; right; left; reflexivity.
Defined.

(** ** Bounds on the numeric parameters *)

Lemma digits_bound_range k n :
  digits_bound k n -> 0 <= k <= 4 /\ 0 <= n <= 9999.
Proof. unfold digits_bound. lia. Qed.

(** One more digit [d] after [k < 4] digits. *)
Lemma digits_bound_accumulate t n d :
  digits_bound (command_index t) n -> command_index t <= 3 ->
  isdigit d = true ->
  digits_bound (u8 (command_index t + 1)) (accumulate t n d).
Proof.
  intros Hb Hk Hd. apply isdigit_range in Hd. unfold accumulate, digits_bound in *.
  destruct Hb as [(Hk0 & Hn) | [(Hk1 & Hn) | [(Hk2 & Hn) | [(Hk3 & Hn) | (Hk4 & Hn)]]]];
    [rewrite Hk0 | rewrite Hk1 | rewrite Hk2 | rewrite Hk3 | lia];
    cbn [Z.eqb Pos.eqb]; rewrite u32_small by lia;
    rewrite u8_small by lia; lia.
Qed.

(** [params_ok] is kept by every byte. *)
Lemma params_ok_step t c t' :
  screen_ok t -> params_ok t -> vt100_update t c = Some t' -> params_ok t'.
Proof.
  intros Hok Hp Hup. unfold params_ok in Hp. destruct (state t) eqn:Hst.
  - (* normal mode *)
    rewrite vt100_update_normal in Hup by (try apply Hok; assumption).
    destruct (normal_mode_byte t c) as [t1|] eqn:Hb; [|discriminate].
    injection Hup as <-.
    assert (Hw : state (normal_mode_wrap t1) = state t1).
    { unfold normal_mode_wrap, terminal_attribute_block_set.
      destruct (cursor t1 >=? size t1); reflexivity. }
    unfold params_ok. rewrite Hw.
    destruct (normal_mode_byte_state t c t1 Hb) as [(_ & ->) | ->];
      [exact I | now rewrite Hst].
  - (* TERMINAL_CSI *)
    rewrite vt100_update_escape in Hup by (try apply Hok; congruence).
    unfold terminal_escape_sequences, escape_csi in Hup. rewrite Hst in Hup.
    destruct (c =? 91); injection Hup as <-; exact I.
  - (* TERMINAL_COMMAND *)
    rewrite vt100_update_escape in Hup by (try apply Hok; congruence).
    unfold terminal_escape_sequences, escape_command in Hup. rewrite Hst in Hup.
    destruct (c =? 115); [injection Hup as <-; exact I|].
    destruct (c =? 110); [injection Hup as <-; exact I|].
    destruct (c =? 63).
    { injection Hup as <-. unfold params_ok, digits_bound; cbn. lia. }
    destruct (c =? 59).
    { injection Hup as <-. unfold params_ok, digits_bound; cbn. lia. }
    destruct (isdigit c) eqn:Hd; injection Hup as <-; [|exact I].
    apply isdigit_range in Hd. unfold params_ok, digits_bound; cbn.
    rewrite u32_small by lia. change (u8 (0 + 1)) with 1. lia.
  - (* TERMINAL_NUMBER_1 *)
    destruct Hp as (Hb & Hk & Hn2).
    pose proof (digits_bound_range _ _ Hb) as (Hkr & Hnr).
    rewrite vt100_update_escape in Hup by (try apply Hok; congruence).
    unfold terminal_escape_sequences in Hup. rewrite Hst in Hup.
    unfold escape_number_1 in Hup.
    destruct (isdigit c) eqn:Hd.
    { destruct (Z.gtb_spec (command_index t) 3);
        [injection Hup as <-; exact I|].
      injection Hup as <-. unfold params_ok; cbn. rewrite Hst.
      split; [apply digits_bound_accumulate; auto; lia|].
      rewrite u8_small by lia. lia. }
    assert (Hs : forall t1, state t1 = TERMINAL_NORMAL_MODE -> params_ok t1).
    { intros t1 H1. unfold params_ok. now rewrite H1. }
    revert Hup. unfold erase_display, erase_case_2, erase_case_1, erase_case_0,
      goto_success, goto_fail, return_0.
    cbv zeta.
    repeat match goal with
           | |- context [if ?b then _ else _] => destruct b
           end;
      intros [= <-]; try (apply Hs; reflexivity).
    unfold params_ok, digits_bound; cbn. lia.
  - (* TERMINAL_NUMBER_2 *)
    destruct Hp as (Hb & Hn1).
    pose proof (digits_bound_range _ _ Hb) as (Hkr & Hnr).
    rewrite vt100_update_escape in Hup by (try apply Hok; congruence).
    unfold terminal_escape_sequences in Hup. rewrite Hst in Hup.
    unfold escape_number_2 in Hup.
    destruct (isdigit c) eqn:Hd.
    { destruct (Z.gtb_spec (command_index t) 3);
        [injection Hup as <-; exact I|].
      injection Hup as <-. unfold params_ok; cbn. rewrite Hst.
      split; [apply digits_bound_accumulate; auto; lia | exact Hn1]. }
    destruct (c =? 109); [injection Hup as <-; exact I|].
    destruct ((c =? 72) || (c =? 102)); injection Hup as <-; exact I.
  - (* TERMINAL_DECTCEM *)
    destruct Hp as (Hb & Hk).
    rewrite vt100_update_escape in Hup by (try apply Hok; congruence).
    unfold terminal_escape_sequences in Hup. rewrite Hst in Hup.
    unfold escape_dectcem in Hup.
    destruct (isdigit c) eqn:Hd.
    { destruct (Z.gtb_spec (command_index t) 1);
        [injection Hup as <-; exact I|].
      injection Hup as <-. unfold params_ok; cbn. rewrite Hst.
      pose proof (digits_bound_range _ _ Hb) as (Hkr & Hnr).
      split; [apply digits_bound_accumulate; auto; lia|].
      rewrite u8_small by lia. lia. }
    destruct (negb (n1 t =? 25)); [injection Hup as <-; exact I|].
    destruct (c =? 108); [injection Hup as <-; exact I|].
    destruct (c =? 104); injection Hup as <-; exact I.
  - contradiction.
Qed.

Lemma params_ok_feed bs : forall t t',
  screen_ok t -> params_ok t -> vt100_feed t bs = Some t' -> params_ok t'.
Proof.
  induction bs as [|c bs IH]; intros t t' Hok Hp Hf; cbn in Hf.
  - now injection Hf as <-.
  - destruct (vt100_update t c) as [t1|] eqn:Hup; [|discriminate].
    destruct (vt100_update_ok t c Hok) as (t1' & Hup' & Hok1 & _).
    rewrite Hup in Hup'. injection Hup' as <-.
    apply (IH t1); auto. now apply (params_ok_step t c).
Qed.

(** X6. Whatever bytes are fed to a terminal that starts in normal mode,
    the numeric parameters stay small: while a first parameter is being
    read it is at most 9999 and made of one to four digits, while a second
    one is being read both are at most 9999, in a private-mode sequence the
    parameter is at most 99, and the parser never enters
    [TERMINAL_STATE_END]. *)
Theorem X6_parameters_bounded (t0 : vt100_t) (bs : list Z) :
  screen_ok t0 -> state t0 = TERMINAL_NORMAL_MODE ->
  exists t,
    vt100_feed t0 bs = Some t /\ state t <> TERMINAL_STATE_END /\
    (state t = TERMINAL_NUMBER_1 ->
       0 <= n1 t <= 9999 /\ 1 <= command_index t <= 4) /\
    (state t = TERMINAL_NUMBER_2 ->
       0 <= n1 t <= 9999 /\ 0 <= n2 t <= 9999 /\ 0 <= command_index t <= 4) /\
    (state t = TERMINAL_DECTCEM ->
       0 <= n1 t <= 99 /\ 0 <= command_index t <= 2).
Proof.
  intros Hok Hst.
  destruct (vt100_feed_ok bs t0 Hok) as (t & Hfeed & _).
  assert (Hp : params_ok t).
  { apply (params_ok_feed bs t0); auto. unfold params_ok. now rewrite Hst. }
  exists t. split; [exact Hfeed|]. unfold params_ok in Hp.
  destruct (state t); unfold digits_bound in Hp;
    repeat split; try discriminate; try contradiction; intros; lia.
Qed.

Lemma X6_parameters_bounded_witness :
  exists t,
    vt100_feed vga_terminal [ESCAPE; 91; 57; 57; 57; 57; 59; 57; 57] = Some t /\
    state t <> TERMINAL_STATE_END /\
    (state t = TERMINAL_NUMBER_1 ->
       0 <= n1 t <= 9999 /\ 1 <= command_index t <= 4) /\
    (state t = TERMINAL_NUMBER_2 ->
       0 <= n1 t <= 9999 /\ 0 <= n2 t <= 9999 /\ 0 <= command_index t <= 4) /\
    (state t = TERMINAL_DECTCEM ->
       0 <= n1 t <= 99 /\ 0 <= command_index t <= 2).
Proof.
  apply (X6_parameters_bounded vga_terminal).
  - repeat split; vm_compute; congruence.
  - reflexivity.
Defined.

(** ** Attributes *)

(** [terminal_parse_attribute] on a code that is none of the flag codes:
    the [default] branch of its [switch]. *)
Lemma terminal_parse_attribute_default a v :
  v <> 0 -> v <> 1 -> v <> 4 -> v <> 5 -> v <> 7 -> v <> 8 ->
  terminal_parse_attribute a v =
  (let a1 := if (30 <=? v) && (v <=? 37) then with_foreground a (v - 30) else a in
   if (40 <=? v) && (v <=? 47) then with_background a1 (v - 40) else a1).
Proof.
  intros H0 H1 H4 H5 H7 H8. unfold terminal_parse_attribute.
  destruct v as [|p|p]; [contradiction | | reflexivity].
  destruct p as [p|p|]; [| |contradiction].
  - destruct p as [p|p|]; [| |reflexivity].
    + destruct p as [p|p|]; [reflexivity|reflexivity|contradiction].
    + destruct p as [p|p|]; [reflexivity|reflexivity|contradiction].
  - destruct p as [p|p|]; [reflexivity| |reflexivity].
    destruct p as [p|p|]; [reflexivity| |contradiction].
    destruct p as [p|p|]; [reflexivity|reflexivity|contradiction].
Qed.

(** X7. Whatever the code, [terminal_parse_attribute] keeps both colours
    within the eight colours of [color_t] (so the three-bit fields never
    overflow), and no code other than 0 clears a flag: bold, underscore,
    blink, reverse video and conceal can be switched off only by the reset
    code 0, which gives the default attribute. *)
Theorem X7_parse_attribute (a : vt100_attribute_t) (v : Z) :
  attribute_ok a ->
  attribute_ok (terminal_parse_attribute a v) /\
  (v <> 0 -> flags_kept a (terminal_parse_attribute a v)) /\
  (v = 0 -> terminal_parse_attribute a v = vt100_default_attribute).
Proof.
  intros (Hf & Hb). unfold attribute_ok, flags_kept.
  destruct (Z.eq_dec v 0) as [-> |H0].
  { cbn. repeat split; try lia; try contradiction. }
  destruct (Z.eq_dec v 1) as [-> |H1].
  { cbn. repeat split; auto; try lia; discriminate. }
  destruct (Z.eq_dec v 4) as [-> |H4].
  { cbn. repeat split; auto; try lia; discriminate. }
  destruct (Z.eq_dec v 5) as [-> |H5].
  { cbn. repeat split; auto; try lia; discriminate. }
  destruct (Z.eq_dec v 7) as [-> |H7].
  { cbn. repeat split; auto; try lia; discriminate. }
  destruct (Z.eq_dec v 8) as [-> |H8].
  { cbn. repeat split; auto; try lia; discriminate. }
  rewrite terminal_parse_attribute_default by assumption. cbv zeta.
  destruct (Z.leb_spec 30 v), (Z.leb_spec v 37), (Z.leb_spec 40 v),
    (Z.leb_spec v 47); cbn; repeat split; auto; try lia; contradiction.
Qed.

Lemma X7_parse_attribute_witness :
  let a := mk_attribute true false true false false 7 0 in
  attribute_ok (terminal_parse_attribute a 44) /\
  (44 <> 0 -> flags_kept a (terminal_parse_attribute a 44)) /\
  (44 = 0 -> terminal_parse_attribute a 44 = vt100_default_attribute).
Proof.
  intros a. apply (X7_parse_attribute a 44). unfold attribute_ok; cbn. lia.
Defined.

(** X8. On every screen in normal mode, [ESC [ 0 m] resets the current
    attribute to the default, stores it as the attribute of the cell under
    the cursor, and changes no glyph and no cursor; feeding it a second
    time changes nothing at all. *)
Theorem X8_reset_attribute (t : vt100_t) :
  screen_ok t -> state t = TERMINAL_NORMAL_MODE ->
  exists t1,
    vt100_feed t [ESCAPE; 91; 48; 109] = Some t1 /\
    attribute t1 = vt100_default_attribute /\
    attributes t1 =
      <[Z.to_nat (cursor t) := vt100_default_attribute]> (attributes t) /\
    m t1 = m t /\ cursor t1 = cursor t /\ cursor_saved t1 = cursor_saved t /\
    state t1 = TERMINAL_NORMAL_MODE /\
    vt100_feed t1 [ESCAPE; 91; 48; 109] = Some t1.
Proof.
  intros Hok Hst. pose proof Hok as (Hg & Hc & Hs).
  destruct t as [cur sav a b h w sz st bl con at_ ats gl ci].
  cbn in Hst, Hc, Hs. subst st.
  set (t1 := mk_vt100 cur sav 0 1 h w sz TERMINAL_NORMAL_MODE bl con
               vt100_default_attribute
               (<[Z.to_nat cur := vt100_default_attribute]> ats) gl 1).
  assert (Hok1 : screen_ok t1) by exact Hok.
  assert (Hg1 : geometry_ok t1) by exact Hg.
  exists t1. split; [|repeat split].
  - unfold vt100_feed. rewrite vt100_update_ESCAPE by (assumption || reflexivity).
    flatten. do 3 escape_step. reflexivity.
  - unfold vt100_feed, t1.
    rewrite vt100_update_ESCAPE by (assumption || reflexivity).
    flatten. do 3 escape_step. rewrite list_insert_insert_eq. reflexivity.
Qed.

Lemma X8_reset_attribute_witness :
  let t := set_attribute (set_cursor vga_terminal 17)
             (mk_attribute true true false false false 1 4) in
  exists t1,
    vt100_feed t [ESCAPE; 91; 48; 109] = Some t1 /\
    attribute t1 = vt100_default_attribute /\
    attributes t1 =
      <[Z.to_nat (cursor t) := vt100_default_attribute]> (attributes t) /\
    m t1 = m t /\ cursor t1 = cursor t /\ cursor_saved t1 = cursor_saved t /\
    state t1 = TERMINAL_NORMAL_MODE /\
    vt100_feed t1 [ESCAPE; 91; 48; 109] = Some t1.
Proof.
  intros t. apply (X8_reset_attribute t).
  - repeat split; vm_compute; congruence.
  - reflexivity.
Defined.

(** X9. On every screen in normal mode, [ESC [ 3 k m] for a colour digit
    [k] from 0 to 7 sets the foreground of the current attribute to colour
    [k], and [ESC [ 4 k m] sets its background; the flags and the other
    colour are kept, the new attribute is also stored in the cell under the
    cursor, and no glyph and no cursor changes. *)
Theorem X9_set_colour (t : vt100_t) (k : Z) :
  screen_ok t -> state t = TERMINAL_NORMAL_MODE -> 0 <= k <= 7 ->
  (exists t',
      vt100_feed t [ESCAPE; 91; 51; 48 + k; 109] = Some t' /\
      attribute t' = with_foreground (attribute t) k /\
      attributes t' = <[Z.to_nat (cursor t) := attribute t']> (attributes t) /\
      m t' = m t /\ cursor t' = cursor t /\
      state t' = TERMINAL_NORMAL_MODE) /\
  (exists t',
      vt100_feed t [ESCAPE; 91; 52; 48 + k; 109] = Some t' /\
      attribute t' = with_background (attribute t) k /\
      attributes t' = <[Z.to_nat (cursor t) := attribute t']> (attributes t) /\
      m t' = m t /\ cursor t' = cursor t /\
      state t' = TERMINAL_NORMAL_MODE).
Proof.
  intros Hok Hst Hk. pose proof Hok as (Hg & Hc & Hs).
  destruct t as [cur sav a b h w sz st bl con at_ ats gl ci].
  cbn in Hst. subst st.
  assert (Hcases : k = 0 \/ k = 1 \/ k = 2 \/ k = 3 \/ k = 4 \/ k = 5 \/
                   k = 6 \/ k = 7) by lia.
  split;
    destruct Hcases as [-> | [-> | [-> | [-> | [-> | [-> | [-> | ->]]]]]]];
    match goal with
    | |- context [48 + ?k] =>
        let v := eval vm_compute in (48 + k) in change (48 + k) with v
    end;
    unfold vt100_feed;
    rewrite vt100_update_ESCAPE by (assumption || reflexivity);
    flatten; do 4 escape_step;
    (eexists; split; [reflexivity|]); repeat split.
Qed.

Lemma X9_set_colour_witness :
  let t := set_cursor vga_terminal 17 in
  (exists t',
      vt100_feed t [ESCAPE; 91; 51; 48 + 1; 109] = Some t' /\
      attribute t' = with_foreground (attribute t) 1 /\
      attributes t' = <[Z.to_nat (cursor t) := attribute t']> (attributes t) /\
      m t' = m t /\ cursor t' = cursor t /\
      state t' = TERMINAL_NORMAL_MODE) /\
  (exists t',
      vt100_feed t [ESCAPE; 91; 52; 48 + 1; 109] = Some t' /\
      attribute t' = with_background (attribute t) 1 /\
      attributes t' = <[Z.to_nat (cursor t) := attribute t']> (attributes t) /\
      m t' = m t /\ cursor t' = cursor t /\
      state t' = TERMINAL_NORMAL_MODE).
Proof.
  intros t. apply (X9_set_colour t 1).
  - repeat split; vm_compute; congruence.
  - reflexivity.
  - lia.
Defined.

(** ** The saved cursor *)

(** One byte of an escape sequence changes [cursor_saved] only when it is
    the ['s'] that follows [ESC []. *)
Lemma escape_saved t c :
  match terminal_escape_sequences t c with
  | Some (t', r) =>
      cursor_saved t' = cursor_saved t \/
      (state t = TERMINAL_COMMAND /\ c = 115 /\ r = 0 /\
       cursor_saved t' = cursor t /\ cursor t' = cursor t)
  | None => True
  end.
Proof.
  destruct (state t) eqn:Hst.
  1,2,4-7: unfold_escape; rewrite Hst;
    unfold terminal_at_xy_relative, terminal_at_xy; cbv zeta;
    try exact I; split_ifs; left; reflexivity.
  unfold terminal_escape_sequences, escape_command. rewrite Hst.
  destruct (Z.eqb_spec c 115) as [-> |]; [right; repeat split|].
  split_ifs; left; reflexivity.
Qed.

(** X10. Feed any bytes [bs] to a terminal that starts in normal mode, and
    then one more byte [c].  If that byte changes the saved cursor, then
    [c] is ['s'], the bytes before it end with [ESC [], and the saved
    cursor becomes the cursor, which does not move.  No other byte, in any
    state, touches the saved cursor. *)
Theorem X10_saved_cursor (t0 : vt100_t) (bs : list Z) (c : Z) :
  screen_ok t0 -> state t0 = TERMINAL_NORMAL_MODE ->
  exists t t',
    vt100_feed t0 bs = Some t /\ vt100_update t c = Some t' /\
    (cursor_saved t' <> cursor_saved t ->
       c = 115 /\ ends_with bs [ESCAPE; 91] /\
       cursor_saved t' = cursor t /\ cursor t' = cursor t).
Proof.
  intros Hok Hst.
  destruct (vt100_feed_ok bs t0 Hok) as (t & Hfeed & Hokt & _).
  destruct (vt100_update_ok t c Hokt) as (t' & Hup & _).
  exists t, t'. split; [exact Hfeed|]. split; [exact Hup|]. intros Hne.
  assert (Hh : history ([] ++ bs) t).
  { apply (history_feed bs [] t0); auto. unfold history. now rewrite Hst. }
  cbn [app] in Hh.
  destruct (state t) eqn:Hs.
  - (* normal mode *)
    exfalso. apply Hne.
    rewrite vt100_update_normal in Hup by (try apply Hokt; assumption).
    destruct (normal_mode_byte_ok t c Hokt) as (t1 & Hb & ((Hw & Hh1 & Hsz) & _) & Hsv & _).
    rewrite Hb in Hup. injection Hup as <-.
    destruct (normal_mode_wrap_ok t1) as (_ & _ & Hsv' & _).
    + destruct Hokt as ((? & ? & ? & ?) & _). unfold geometry_ok.
      rewrite Hw, Hh1, Hsz. auto.
    + rewrite Hsv, Hsz. apply Hokt.
    + congruence.
  - pose proof (escape_saved t c) as Hsaved.
    rewrite vt100_update_escape in Hup by (try apply Hokt; congruence).
    destruct (terminal_escape_sequences t c) as [[t1 r]|]; [|discriminate].
    destruct Hsaved as [Hsaved | (Hcmd & _)]; [|congruence].
    exfalso. apply Hne. destruct (negb (r =? 0)); injection Hup as <-; exact Hsaved.
  - pose proof (escape_saved t c) as Hsaved.
    rewrite vt100_update_escape in Hup by (try apply Hokt; congruence).
    destruct (terminal_escape_sequences t c) as [[t1 r]|]; [|discriminate].
    destruct Hsaved as [Hsaved | (_ & -> & -> & Hsv & Hcur)].
    + exfalso. apply Hne. destruct (negb (r =? 0)); injection Hup as <-; exact Hsaved.
    + cbn in Hup. injection Hup as <-.
      unfold history in Hh. rewrite Hs in Hh. auto.
  - pose proof (escape_saved t c) as Hsaved.
    rewrite vt100_update_escape in Hup by (try apply Hokt; congruence).
    destruct (terminal_escape_sequences t c) as [[t1 r]|]; [|discriminate].
    destruct Hsaved as [Hsaved | (Hcmd & _)]; [|congruence].
    exfalso. apply Hne. destruct (negb (r =? 0)); injection Hup as <-; exact Hsaved.
  - pose proof (escape_saved t c) as Hsaved.
    rewrite vt100_update_escape in Hup by (try apply Hokt; congruence).
    destruct (terminal_escape_sequences t c) as [[t1 r]|]; [|discriminate].
    destruct Hsaved as [Hsaved | (Hcmd & _)]; [|congruence].
    exfalso. apply Hne. destruct (negb (r =? 0)); injection Hup as <-; exact Hsaved.
  - pose proof (escape_saved t c) as Hsaved.
    rewrite vt100_update_escape in Hup by (try apply Hokt; congruence).
    destruct (terminal_escape_sequences t c) as [[t1 r]|]; [|discriminate].
    destruct Hsaved as [Hsaved | (Hcmd & _)]; [|congruence].
    exfalso. apply Hne. destruct (negb (r =? 0)); injection Hup as <-; exact Hsaved.
  - pose proof (escape_saved t c) as Hsaved.
    rewrite vt100_update_escape in Hup by (try apply Hokt; congruence).
    destruct (terminal_escape_sequences t c) as [[t1 r]|]; [|discriminate].
    destruct Hsaved as [Hsaved | (Hcmd & _)]; [|congruence].
    exfalso. apply Hne. destruct (negb (r =? 0)); injection Hup as <-; exact Hsaved.
Qed.

Lemma X10_saved_cursor_witness :
  exists t t',
    vt100_feed vga_terminal [72; 105; ESCAPE; 91] = Some t /\
    vt100_update t 115 = Some t' /\
    (cursor_saved t' <> cursor_saved t ->
       115 = 115 /\ ends_with [72; 105; ESCAPE; 91] [ESCAPE; 91] /\
       cursor_saved t' = cursor t /\ cursor t' = cursor t).
Proof.
  apply (X10_saved_cursor vga_terminal [72; 105; ESCAPE; 91] 115).
  - repeat split; vm_compute; congruence.
  - reflexivity.
Defined.

(** ** Cells off the screen *)

Section Beyond.
Context {A : Type}.
Implicit Types (l : list A) (n k : Z).

Lemma beyond_refl n l : beyond n l l.
Proof. split; auto. Qed.

Lemma beyond_trans n l1 l2 l3 :
  beyond n l1 l2 -> beyond n l2 l3 -> beyond n l1 l3.
Proof.
  intros (Hl1 & H1) (Hl2 & H2). split; [congruence|].
  intros i Hi. rewrite H2, H1; auto.
Qed.

Lemma beyond_insert n l k x :
  0 <= k < n -> beyond n l (<[Z.to_nat k := x]> l).
Proof.
  intros Hk. split; [apply length_insert|].
  intros i Hi. apply list_lookup_insert_ne. lia.
Qed.

Lemma beyond_block_set n l k x :
  k <= n -> beyond n l (block_set l x (Z.to_nat k)).
Proof.
  intros Hk. split; [apply length_block_set|].
  intros i Hi. apply lookup_block_set_ge. lia.
Qed.
End Beyond.

Lemma off_screen_kept_refl t : off_screen_kept t t.
Proof. split; apply beyond_refl. Qed.

(** One byte of an escape sequence writes only to cells of the screen. *)
Lemma escape_off_screen t c :
  screen_ok t ->
  match terminal_escape_sequences t c with
  | Some (t', r) => off_screen_kept t t'
  | None => True
  end.
Proof.
  intros Hok. pose proof (screen_ok_cursor t Hok) as Hc.
  assert (Hz : 0 <= size t) by lia.
  assert (H1 : forall x : Z, beyond (size t) (m t) (memset (m t) x (size t)))
    by (intros; apply beyond_block_set; lia).
  assert (H2 : forall x : Z, beyond (size t) (m t) (memset (m t) x (cursor t)))
    by (intros; apply beyond_block_set; lia).
  assert (H3 : forall x : Z, beyond (size t) (m t) (memset (m t) x 0))
    by (intros; apply beyond_block_set; lia).
  assert (H4 : forall x, beyond (size t) (attributes t)
                           (block_set (attributes t) x (Z.to_nat (size t))))
    by (intros; apply beyond_block_set; lia).
  assert (H5 : forall x, beyond (size t) (attributes t)
                           (block_set (attributes t) x (Z.to_nat (cursor t))))
    by (intros; apply beyond_block_set; lia).
  assert (H6 : forall x, beyond (size t) (attributes t)
                           (block_set (attributes t) x (Z.to_nat 0)))
    by (intros; apply beyond_block_set; lia).
  assert (H7 : forall x, beyond (size t) (attributes t)
                           (<[Z.to_nat (cursor t) := x]> (attributes t)))
    by (intros; apply beyond_insert; lia).
  unfold_escape. destruct (state t); try exact I;
    unfold terminal_at_xy_relative, terminal_at_xy; cbv zeta; split_ifs;
    split; cbn; first [apply beyond_refl | apply H1 | apply H2 | apply H3
                      | apply H4 | apply H5 | apply H6 | apply H7].
Qed.

(** One byte in normal mode writes only to cells of the screen. *)
Lemma normal_off_screen t c t' :
  screen_ok t -> state t = TERMINAL_NORMAL_MODE ->
  vt100_update t c = Some t' -> off_screen_kept t t'.
Proof.
  intros Hok Hst Hup. pose proof Hok as (Hg & Hc & _).
  rewrite vt100_update_normal in Hup by assumption.
  destruct (normal_mode_byte t c) as [t1|] eqn:Hb; [|discriminate].
  injection Hup as <-.
  assert (H1 : off_screen_kept t t1 /\ size t1 = size t).
  { revert Hb. unfold normal_mode_byte.
    destruct (c =? ESCAPE); [intros [= <-]; split; [split; apply beyond_refl|reflexivity]|].
    destruct (c =? 9); [intros [= <-]; split; [split; apply beyond_refl|reflexivity]|].
    destruct ((c =? 13) || (c =? 10));
      [intros [= <-]; split; [split; apply beyond_refl|reflexivity]|].
    destruct ((c =? DELETE) || (c =? BACKSPACE)).
    { cbv zeta.
      pose proof (terminal_at_xy_relative_ok t (to_int (-1)) 0 true Hok) as (_ & Hc' & _).
      assert (Hs' : size (terminal_at_xy_relative t (to_int (-1)) 0 true) = size t)
        by apply same_frame_at_xy_relative.
      assert (Hm' : m (terminal_at_xy_relative t (to_int (-1)) 0 true) = m t).
      { unfold terminal_at_xy_relative, terminal_at_xy. reflexivity. }
      assert (Ha' : attributes (terminal_at_xy_relative t (to_int (-1)) 0 true)
                    = attributes t).
      { unfold terminal_at_xy_relative, terminal_at_xy. reflexivity. }
      remember (terminal_at_xy_relative t (to_int (-1)) 0 true) as t2.
      intros Heq.
      assert (Ht1 : t1 = set_m t2 (<[Z.to_nat (cursor t2) := 32]> (m t2)))
        by congruence.
      subst t1. split; [|exact Hs']. split; cbn [m attributes set_m].
      - rewrite Hm'. apply beyond_insert. lia.
      - rewrite Ha'. apply beyond_refl. }
    destruct (cursor t <? size t); [|discriminate].
    intros [= <-]. split; [|reflexivity].
    split; cbn; apply beyond_insert; lia. }
  destruct H1 as ((Hm1 & Ha1) & Hs1).
  assert (Hz : 0 <= size t) by lia.
  unfold normal_mode_wrap, terminal_attribute_block_set.
  destruct (cursor t1 >=? size t1); [|split; assumption].
  split; cbn.
  - eapply beyond_trans; [exact Hm1|]. rewrite Hs1. apply beyond_block_set. lia.
  - eapply beyond_trans; [exact Ha1|]. rewrite Hs1. apply beyond_block_set. lia.
Qed.

Lemma vt100_update_off_screen t c t' :
  screen_ok t -> vt100_update t c = Some t' -> off_screen_kept t t'.
Proof.
  intros Hok Hup.
  destruct (state t) eqn:Hst; [now apply (normal_off_screen t c)|..].
  all: pose proof (escape_off_screen t c Hok) as He;
    rewrite vt100_update_escape in Hup by (try apply Hok; congruence);
    destruct (terminal_escape_sequences t c) as [[t1 r]|]; [|discriminate];
    destruct (negb (r =? 0)); injection Hup as <-; exact He.
Qed.

(** X11. Whatever bytes are fed to a terminal whose cursors are on the
    screen, the glyph and attribute arrays keep their length and every
    array cell from index [size] on keeps its content: the interpreter
    writes only to the [size] cells of the screen. *)
Theorem X11_off_screen_cells (t0 : vt100_t) (bs : list Z) :
  screen_ok t0 ->
  exists t,
    vt100_feed t0 bs = Some t /\
    length (m t) = length (m t0) /\
    length (attributes t) = length (attributes t0) /\
    forall i : nat, size t0 <= Z.of_nat i ->
      m t !! i = m t0 !! i /\ attributes t !! i = attributes t0 !! i.
Proof.
  revert t0. induction bs as [|c bs IH]; intros t0 Hok; cbn [vt100_feed].
  - exists t0. auto.
  - destruct (vt100_update_ok t0 c Hok) as (t1 & Hup & Hok1 & ((_ & _ & Hsz) & _)).
    rewrite Hup.
    destruct (vt100_update_off_screen t0 c t1 Hok Hup) as ((Hlm & Hm) & (Hla & Ha)).
    destruct (IH t1 Hok1) as (t & Hfeed & Hlm' & Hla' & Hcells).
    exists t. split; [exact Hfeed|]. split; [congruence|]. split; [congruence|].
    intros i Hi. destruct (Hcells i) as (Hm' & Ha'); [lia|].
    rewrite Hm', Ha', Hm, Ha; auto.
Qed.

Lemma X11_off_screen_cells_witness :
  exists t,
    vt100_feed vga_terminal [72; ESCAPE; 91; 50; 74; 8; 9] = Some t /\
    length (m t) = length (m vga_terminal) /\
    length (attributes t) = length (attributes vga_terminal) /\
    forall i : nat, size vga_terminal <= Z.of_nat i ->
      m t !! i = m vga_terminal !! i /\
      attributes t !! i = attributes vga_terminal !! i.
Proof.
  apply (X11_off_screen_cells vga_terminal).
  repeat split; vm_compute; congruence.
Defined.

(** ** Length of an escape sequence *)

(** Every byte of an escape sequence brings the parser closer to normal
    mode. *)
Lemma remaining_step t c t' :
  screen_ok t -> params_ok t -> state t <> TERMINAL_NORMAL_MODE ->
  vt100_update t c = Some t' ->
  0 <= remaining t' < remaining t.
Proof.
  intros Hok Hp Hst Hup.
  rewrite vt100_update_escape in Hup by (try apply Hok; assumption).
  unfold params_ok in Hp. unfold remaining at 3.
  assert (Hn : forall t1, state t1 = TERMINAL_NORMAL_MODE -> remaining t1 = 0).
  { intros t1 H1. unfold remaining. now rewrite H1. }
  unfold terminal_escape_sequences in Hup.
  destruct (state t) eqn:Hs; [congruence|..].
  - unfold escape_csi in Hup.
    destruct (c =? 91); injection Hup as <-; unfold remaining; cbn; lia.
  - unfold escape_command in Hup.
    destruct (c =? 115); [injection Hup as <-; unfold remaining; cbn; lia|].
    destruct (c =? 110); [injection Hup as <-; unfold remaining; cbn; lia|].
    destruct (c =? 63); [injection Hup as <-; unfold remaining; cbn; lia|].
    destruct (c =? 59); [injection Hup as <-; unfold remaining; cbn; lia|].
    destruct (isdigit c); injection Hup as <-; unfold remaining; cbn;
      [change (u8 (0 + 1)) with 1|]; lia.
  - destruct Hp as (Hb & Hk & _).
    pose proof (digits_bound_range _ _ Hb) as (Hkr & _).
    unfold escape_number_1 in Hup.
    destruct (isdigit c).
    { destruct (Z.gtb_spec (command_index t) 3);
        injection Hup as <-; unfold remaining; cbn; rewrite ?Hs;
        rewrite ?u8_small by lia; lia. }
    revert Hup. unfold erase_display, erase_case_2, erase_case_1, erase_case_0,
      goto_success, goto_fail, return_0. cbv zeta.
    repeat match goal with
           | |- context [if ?b then _ else _] => destruct b
           end;
      intros [= <-]; try (rewrite Hn by reflexivity; lia).
    unfold remaining; cbn. lia.
  - destruct Hp as (Hb & _).
    pose proof (digits_bound_range _ _ Hb) as (Hkr & _).
    unfold escape_number_2 in Hup.
    destruct (isdigit c).
    { destruct (Z.gtb_spec (command_index t) 3);
        injection Hup as <-; unfold remaining; cbn; rewrite ?Hs;
        rewrite ?u8_small by lia; lia. }
    destruct (c =? 109); [injection Hup as <-; unfold remaining; cbn; lia|].
    destruct ((c =? 72) || (c =? 102)); injection Hup as <-;
      rewrite Hn by reflexivity; lia.
  - destruct Hp as (Hb & Hk).
    pose proof (digits_bound_range _ _ Hb) as (Hkr & _).
    unfold escape_dectcem in Hup.
    destruct (isdigit c).
    { destruct (Z.gtb_spec (command_index t) 1);
        injection Hup as <-; unfold remaining; cbn; rewrite ?Hs;
        rewrite ?u8_small by lia; lia. }
    destruct (negb (n1 t =? 25)); [injection Hup as <-; unfold remaining; cbn; lia|].
    destruct (c =? 108); [injection Hup as <-; unfold remaining; cbn; lia|].
    destruct (c =? 104); injection Hup as <-; unfold remaining; cbn; lia.
  - contradiction.
Qed.

Lemma remaining_0 t : params_ok t -> remaining t <= 0 -> state t = TERMINAL_NORMAL_MODE.
Proof.
  unfold params_ok, remaining, digits_bound.
  destruct (state t); intros Hp Hr; auto; try lia; contradiction.
Qed.

(** Within [n] bytes the parser is in normal mode, when [remaining] is at
    most [n]. *)
Lemma normal_within n : forall t bs,
  screen_ok t -> params_ok t -> remaining t <= Z.of_nat n ->
  (n <= length bs)%nat ->
  exists (k : nat) t',
    (k <= n)%nat /\ vt100_feed t (take k bs) = Some t' /\
    state t' = TERMINAL_NORMAL_MODE.
Proof.
  induction n as [|n IH]; intros t bs Hok Hp Hr Hl.
  - exists 0%nat, t. split; [lia|]. split; [reflexivity|].
    apply remaining_0; auto.
  - assert (Hstep : state t <> TERMINAL_NORMAL_MODE ->
      exists (k : nat) t',
        (k <= S n)%nat /\ vt100_feed t (take k bs) = Some t' /\
        state t' = TERMINAL_NORMAL_MODE).
    { intros Hne. destruct bs as [|c bs]; [cbn in Hl; lia|].
      destruct (vt100_update_ok t c Hok) as (t1 & Hup & Hok1 & _).
      assert (Hp1 : params_ok t1) by now apply (params_ok_step t c).
      assert (Hr1 : 0 <= remaining t1 < remaining t)
        by now apply (remaining_step t c).
      destruct (IH t1 bs Hok1 Hp1) as (k & t' & Hk & Hfeed & Hn);
        [lia | cbn in Hl; lia |].
      exists (S k), t'. split; [lia|]. split; [|exact Hn].
      cbn [take vt100_feed]. rewrite Hup. exact Hfeed. }
    destruct (state t) eqn:Hst; [|apply Hstep; discriminate ..].
    exists 0%nat, t. split; [lia|]. split; [reflexivity | exact Hst].
Qed.

(** X12. No input wedges the parser: after an [ESC] received in normal
    mode, the parser is back in normal mode after at least one and at most
    eleven more bytes, whatever they are. *)
Theorem X12_sequence_length (t0 : vt100_t) (bs : list Z) :
  screen_ok t0 -> state t0 = TERMINAL_NORMAL_MODE -> (11 <= length bs)%nat ->
  exists (k : nat) t,
    (1 <= k <= 11)%nat /\
    vt100_feed t0 (ESCAPE :: take k bs) = Some t /\
    state t = TERMINAL_NORMAL_MODE.
Proof.
  intros Hok Hst Hl. cbn [vt100_feed].
  rewrite vt100_update_ESCAPE by assumption.
  set (t1 := set_state t0 TERMINAL_CSI).
  assert (Hok1 : screen_ok t1) by now apply screen_ok_set_state.
  assert (Hp1 : params_ok t1) by exact I.
  destruct (normal_within 11 t1 bs Hok1 Hp1) as (k & t & Hk & Hfeed & Hn);
    [unfold remaining; cbn; lia | exact Hl |].
  exists k, t. split; [|auto]. split; [|exact Hk].
  destruct k; [|lia]. cbn in Hfeed. injection Hfeed as <-. discriminate Hn.
Qed.

Lemma X12_sequence_length_witness :
  exists (k : nat) t,
    (1 <= k <= 11)%nat /\
    vt100_feed vga_terminal
      (ESCAPE :: take k [91; 57; 57; 57; 57; 59; 57; 57; 57; 57; 72; 65]) = Some t /\
    state t = TERMINAL_NORMAL_MODE.
Proof.
  apply (X12_sequence_length vga_terminal).
  - repeat split; vm_compute; congruence.
  - reflexivity.
  - cbn. lia.
Defined.

(** ** The byte FIFO: the queue it holds *)

Module FifoQueue.
Import Fifo FifoSpec.

Lemma ring_length b h t :
  (h < length b)%nat -> (t < length b)%nat ->
  length (ring b h t) =
  if (t <=? h)%nat then (h - t)%nat else (length b - t + h)%nat.
Proof.
  intros Hh Ht. unfold ring. destruct (Nat.leb_spec t h).
  - rewrite length_take, length_drop. lia.
  - rewrite length_app, length_drop, length_take. lia.
Qed.

(** Storing at [h] and advancing [h] appends to the ring, when the slot
    after [h] is not [t]. *)
Lemma ring_push b h t d :
  (h < length b)%nat -> (t < length b)%nat ->
  (S h = length b -> t <> 0%nat) -> S h <> t ->
  ring (<[h := d]> b) (if (S h =? length b)%nat then 0%nat else S h) t =
  ring b h t ++ [d].
Proof.
  intros Hh Ht Hwrap Hnext. unfold ring.
  destruct (Nat.leb_spec t h) as [Hle|Hgt].
  - destruct (Nat.eqb_spec (S h) (length b)) as [He|Hne].
    + destruct (Nat.leb_spec t 0); [lia|].
      rewrite take_0, app_nil_r. rewrite drop_insert_ge by lia.
      assert (Hl : length (drop t b) = S (h - t)) by (rewrite length_drop; lia).
      rewrite <- (take_drop (h - t) (drop t b)) at 1.
      rewrite insert_app_r_alt by (rewrite length_take; lia).
      rewrite length_take, Hl. replace (h - t - (h - t) `min` S (h - t))%nat with 0%nat by lia.
      destruct (drop (h - t) (drop t b)) as [|x [|y r]] eqn:Hd.
      * apply (f_equal length) in Hd. rewrite length_drop in Hd. cbn in Hd. lia.
      * reflexivity.
      * apply (f_equal length) in Hd. rewrite length_drop in Hd. cbn in Hd. lia.
    + destruct (Nat.leb_spec t (S h)); [|lia].
      rewrite drop_insert_ge by lia.
      replace (S h - t)%nat with (S (h - t)) by lia.
      rewrite (take_S_r _ _ d).
      * now rewrite take_insert_ge by lia.
      * apply list_lookup_insert_eq. rewrite length_drop. lia.
  - destruct (Nat.eqb_spec (S h) (length b)) as [He|Hne]; [lia|].
    destruct (Nat.leb_spec t (S h)); [lia|].
    rewrite drop_insert_lt by lia.
    rewrite (take_S_r _ _ d) by (apply list_lookup_insert_eq; lia).
    rewrite take_insert_ge by lia. now rewrite app_assoc.
Qed.

(** The byte at [t] is the first of the ring, and advancing [t] removes
    it. *)
Lemma ring_pop b h t x :
  (h < length b)%nat -> (t < length b)%nat -> h <> t -> b !! t = Some x ->
  ring b h t =
  x :: ring b h (if (S t =? length b)%nat then 0%nat else S t).
Proof.
  intros Hh Ht Hne Hx. unfold ring.
  destruct (Nat.leb_spec t h) as [Hle|Hgt].
  - destruct (Nat.eqb_spec (S t) (length b)); [lia|].
    destruct (Nat.leb_spec (S t) h); [|lia].
    rewrite (drop_S _ _ _ Hx). replace (h - t)%nat with (S (h - S t)) by lia.
    reflexivity.
  - rewrite (drop_S _ _ _ Hx).
    destruct (Nat.eqb_spec (S t) (length b)) as [He|Hn].
    + rewrite (drop_ge b (S t)) by lia. cbn. rewrite Nat.sub_0_r, drop_0.
      reflexivity.
    + destruct (Nat.leb_spec (S t) h); [lia|]. reflexivity.
Qed.

(** [fifo_is_full], without wrap-around. *)
Lemma fifo_is_full_spec fifo :
  fifo_ok fifo ->
  fifo_is_full fifo = true <->
  (tail fifo = 0 /\ head fifo = size fifo - 1) \/
  (0 < tail fifo /\ head fifo = tail fifo - 1).
Proof.
  intros (HN & Hh & Ht & _). unfold fifo_is_full.
  rewrite (usize_small (size fifo - 1)) by lia.
  rewrite orb_true_iff, andb_true_iff, !Z.eqb_eq.
  destruct (Z.eq_dec (tail fifo) 0) as [E|E].
  - rewrite E. change (usize (0 - 1)) with (2 ^ 64 - 1). lia.
  - rewrite (usize_small (tail fifo - 1)) by lia. lia.
Qed.

(** The number of queued bytes. *)
Lemma contents_length fifo :
  fifo_ok fifo ->
  Z.of_nat (length (contents fifo)) =
  if tail fifo <=? head fifo then head fifo - tail fifo
  else size fifo - tail fifo + head fifo.
Proof.
  intros (HN & Hh & Ht & Hl). unfold contents. rewrite ring_length by lia.
  destruct (Nat.leb_spec (Z.to_nat (tail fifo)) (Z.to_nat (head fifo))),
    (Z.leb_spec (tail fifo) (head fifo)); lia.
Qed.

Lemma empty_iff_nil fifo :
  fifo_ok fifo -> head fifo = tail fifo <-> contents fifo = [].
Proof.
  intros Hok. pose proof (contents_length fifo Hok) as Hlen.
  destruct Hok as (HN & Hh & Ht & Hl). split.
  - intros E. apply length_zero_iff_nil.
    destruct (Z.leb_spec (tail fifo) (head fifo)); lia.
  - intros E. rewrite E in Hlen. cbn in Hlen.
    destruct (Z.leb_spec (tail fifo) (head fifo)); lia.
Qed.

Lemma full_iff_length fifo :
  fifo_ok fifo ->
  fifo_is_full fifo = true <->
  Z.of_nat (length (contents fifo)) = size fifo - 1.
Proof.
  intros Hok. rewrite (fifo_is_full_spec fifo Hok), (contents_length fifo Hok).
  destruct Hok as (HN & Hh & Ht & Hl).
  destruct (Z.leb_spec (tail fifo) (head fifo)); lia.
Qed.

(** [fifo_push] on a queue that is not full. *)
Lemma fifo_push_room fifo d :
  fifo_ok fifo -> fifo_is_full fifo = false ->
  exists fifo', fifo_push fifo d = (fifo', 1) /\ fifo_ok fifo' /\
                size fifo' = size fifo /\
                contents fifo' = contents fifo ++ [d].
Proof.
  intros Hok Hf. pose proof Hok as (HN & Hh & Ht & Hl).
  pose proof (fifo_is_full_spec fifo Hok) as Hfull.
  unfold fifo_push. rewrite Hf.
  assert (Hnf : ~ ((tail fifo = 0 /\ head fifo = size fifo - 1) \/
                   (0 < tail fifo /\ head fifo = tail fifo - 1))).
  { rewrite <- Hfull, Hf. discriminate. }
  cbv zeta. rewrite usize_small by lia.
  eexists; split; [reflexivity|]. split; [|split; [reflexivity|]].
  - unfold fifo_ok; cbn. rewrite length_insert.
    destruct (Z.eqb_spec (head fifo + 1) (size fifo)); lia.
  - unfold contents; cbn.
    replace (Z.to_nat (if head fifo + 1 =? size fifo then 0 else head fifo + 1))
      with (if (S (Z.to_nat (head fifo)) =? length (buffer fifo))%nat
            then 0%nat else S (Z.to_nat (head fifo))).
    + apply ring_push; lia.
    + destruct (Z.eqb_spec (head fifo + 1) (size fifo)),
        (Nat.eqb_spec (S (Z.to_nat (head fifo))) (length (buffer fifo))); lia.
Qed.

(** [fifo_pop] on a queue that is not empty. *)
Lemma fifo_pop_some fifo data :
  fifo_ok fifo -> fifo_is_empty fifo = false ->
  exists fifo' x, fifo_pop fifo data = (fifo', x, 1) /\ fifo_ok fifo' /\
                  size fifo' = size fifo /\
                  contents fifo = x :: contents fifo'.
Proof.
  intros Hok He. pose proof Hok as (HN & Hh & Ht & Hl).
  unfold fifo_pop. rewrite He.
  unfold fifo_is_empty in He. apply Z.eqb_neq in He.
  cbv zeta. rewrite usize_small by lia.
  eexists _, _; split; [reflexivity|]. split; [|split; [reflexivity|]].
  - unfold fifo_ok; cbn.
    destruct (Z.eqb_spec (tail fifo + 1) (size fifo)); lia.
  - unfold contents; cbn.
    replace (Z.to_nat (if tail fifo + 1 =? size fifo then 0 else tail fifo + 1))
      with (if (S (Z.to_nat (tail fifo)) =? length (buffer fifo))%nat
            then 0%nat else S (Z.to_nat (tail fifo))).
    + apply ring_pop; try lia.
      apply list_lookup_lookup_total_lt. lia.
    + destruct (Z.eqb_spec (tail fifo + 1) (size fifo)),
        (Nat.eqb_spec (S (Z.to_nat (tail fifo))) (length (buffer fifo))); lia.
Qed.

(** [fifo_count] on a queue that is not full. *)
Lemma fifo_count_not_full fifo :
  fifo_ok fifo -> fifo_is_full fifo = false ->
  fifo_count fifo = Z.of_nat (length (contents fifo)).
Proof.
  intros Hok Hf. pose proof Hok as (HN & Hh & Ht & Hl).
  pose proof (contents_length fifo Hok) as Hlen.
  pose proof (empty_iff_nil fifo Hok) as Hempty.
  unfold fifo_count, fifo_is_empty. rewrite Hf.
  destruct (Z.eqb_spec (head fifo) (tail fifo)) as [He|He].
  - apply Hempty in He. now rewrite He.
  - rewrite Hlen.
    destruct (Z.ltb_spec (head fifo) (tail fifo)),
      (Z.leb_spec (tail fifo) (head fifo)); try lia.
    + rewrite (usize_small (size fifo - tail fifo)) by lia.
      rewrite usize_small by lia. lia.
    + rewrite usize_small by lia. lia.
Qed.

(** X13. On a well-formed queue, a full queue holds [size - 1] bytes and
    an empty one none, so a queue is never both; [fifo_count] is the number
    of queued bytes, except on a full queue, where it returns [size], one
    more than the queue holds. *)
Theorem X13_full_empty_count (fifo : fifo_t) :
  fifo_ok fifo ->
  (fifo_is_empty fifo = true <-> contents fifo = []) /\
  (fifo_is_full fifo = true <->
     Z.of_nat (length (contents fifo)) = size fifo - 1) /\
  (fifo_is_full fifo = false ->
     fifo_count fifo = Z.of_nat (length (contents fifo))) /\
  (fifo_is_full fifo = true ->
     fifo_count fifo = Z.of_nat (length (contents fifo)) + 1).
Proof.
  intros Hok. pose proof Hok as (HN & Hh & Ht & Hl).
  pose proof (contents_length fifo Hok) as Hlen.
  pose proof (empty_iff_nil fifo Hok) as Hempty.
  pose proof (full_iff_length fifo Hok) as Hfull.
  split; [unfold fifo_is_empty; now rewrite Z.eqb_eq|].
  split; [exact Hfull|].
  unfold fifo_count, fifo_is_empty.
  destruct (fifo_is_full fifo); split; intros Hf; try discriminate.
  - destruct (Z.eqb_spec (head fifo) (tail fifo)) as [He|He]; [|lia].
    apply Hempty in He. rewrite He in Hfull. cbn in Hfull.
    destruct Hfull as (Hfull & _). specialize (Hfull eq_refl). lia.
  - destruct (Z.eqb_spec (head fifo) (tail fifo)) as [He|He].
    + apply Hempty in He. now rewrite He.
    + rewrite Hlen.
      destruct (Z.ltb_spec (head fifo) (tail fifo)),
        (Z.leb_spec (tail fifo) (head fifo)); try lia.
      * rewrite (usize_small (size fifo - tail fifo)) by lia.
        rewrite usize_small by lia. lia.
      * rewrite usize_small by lia. lia.
Qed.

Lemma X13_full_empty_count_witness :
  let fifo := mk_fifo 1 3 4 [10; 11; 12; 13] in
  (fifo_is_empty fifo = true <-> contents fifo = []) /\
  (fifo_is_full fifo = true <->
     Z.of_nat (length (contents fifo)) = size fifo - 1) /\
  (fifo_is_full fifo = false ->
     fifo_count fifo = Z.of_nat (length (contents fifo))) /\
  (fifo_is_full fifo = true ->
     fifo_count fifo = Z.of_nat (length (contents fifo)) + 1).
Proof.
  intros fifo. apply (X13_full_empty_count fifo).
  unfold fifo_ok; cbn. lia.
Defined.

(** X14. On a well-formed queue that is not full, [fifo_push] returns 1,
    keeps the queue well formed and appends the byte to the queued bytes;
    on a full queue it returns 0 and changes nothing.  On a well-formed
    queue that is not empty, [fifo_pop] returns 1 with the oldest queued
    byte, keeps the queue well formed and removes that byte from the queued
    bytes; on an empty queue it returns 0 and changes neither the queue nor
    the output byte. *)
Theorem X14_push_pop (fifo : fifo_t) (d : Z) :
  fifo_ok fifo ->
  (fifo_is_full fifo = true -> fifo_push fifo d = (fifo, 0)) /\
  (fifo_is_full fifo = false ->
     exists fifo', fifo_push fifo d = (fifo', 1) /\ fifo_ok fifo' /\
                   contents fifo' = contents fifo ++ [d]) /\
  (fifo_is_empty fifo = true -> fifo_pop fifo d = (fifo, d, 0)) /\
  (fifo_is_empty fifo = false ->
     exists fifo' x, fifo_pop fifo d = (fifo', x, 1) /\ fifo_ok fifo' /\
                     contents fifo = x :: contents fifo').
Proof.
  intros Hok. split; [|split; [|split]].
  - intros Hf. unfold fifo_push. now rewrite Hf.
  - intros Hf.
    destruct (fifo_push_room fifo d Hok Hf) as (fifo' & Hp & Hok' & _ & Hc).
    eauto.
  - intros He. unfold fifo_pop. now rewrite He.
  - intros He.
    destruct (fifo_pop_some fifo d Hok He) as (fifo' & x & Hp & Hok' & _ & Hc).
    eauto.
Qed.

Lemma X14_push_pop_witness :
  let fifo := mk_fifo 1 3 4 [10; 11; 12; 13] in
  (fifo_is_full fifo = true -> fifo_push fifo 7 = (fifo, 0)) /\
  (fifo_is_full fifo = false ->
     exists fifo', fifo_push fifo 7 = (fifo', 1) /\ fifo_ok fifo' /\
                   contents fifo' = contents fifo ++ [7]) /\
  (fifo_is_empty fifo = true -> fifo_pop fifo 7 = (fifo, 7, 0)) /\
  (fifo_is_empty fifo = false ->
     exists fifo' x, fifo_pop fifo 7 = (fifo', x, 1) /\ fifo_ok fifo' /\
                     contents fifo = x :: contents fifo').
Proof.
  intros fifo. apply (X14_push_pop fifo 7). unfold fifo_ok; cbn. lia.
Defined.

(** Pushing a list of bytes that fits. *)
Lemma fifo_push_all_contents ds : forall fifo,
  fifo_ok fifo ->
  Z.of_nat (length (contents fifo)) + Z.of_nat (length ds) <= size fifo - 1 ->
  snd (fifo_push_all fifo ds) = replicate (length ds) 1 /\
  fifo_ok (fst (fifo_push_all fifo ds)) /\
  size (fst (fifo_push_all fifo ds)) = size fifo /\
  contents (fst (fifo_push_all fifo ds)) = contents fifo ++ ds.
Proof.
  induction ds as [|d ds IH]; intros fifo Hok Hroom.
  - cbn. rewrite app_nil_r. auto.
  - cbn [length] in Hroom. cbn [fifo_push_all].
    assert (Hf : fifo_is_full fifo = false).
    { destruct (fifo_is_full fifo) eqn:E; [|reflexivity].
      apply (full_iff_length fifo Hok) in E. lia. }
    destruct (fifo_push_room fifo d Hok Hf) as (fifo1 & -> & Hok1 & Hs1 & Hc1).
    destruct (IH fifo1 Hok1) as (Hr & Hok2 & Hs2 & Hc2).
    { rewrite Hc1, length_app, Hs1. cbn [length]. lia. }
    destruct (fifo_push_all fifo1 ds) as [fifo2 rets]. cbn in *.
    rewrite Hr, Hc2, Hc1, <- app_assoc, Hs2. auto.
Qed.

(** Popping as many bytes as are queued. *)
Lemma fifo_pop_n_contents n : forall fifo,
  fifo_ok fifo -> length (contents fifo) = n ->
  snd (fifo_pop_n fifo n) = contents fifo /\
  fifo_is_empty (fst (fifo_pop_n fifo n)) = true.
Proof.
  induction n as [|n IH]; intros fifo Hok Hn.
  - cbn. apply length_zero_iff_nil in Hn. rewrite Hn. split; [reflexivity|].
    unfold fifo_is_empty. apply Z.eqb_eq. now apply empty_iff_nil.
  - cbn [fifo_pop_n].
    assert (He : fifo_is_empty fifo = false).
    { unfold fifo_is_empty. apply Z.eqb_neq. intros E.
      apply (empty_iff_nil fifo Hok) in E. rewrite E in Hn. discriminate. }
    destruct (fifo_pop_some fifo 0 Hok He) as (fifo1 & x & -> & Hok1 & _ & Hc).
    destruct (IH fifo1 Hok1) as (Hout & Hemp).
    { rewrite Hc in Hn. cbn in Hn. lia. }
    destruct (fifo_pop_n fifo1 n) as [fifo2 out]. cbn in *.
    rewrite Hc, Hout. auto.
Qed.

(** X15. First in, first out: when the bytes [ds] fit a well-formed queue,
    every push of them returns 1, the queue then holds its old bytes
    followed by [ds], and popping that many bytes returns them in this
    order and leaves the queue empty. *)
Theorem X15_first_in_first_out (fifo : fifo_t) (ds : list Z) :
  fifo_ok fifo ->
  Z.of_nat (length (contents fifo)) + Z.of_nat (length ds) <= size fifo - 1 ->
  let pushed := fifo_push_all fifo ds in
  let popped := fifo_pop_n (fst pushed) (length (contents fifo) + length ds) in
  snd pushed = replicate (length ds) 1 /\
  contents (fst pushed) = contents fifo ++ ds /\
  snd popped = contents fifo ++ ds /\
  fifo_is_empty (fst popped) = true.
Proof.
  intros Hok Hroom pushed popped.
  destruct (fifo_push_all_contents ds fifo Hok Hroom) as (Hr & Hok1 & _ & Hc).
  fold pushed in Hr, Hok1, Hc.
  destruct (fifo_pop_n_contents (length (contents fifo) + length ds) (fst pushed) Hok1)
    as (Hout & Hemp).
  { rewrite Hc, length_app. reflexivity. }
  fold popped in Hout, Hemp. rewrite Hout, Hc. auto.
Qed.

Lemma X15_first_in_first_out_witness :
  let fifo := mk_fifo 1 6 8 [10; 11; 12; 13; 14; 15; 16; 17] in
  let ds := [1; 2; 3] in
  let pushed := fifo_push_all fifo ds in
  let popped := fifo_pop_n (fst pushed) (length (contents fifo) + length ds) in
  snd pushed = replicate (length ds) 1 /\
  contents (fst pushed) = contents fifo ++ ds /\
  snd popped = contents fifo ++ ds /\
  fifo_is_empty (fst popped) = true.
Proof.
  intros fifo ds. apply (X15_first_in_first_out fifo ds).
  - unfold fifo_ok; cbn. lia.
  - vm_compute. congruence.
Defined.

(** A new queue is well formed and empty. *)

Lemma fifo_new_ok N fifo :
  N < 2 ^ 64 -> fifo_new N = Some fifo ->
  fifo_ok fifo /\ contents fifo = [] /\ size fifo = N.
Proof.
  unfold fifo_new. intros HN. destruct (Z.geb_spec N 2); [|discriminate].
  intros [= <-]. split; [|split; reflexivity].
  unfold fifo_ok; cbn. rewrite length_replicate. lia.
Qed.

(** X16. A queue made by [fifo_new] is a valid empty queue: any [n] bytes,
    for [n] up to its size less one, are all accepted by [fifo_push], are
    then what [fifo_count] counts, and [n] calls of [fifo_pop] give them
    back in the order pushed and leave the queue empty.  [fifo_new]
    succeeds only for a size of at least 2. *)
Theorem X16_new_queue (N : Z) (fifo : fifo_t) (ds : list Z) :
  N < 2 ^ 64 -> fifo_new N = Some fifo ->
  Z.of_nat (length ds) <= N - 1 ->
  let pushed := fifo_push_all fifo ds in
  let popped := fifo_pop_n (fst pushed) (length ds) in
  2 <= N /\ fifo_ok fifo /\ fifo_is_empty fifo = true /\
  snd pushed = replicate (length ds) 1 /\
  (Z.of_nat (length ds) < N - 1 ->
     fifo_count (fst pushed) = Z.of_nat (length ds)) /\
  snd popped = ds /\ fifo_is_empty (fst popped) = true.
Proof.
  intros HN Hnew Hlen pushed popped.
  assert (H2 : 2 <= N).
  { revert Hnew. unfold fifo_new. destruct (Z.geb_spec N 2); [lia|discriminate]. }
  destruct (fifo_new_ok N fifo HN Hnew) as (Hok & Hc & Hsz).
  destruct (fifo_push_all_contents ds fifo Hok) as (Hr & Hok1 & Hsz1 & Hc1).
  { rewrite Hc, Hsz. cbn. lia. }
  fold pushed in Hr, Hok1, Hsz1, Hc1. rewrite Hc in Hc1. cbn in Hc1.
  destruct (fifo_pop_n_contents (length ds) (fst pushed) Hok1) as (Hout & Hemp).
  { now rewrite Hc1. }
  fold popped in Hout, Hemp.
  split; [exact H2|]. split; [exact Hok|].
  split.
  { unfold fifo_is_empty. apply Z.eqb_eq. now apply empty_iff_nil. }
  split; [exact Hr|]. split.
  { intros Hlt.
    assert (Hnf : fifo_is_full (fst pushed) = false).
    { destruct (fifo_is_full (fst pushed)) eqn:Hf; [|reflexivity].
      apply full_iff_length in Hf; [|exact Hok1].
      rewrite Hc1, Hsz1, Hsz in Hf. lia. }
    rewrite (fifo_count_not_full (fst pushed) Hok1 Hnf), Hc1. reflexivity. }
  split; [congruence|exact Hemp].
Qed.

Lemma X16_new_queue_witness :
  let fifo := mk_fifo 0 0 4 (replicate 4 0) in
  let pushed := fifo_push_all fifo [5; 6] in
  let popped := fifo_pop_n (fst pushed) 2 in
  2 <= 4 /\ fifo_ok fifo /\ fifo_is_empty fifo = true /\
  snd pushed = replicate 2 1 /\
  (Z.of_nat 2 < 4 - 1 -> fifo_count (fst pushed) = Z.of_nat 2) /\
  snd popped = [5; 6] /\ fifo_is_empty (fst popped) = true.
Proof.
  intros fifo. apply (X16_new_queue 4 fifo [5; 6]).
  - lia.
  - reflexivity.
  - cbn. lia.
Defined.

End FifoQueue.

(** ** Valid colours in every reachable state *)

Lemma terminal_parse_attribute_ok a v :
  attribute_ok a -> attribute_ok (terminal_parse_attribute a v).
Proof.
  intros (Hf & Hb). unfold attribute_ok.
  destruct (Z.eq_dec v 0) as [-> |H0]; [cbn; lia|].
  destruct (Z.eq_dec v 1) as [-> |H1]; [cbn; lia|].
  destruct (Z.eq_dec v 4) as [-> |H4]; [cbn; lia|].
  destruct (Z.eq_dec v 5) as [-> |H5]; [cbn; lia|].
  destruct (Z.eq_dec v 7) as [-> |H7]; [cbn; lia|].
  destruct (Z.eq_dec v 8) as [-> |H8]; [cbn; lia|].
  rewrite terminal_parse_attribute_default by assumption. cbv zeta.
  destruct (Z.leb_spec 30 v), (Z.leb_spec v 37), (Z.leb_spec 40 v),
    (Z.leb_spec v 47); cbn; lia.
Qed.

Lemma vt100_default_attribute_ok : attribute_ok vt100_default_attribute.
Proof. unfold attribute_ok; cbn; lia. Qed.

Lemma Forall_block_set {A} (P : A -> Prop) v n : forall l,
  Forall P l -> P v -> Forall P (block_set l v n).
Proof.
  induction n as [|n IH]; intros l Hl Hv; [exact Hl|].
  destruct l as [|x l]; [constructor|]. cbn.
  inversion Hl; subst. constructor; auto.
Qed.

(** The terminal before the first byte. *)
Lemma vt100_initial_ok w h :
  0 < w -> 0 < h -> w * h <= VT100_MAX_SIZE ->
  screen_ok (vt100_initial w h) /\ arrays_ok (vt100_initial w h) /\
  attributes_ok (vt100_initial w h) /\ blank (vt100_initial w h).
Proof.
  intros Hw Hh Hmax. assert (Hs : 0 < w * h) by nia.
  split; [|split; [|split]].
  - unfold screen_ok, geometry_ok; cbn. repeat split; lia.
  - unfold arrays_ok; cbn [m attributes vt100_initial]. unfold memset.
    rewrite !length_block_set, !length_replicate. auto.
  - split; cbn [attribute attributes vt100_initial].
    + apply vt100_default_attribute_ok.
    + apply Forall_block_set; [|apply vt100_default_attribute_ok].
      apply Forall_replicate. unfold attribute_ok; cbn; lia.
  - intros i Hi. cbn [size m attributes vt100_initial] in *. unfold memset.
    rewrite !lookup_block_set_lt; rewrite ?length_replicate; auto; lia.
Qed.

Lemma escape_attributes_ok t c :
  attributes_ok t ->
  match terminal_escape_sequences t c with
  | Some (t', r) => attributes_ok t'
  | None => True
  end.
Proof.
  intros (Ha & Hs).
  pose proof vt100_default_attribute_ok as Hd.
  pose proof (fun v => terminal_parse_attribute_ok (attribute t) v Ha) as Hp.
  pose proof (fun v w => terminal_parse_attribute_ok _ w (Hp v)) as Hp2.
  unfold_escape. destruct (state t); try exact I;
    unfold terminal_at_xy_relative, terminal_at_xy; cbv zeta; split_ifs;
    split; cbn;
    auto using Forall_insert, Forall_block_set.
Qed.

Lemma normal_attributes_ok t c t' :
  geometry_ok t -> state t = TERMINAL_NORMAL_MODE -> attributes_ok t ->
  vt100_update t c = Some t' -> attributes_ok t'.
Proof.
  intros Hg Hst (Ha & Hs) Hup.
  pose proof vt100_default_attribute_ok as Hd.
  rewrite vt100_update_normal in Hup by assumption.
  destruct (normal_mode_byte t c) as [t1|] eqn:Hb; [|discriminate].
  injection Hup as <-.
  assert (H1 : attributes_ok t1).
  { revert Hb. unfold normal_mode_byte.
    destruct (c =? ESCAPE); [intros [= <-]; split; assumption|].
    destruct (c =? 9); [intros [= <-]; split; assumption|].
    destruct ((c =? 13) || (c =? 10)); [intros [= <-]; split; assumption|].
    destruct ((c =? DELETE) || (c =? BACKSPACE)).
    { unfold terminal_at_xy_relative, terminal_at_xy. cbv zeta.
      split_ifs; intros [= <-]; split; assumption. }
    destruct (cursor t <? size t); [|discriminate].
    intros [= <-]. split; cbn; auto using Forall_insert. }
  destruct H1 as (Ha1 & Hs1).
  unfold normal_mode_wrap, terminal_attribute_block_set.
  destruct (cursor t1 >=? size t1); split; cbn; auto using Forall_block_set.
Qed.

Lemma vt100_update_attributes_ok t c t' :
  screen_ok t -> attributes_ok t -> vt100_update t c = Some t' ->
  attributes_ok t'.
Proof.
  intros Hok Hat Hup.
  destruct (state t) eqn:Hst;
    [apply (normal_attributes_ok t c); auto; apply Hok|..].
  all: pose proof (escape_attributes_ok t c Hat) as He;
    rewrite vt100_update_escape in Hup by (try apply Hok; congruence);
    destruct (terminal_escape_sequences t c) as [[t1 r]|]; [|discriminate];
    destruct (negb (r =? 0)); injection Hup as <-; exact He.
Qed.

Lemma vt100_feed_attributes_ok bs : forall t,
  screen_ok t -> arrays_ok t -> attributes_ok t ->
  exists t', vt100_feed t bs = Some t' /\
             screen_ok t' /\ arrays_ok t' /\ attributes_ok t'.
Proof.
  induction bs as [|c bs IH]; intros t Hok Har Hat; cbn [vt100_feed].
  - exists t. auto.
  - destruct (vt100_update_ok t c Hok) as (t1 & Hup & Hok1 & _).
    rewrite Hup.
    destruct (vt100_update_off_screen t c t1 Hok Hup) as ((Hlm & _) & (Hla & _)).
    apply IH; [exact Hok1| |exact (vt100_update_attributes_ok t c t1 Hok Hat Hup)].
    destruct Har as (Hm & Ha). split; congruence.
Qed.

(** X17. The terminal that [main] sets up (any geometry of at most
    [VT100_MAX_SIZE] cells) has both cursors on the screen, arrays of
    [VT100_MAX_SIZE] cells, a blank screen and only colours of [color_t];
    and whatever bytes are then fed to it, no [assert] fails, the cursors
    stay on the screen, the arrays keep their length, and the current
    attribute and the attribute of every cell keep colours of [color_t]:
    no byte sequence can store a colour that [set_color] rejects. *)
Theorem X17_colours_stay_valid (w h : Z) (bs : list Z) :
  0 < w -> 0 < h -> w * h <= VT100_MAX_SIZE ->
  let t0 := vt100_initial w h in
  (screen_ok t0 /\ arrays_ok t0 /\ attributes_ok t0 /\ blank t0) /\
  exists t, vt100_feed t0 bs = Some t /\
            screen_ok t /\ arrays_ok t /\ attributes_ok t.
Proof.
  intros Hw Hh Hmax t0.
  pose proof (vt100_initial_ok w h Hw Hh Hmax) as Hinit. fold t0 in Hinit.
  split; [exact Hinit|].
  destruct Hinit as (Hok & Har & Hat & _).
  exact (vt100_feed_attributes_ok bs t0 Hok Har Hat).
Qed.

Lemma X17_colours_stay_valid_witness :
  let t0 := vt100_initial 80 40 in
  (screen_ok t0 /\ arrays_ok t0 /\ attributes_ok t0 /\ blank t0) /\
  exists t, vt100_feed t0 [ESCAPE; 91; 52; 53; 109; 65] = Some t /\
            screen_ok t /\ arrays_ok t /\ attributes_ok t.
Proof.
  apply (X17_colours_stay_valid 80 40 [ESCAPE; 91; 52; 53; 109; 65]).
  - lia.
  - lia.
  - vm_compute. congruence.
Defined.

(** ** The background texture *)

Module TextureFacts.
Import Texture.

Lemma In_upto n x : In x (upto n) <-> 0 <= x < n.
Proof.
  unfold upto. rewrite in_map_iff. split.
  - intros (k & <- & Hk). apply in_seq in Hk. lia.
  - intros Hx. exists (Z.to_nat x). split; [lia|]. apply in_seq. lia.
Qed.

Lemma texture_pixel_length img off bg :
  length (texture_pixel img off bg) = length img.
Proof. unfold texture_pixel. now rewrite !length_insert. Qed.

(** The four bytes of the pixel at [off]. *)
Lemma texture_pixel_inside img off bg :
  0 <= off -> (Z.to_nat (off + 3) < length img)%nat ->
  texture_pixel img off bg !! Z.to_nat off = Some (u8 (255 * Z.land bg 1)) /\
  texture_pixel img off bg !! Z.to_nat (off + 1) = Some (u8 (255 * Z.land bg 2)) /\
  texture_pixel img off bg !! Z.to_nat (off + 2) = Some (u8 (255 * Z.land bg 4)) /\
  texture_pixel img off bg !! Z.to_nat (off + 3) = Some 255.
Proof.
  intros Hoff Hlen. unfold texture_pixel. cbv zeta.
  repeat split.
  - rewrite !list_lookup_insert_ne by lia.
    apply list_lookup_insert_eq. lia.
  - rewrite !list_lookup_insert_ne by lia.
    apply list_lookup_insert_eq. rewrite !length_insert. lia.
  - rewrite !list_lookup_insert_ne by lia.
    apply list_lookup_insert_eq. rewrite !length_insert. lia.
  - apply list_lookup_insert_eq. rewrite !length_insert. lia.
Qed.

(** The other bytes are kept. *)
Lemma texture_pixel_outside img off bg (q : nat) :
  0 <= off -> (Z.of_nat q < off \/ off + 3 < Z.of_nat q) ->
  texture_pixel img off bg !! q = img !! q.
Proof.
  intros Hoff Hq. unfold texture_pixel. cbv zeta.
  rewrite !list_lookup_insert_ne by lia. reflexivity.
Qed.

(** A sequence of pixel stores at offsets that are multiples of 4: the
    bytes at the offset of [p0] are those of the value of [p0], when every
    store at that offset stores that value. *)
Section Stores.
Context {P : Type} (off val : P -> Z).

Local Abbreviation store := (fun (img : list Z) (p : P) =>
                           texture_pixel img (off p) (val p)).

Lemma fold_store_length ps : forall img,
  length (fold_left store ps img) = length img.
Proof.
  induction ps as [|p ps IH]; intros img; cbn; [reflexivity|].
  rewrite IH. apply texture_pixel_length.
Qed.

Lemma fold_store_lookup ps : forall img p0,
  In p0 ps ->
  (forall p, In p ps ->
     0 <= off p /\ (Z.to_nat (off p + 3) < length img)%nat /\
     off p mod 4 = 0 /\ (off p = off p0 -> val p = val p0)) ->
  texture_pixel (fold_left store ps img) (off p0) (val p0) =
  fold_left store ps img.
Proof.
  induction ps as [|p ps IH] using rev_ind; intros img p0 Hin Hall;
    [contradiction|].
  rewrite fold_left_app. cbn [fold_left].
  assert (Hp : 0 <= off p /\ (Z.to_nat (off p + 3) < length img)%nat /\
               off p mod 4 = 0 /\ (off p = off p0 -> val p = val p0))
    by (apply Hall, in_or_app; right; now left).
  assert (Hp0 : 0 <= off p0 /\ (Z.to_nat (off p0 + 3) < length img)%nat /\
                off p0 mod 4 = 0)
    by (destruct (Hall p0 Hin) as (? & ? & ? & _); auto).
  destruct Hp as (Hp1 & Hp2 & Hp3 & Hp4), Hp0 as (Hq1 & Hq2 & Hq3).
  set (X := fold_left store ps img).
  assert (HlX : length X = length img) by apply fold_store_length.
  destruct (Z.eq_dec (off p) (off p0)) as [E|E].
  - rewrite <- E, (Hp4 E).
    apply list_eq. intros q.
    destruct (Z_lt_dec (Z.of_nat q) (off p)) as [Hlt|Hge];
      [now rewrite !texture_pixel_outside by lia|].
    destruct (Z_lt_dec (off p + 3) (Z.of_nat q)) as [Hgt|Hle];
      [now rewrite !texture_pixel_outside by lia|].
    destruct (texture_pixel_inside (texture_pixel X (off p) (val p0)) (off p) (val p0))
      as (A0 & A1 & A2 & A3); [lia | rewrite texture_pixel_length; lia |].
    destruct (texture_pixel_inside X (off p) (val p0))
      as (B0 & B1 & B2 & B3); [lia | lia |].
    assert (Hq : q = Z.to_nat (off p) \/ q = Z.to_nat (off p + 1) \/
                 q = Z.to_nat (off p + 2) \/ q = Z.to_nat (off p + 3)) by lia.
    destruct Hq as [-> | [-> | [-> | ->]]]; congruence.
  - assert (Hin' : In p0 ps).
    { apply in_app_or in Hin as [H|[H|[]]]; [exact H|]. subst. contradiction. }
    assert (IH' : texture_pixel X (off p0) (val p0) = X).
    { apply IH; auto. intros p' Hp'. apply Hall, in_or_app. now left. }
    assert (Hdis : off p + 3 < off p0 \/ off p0 + 3 < off p).
    { pose proof (Z.div_mod (off p) 4 ltac:(lia)).
      pose proof (Z.div_mod (off p0) 4 ltac:(lia)). lia. }
    apply list_eq. intros q.
    destruct (Z_lt_dec (Z.of_nat q) (off p0)) as [Hlt|Hge].
    { rewrite (texture_pixel_outside _ (off p0)) by lia. reflexivity. }
    destruct (Z_lt_dec (off p0 + 3) (Z.of_nat q)) as [Hgt|Hle].
    { rewrite (texture_pixel_outside _ (off p0)) by lia. reflexivity. }
    assert (Hout : forall Y, texture_pixel Y (off p) (val p) !! q = Y !! q)
      by (intros; apply texture_pixel_outside; lia).
    rewrite Hout.
    destruct (texture_pixel_inside (texture_pixel X (off p) (val p)) (off p0) (val p0))
      as (A0 & A1 & A2 & A3); [lia | rewrite texture_pixel_length; lia |].
    destruct (texture_pixel_inside X (off p0) (val p0))
      as (B0 & B1 & B2 & B3); [lia | lia |].
    rewrite <- IH' at 2.
    assert (Hq : q = Z.to_nat (off p0) \/ q = Z.to_nat (off p0 + 1) \/
                 q = Z.to_nat (off p0 + 2) \/ q = Z.to_nat (off p0 + 3)) by lia.
    destruct Hq as [-> | [-> | [-> | ->]]]; congruence.
Qed.
End Stores.

(** The two nested loops as one sequence of stores. *)
Lemma nested_fold (f : list Z -> Z * Z -> list Z) (rows cols : list Z) :
  forall img : list Z,
  fold_left (fun img i => fold_left (fun img j => f img (i, j)) cols img)
    rows img =
  fold_left f (flat_map (fun i => map (pair i) cols) rows) img.
Proof.
  induction rows as [|i rows IH]; intros img; cbn [fold_left flat_map];
    [reflexivity|].
  rewrite fold_left_app, IH. f_equal.
  clear. revert img. induction cols as [|j cols IHj]; intros img; cbn; auto.
Qed.

(** The image written by [texture_background], as one sequence of
    stores. *)
Lemma texture_background_image vt v :
  image (texture_background vt v) =
  fold_left
    (fun (img : list Z) (p : Z * Z) =>
       texture_pixel img (texture_offset v (fst p) (snd p))
         (background_at vt (texture_index v vt (fst p) (snd p))))
    (flat_map (fun i => map (pair i) (upto (width v))) (upto (height v)))
    (image v).
Proof.
  exact (nested_fold
           (fun (img : list Z) (p : Z * Z) =>
              texture_pixel img (texture_offset v (fst p) (snd p))
                (background_at vt (texture_index v vt (fst p) (snd p))))
           (upto (height v)) (upto (width v)) (image v)).
Qed.

Lemma In_pairs (rows cols : list Z) i j :
  In (i, j) (flat_map (fun i => map (pair i) cols) rows) <->
  In i rows /\ In j cols.
Proof.
  rewrite in_flat_map. split.
  - intros (i' & Hi & Hj). apply in_map_iff in Hj as (j' & [= -> ->] & Hj).
    auto.
  - intros (Hi & Hj). exists i. split; [exact Hi|]. now apply in_map.
Qed.

(** [texture_index] and [texture_offset] without wrap-around. *)
Lemma texture_index_spec v vt i j :
  geometry_ok vt ->
  0 < width v <= 65536 -> 0 < height v <= 65536 ->
  0 <= i < height v -> 0 <= j < width v ->
  let col := (vt_width vt * j) / width v in
  let row := ((height v - 1 - i) * vt_height vt) / height v in
  texture_index v vt i j = row * vt_width vt + col /\
  0 <= col < vt_width vt /\ 0 <= row < vt_height vt /\
  0 <= row * vt_width vt + col < size vt.
Proof.
  intros Hg Hw Hh Hi Hj col row.
  pose proof (geometry_bounds vt Hg) as (HW & HH & Hz).
  assert (Hsz : size vt = vt_width vt * vt_height vt) by apply Hg.
  fold (vt_width vt) in HW. fold (vt_height vt) in HH.
  assert (Hcol : 0 <= col < vt_width vt).
  { unfold col. split; [apply Z.div_pos; nia|].
    apply Z.div_lt_upper_bound; nia. }
  assert (Hrow : 0 <= row < vt_height vt).
  { unfold row. split; [apply Z.div_pos; nia|].
    apply Z.div_lt_upper_bound; nia. }
  split; [|split; [exact Hcol|split; [exact Hrow|nia]]].
  unfold texture_index. cbv zeta.
  rewrite (u32_small (height v - i)) by lia.
  rewrite (u32_small (height v - i - 1)) by lia.
  rewrite (u32_small ((height v - i - 1) * vt_height vt)) by nia.
  rewrite (u32_small (vt_width vt * j)) by nia.
  replace (height v - i - 1) with (height v - 1 - i) by lia.
  fold row col. rewrite (u32_small (row * vt_width vt)) by nia.
  rewrite u32_small by nia. lia.
Qed.

Lemma texture_offset_spec v i j :
  0 < width v -> 0 < height v -> 4 * width v * height v < 2 ^ 32 ->
  0 <= i < height v -> 0 <= j < width v ->
  texture_offset v i j = 4 * (i + height v * j) /\
  0 <= texture_offset v i j /\
  texture_offset v i j + 3 < 4 * width v * height v.
Proof.
  intros Hw Hh Hb Hi Hj. unfold texture_offset.
  rewrite (u32_small (i * 4)) by nia.
  rewrite (u32_small (j * height v)) by nia.
  rewrite (u32_small (j * height v * 4)) by nia. nia.
Qed.

(** Two pixels at the same offset are the same pixel. *)
Lemma offset_injective h i j i' j' :
  0 <= i < h -> 0 <= i' < h ->
  4 * (i + h * j) = 4 * (i' + h * j') -> i = i' /\ j = j'.
Proof.
  intros Hi Hi' E.
  assert (E1 : i = (i' + h * j') mod h)
    by (apply (Z.mod_unique_pos _ _ j); lia).
  assert (E2 : i' = (i' + h * j') mod h)
    by (apply (Z.mod_unique_pos _ _ j'); lia).
  assert (i = i') by congruence. split; [assumption|]. nia.
Qed.

(** The bytes stored for a colour: each channel is 255 times the masked
    colour, cut to eight bits. *)
Lemma channel_bytes bg :
  0 <= bg <= 7 ->
  u8 (255 * Z.land bg 1) = (if Z.testbit bg 0 then 255 else 0) /\
  u8 (255 * Z.land bg 2) = (if Z.testbit bg 1 then 254 else 0) /\
  u8 (255 * Z.land bg 4) = (if Z.testbit bg 2 then 252 else 0).
Proof.
  intros Hb.
  assert (H : bg = 0 \/ bg = 1 \/ bg = 2 \/ bg = 3 \/ bg = 4 \/ bg = 5 \/
              bg = 6 \/ bg = 7) by lia.
  destruct H as [-> | [-> | [-> | [-> | [-> | [-> | [-> | ->]]]]]]];
    repeat split; reflexivity.
Qed.

(** X18. [texture_background] leaves the size of the image alone and
    paints, for row [i] and column [j] of the texture, the four bytes at
    image index [4 * (i + height * j)] from the background colour of one
    screen cell: column [vt_width * j / width] of row
    [(height - 1 - i) * vt_height / height], which is always a cell of the
    screen.  The bytes are 255 for a colour with bit 0 set, 254 with bit 1
    set and 252 with bit 2 set (255 times the masked colour, cut to a
    byte), 0 otherwise, and 255 for the fourth. *)
Theorem X18_texture_background (vt : vt100_t) (v : vt100_background_texture_t)
    (i j : Z) :
  geometry_ok vt -> arrays_ok vt -> Forall attribute_ok (attributes vt) ->
  0 < width v <= 65536 -> 0 < height v <= 65536 ->
  4 * width v * height v < 2 ^ 32 ->
  4 * width v * height v <= Z.of_nat (length (image v)) ->
  0 <= i < height v -> 0 <= j < width v ->
  let v' := texture_background vt v in
  let col := (vt_width vt * j) / width v in
  let row := ((height v - 1 - i) * vt_height vt) / height v in
  let off := Z.to_nat (4 * (i + height v * j)) in
  length (image v') = length (image v) /\
  0 <= col < vt_width vt /\ 0 <= row < vt_height vt /\
  exists a,
    attributes vt !! Z.to_nat (row * vt_width vt + col) = Some a /\
    image v' !! off =
      Some (if Z.testbit (background_color a) 0 then 255 else 0) /\
    image v' !! (off + 1)%nat =
      Some (if Z.testbit (background_color a) 1 then 254 else 0) /\
    image v' !! (off + 2)%nat =
      Some (if Z.testbit (background_color a) 2 then 252 else 0) /\
    image v' !! (off + 3)%nat = Some 255.
Proof.
  intros Hg Harr Hattr Hw Hh Hb Hlen Hi Hj v' col row off.
  pose proof (texture_index_spec v vt i j Hg Hw Hh Hi Hj) as (Hidx & Hcol & Hrow & Hcell).
  fold col row in Hidx, Hcol, Hrow, Hcell.
  pose proof (texture_offset_spec v i j ltac:(lia) ltac:(lia) Hb Hi Hj)
    as (Hoff & Hoff0 & Hoff3).
  assert (Hmax : size vt <= 8192) by apply Hg.
  destruct Harr as (_ & Hla).
  destruct (lookup_lt_is_Some_2 (attributes vt) (Z.to_nat (row * vt_width vt + col)))
    as (a & Ha).
  { rewrite Hla. unfold VT100_MAX_SIZE. lia. }
  assert (Hok : attribute_ok a) by exact (Forall_lookup_1 _ _ _ _ Hattr Ha).
  destruct (channel_bytes (background_color a)) as (C0 & C1 & C2);
    [apply Hok|].
  unfold v'. rewrite texture_background_image.
  set (offf := fun p : Z * Z => texture_offset v (fst p) (snd p)).
  set (valf := fun p : Z * Z =>
                 background_at vt (texture_index v vt (fst p) (snd p))).
  set (pairs := flat_map _ _).
  assert (Hval : valf (i, j) = background_color a).
  { unfold valf, background_at. cbn [fst snd]. now rewrite Hidx, Ha. }
  assert (E : texture_pixel
                (fold_left (fun img p => texture_pixel img (offf p) (valf p))
                   pairs (image v)) (offf (i, j)) (valf (i, j)) =
              fold_left (fun img p => texture_pixel img (offf p) (valf p))
                pairs (image v)).
  { apply (fold_store_lookup offf valf).
    - apply In_pairs. rewrite !In_upto. lia.
    - intros [i' j'] Hin. apply In_pairs in Hin. rewrite !In_upto in Hin.
      destruct Hin as (Hi' & Hj').
      pose proof (texture_offset_spec v i' j' ltac:(lia) ltac:(lia) Hb Hi' Hj')
        as (Ho & Ho0 & Ho3).
      unfold offf; cbn [fst snd]. split; [exact Ho0|]. split; [lia|].
      split.
      + rewrite Ho, Z.mul_comm. apply Z.mod_mul. lia.
      + intros Eo. rewrite Ho, Hoff in Eo.
        destruct (offset_injective (height v) i' j' i j) as (-> & ->);
          auto. }
  change (fold_left _ pairs (image v))
    with (fold_left (fun img p => texture_pixel img (offf p) (valf p))
            pairs (image v)).
  set (R := fold_left _ pairs (image v)) in *.
  assert (HlR : length R = length (image v))
    by apply (fold_store_length offf valf).
  split; [exact HlR|]. split; [exact Hcol|]. split; [exact Hrow|].
  exists a. split; [exact Ha|].
  destruct (texture_pixel_inside R (offf (i, j)) (valf (i, j)))
    as (B0 & B1 & B2 & B3).
  { unfold offf; cbn [fst snd]. lia. }
  { unfold offf; cbn [fst snd]. lia. }
  rewrite E in B0, B1, B2, B3. unfold offf in B0, B1, B2, B3.
  cbn [fst snd] in B0, B1, B2, B3. rewrite Hoff in B0, B1, B2, B3.
  rewrite Hval in B0, B1, B2.
  rewrite C0 in B0. rewrite C1 in B1. rewrite C2 in B2.
  unfold off.
  replace (Z.to_nat (4 * (i + height v * j)) + 1)%nat
    with (Z.to_nat (4 * (i + height v * j) + 1)) by lia.
  replace (Z.to_nat (4 * (i + height v * j)) + 2)%nat
    with (Z.to_nat (4 * (i + height v * j) + 2)) by lia.
  replace (Z.to_nat (4 * (i + height v * j)) + 3)%nat
    with (Z.to_nat (4 * (i + height v * j) + 3)) by lia.
  auto.
Qed.

Lemma X18_texture_background_witness :
  let vt := vga_terminal in
  let v := mk_texture 2 2 0 (replicate 16 7) in
  let v' := texture_background vt v in
  length (image v') = length (image v) /\
  0 <= (vt_width vt * 0) / 2 < vt_width vt /\
  0 <= ((2 - 1 - 1) * vt_height vt) / 2 < vt_height vt /\
  exists a,
    attributes vt !! Z.to_nat ((2 - 1 - 1) * vt_height vt / 2 * vt_width vt
                               + vt_width vt * 0 / 2) = Some a /\
    image v' !! Z.to_nat (4 * (1 + 2 * 0)) =
      Some (if Z.testbit (background_color a) 0 then 255 else 0) /\
    image v' !! (Z.to_nat (4 * (1 + 2 * 0)) + 1)%nat =
      Some (if Z.testbit (background_color a) 1 then 254 else 0) /\
    image v' !! (Z.to_nat (4 * (1 + 2 * 0)) + 2)%nat =
      Some (if Z.testbit (background_color a) 2 then 252 else 0) /\
    image v' !! (Z.to_nat (4 * (1 + 2 * 0)) + 3)%nat = Some 255.
Proof.
  intros vt v.
  apply (X18_texture_background vt v 1 0).
  - unfold geometry_ok; vm_compute. repeat split; congruence.
  - split; reflexivity.
  - unfold attribute_ok. refine (bool_decide_unpack _ _). vm_compute. exact I.
  - cbn. lia.
  - cbn. lia.
  - reflexivity.
  - vm_compute. congruence.
  - cbn. lia.
  - cbn. lia.
Defined.

End TextureFacts.

(** ** The keyboard handlers *)

Module SimulatorFacts.
Import Simulator.






End SimulatorFacts.
